(** * Exam-attendance app (javadroid/fulafia212): registration and attendance
      uniqueness checks, and the reporting aggregation

    A shallow embedding of the business logic of the React Native screens
    [StudentRegistration], [StudentVerification], [AttendanceReports],
    [AttendanceDetailModal], [StudentDetails] and [HomeScreen].

    - JavaScript values: strings are [string], one [ascii] per code unit, so
      the model covers the texts whose code units are below 256 (Latin-1);
      numbers produced by [Math.round] are IEEE binary64 [float]s, array
      lengths are [nat], a difference of lengths is a [Z].
    - React state is a record per screen; a handler is a function in a small
      state monad over the screen state and the outside world.
    - The outside world is the remote table store, the outcome of every
      pending remote call, the console and the list of requests sent. *)

From Stdlib Require Import Bool List ZArith Lia String Ascii.
From Stdlib Require Import Permutation Sorted OrderedTypeEx.
From Stdlib Require Import Floats.PrimFloat Floats.FloatAxioms Uint63.
From Stdlib Require Import DecimalString.
Import ListNotations.

Open Scope bool_scope.
Open Scope string_scope.

(* ===================================================================== *)
(** ** JavaScript built-ins used by the screens *)
(* ===================================================================== *)

Module JS.

  (** [Array.prototype.includes] on an array of strings: a left-to-right scan
      with strict equality. *)
Fixpoint includes (a : list string) (x : string) : bool :=
    match a with
    | [] => false
    | y :: a' => if String.eqb y x then true else includes a' x
    end.

  (** [Array.prototype.some]. *)
Definition some {A} (p : A -> bool) (a : list A) : bool := existsb p a.

  (** [Array.prototype.find]. *)
Definition find {A} (p : A -> bool) (a : list A) : option A := List.find p a.

  (** A JS number holding an array length. *)
Definition Number (n : nat) : float := of_uint63 (Uint63.of_Z (Z.of_nat n)).

Definition two52 : float := 4503599627370496%float.

  (** Largest integral double not above [x], for [|x| < 2^52]. *)
Definition floor (x : float) : float :=
    let r := if (x <? 0)%float then ((x - two52) + two52)%float
             else ((x + two52) - two52)%float in
    if (x <? r)%float then (r - 1)%float else r.

  (** [Math.round]: the integral double closest to [x], ties towards
      [+Infinity]; NaN, infinities, zeros and integral values are returned
      unchanged, and values in [[-0.5, 0)] give [-0]. *)
Definition Math_round (x : float) : float :=
    if is_nan x || is_infinity x || (two52 <=? abs x)%float || (x =? 0)%float
    then x
    else if (x <? 0)%float && (-0.5 <=? x)%float then (-0)%float
    else let f := floor x in
         if (0.5 <=? x - f)%float then (f + 1)%float else f.

  (** The capital of a code unit, where it is one code unit: a-z (97-122)
      and, in the upper half, 224-254 without the division sign (247). *)
Definition upper_char (c : ascii) : ascii :=
    let n := nat_of_ascii c in
    if ((97 <=? n)%nat && (n <=? 122)%nat)
       || ((224 <=? n)%nat && (n <=? 254)%nat && negb (n =? 247)%nat)
    then ascii_of_nat (n - 32) else c.

  (** [String.prototype.toUpperCase].  The sharp s (223) becomes "SS".  The
      capitals of the micro sign (181) and of y with diaeresis (255) are
      U+039C and U+0178, which no [ascii] holds: the two are left as they
      are, and what is stated of an upper-cased text is stated of the texts
      without them, see [upper_fits]. *)
Fixpoint toUpperCase (s : string) : string :=
    match s with
    | EmptyString => EmptyString
    | String c s' =>
        if (nat_of_ascii c =? 223)%nat
        then String "S" (String "S" (toUpperCase s'))
        else String (upper_char c) (toUpperCase s')
    end.

  (** The capital of every code unit of the text is below 256. *)
Fixpoint upper_fits (s : string) : bool :=
    match s with
    | EmptyString => true
    | String c s' =>
        negb (nat_of_ascii c =? 181)%nat && negb (nat_of_ascii c =? 255)%nat
        && upper_fits s'
    end.

  (** White space and line terminators removed by [String.prototype.trim],
      below 256: TAB, LF, VT, FF, CR, SPACE and the no-break space (160). *)
Definition is_space (c : ascii) : bool :=
    let n := nat_of_ascii c in
    ((9 <=? n)%nat && (n <=? 13)%nat) || (n =? 32)%nat || (n =? 160)%nat.

Fixpoint trimStart (s : string) : string :=
    match s with
    | EmptyString => EmptyString
    | String c s' => if is_space c then trimStart s' else s
    end.

Fixpoint trimEnd (s : string) : string :=
    match s with
    | EmptyString => EmptyString
    | String c s' =>
        match trimEnd s' with
        | EmptyString => if is_space c then EmptyString else String c EmptyString
        | t => String c t
        end
    end.

Definition trim (s : string) : string := trimEnd (trimStart s).

  (** Truthiness of a string: the empty string is the only falsy one. *)
Definition truthy (s : string) : bool := negb (String.eqb s "").

  (** [Array.prototype.join]. *)
Definition join (sep : string) (a : list string) : string :=
    String.concat sep a.

  (** [new Set(iterable)] followed by [Array.from]: the elements in the order
      of their first insertion. *)
Definition Set_add (seen : list string) (x : string) : list string :=
    if includes seen x then seen else seen ++ [x].

Definition Array_from_Set (a : list string) : list string :=
    fold_left Set_add a [].

  (** [Array.prototype.sort] without comparator, on strings: ascending in the
      code-unit order.  The order is total and antisymmetric, so the sorted
      array does not depend on the algorithm; insertion sort stands for it. *)
Fixpoint sort_insert (x : string) (a : list string) : list string :=
    match a with
    | [] => [x]
    | y :: a' => if String.leb x y then x :: a else y :: sort_insert x a'
    end.

Fixpoint sort (a : list string) : list string :=
    match a with
    | [] => []
    | x :: a' => sort_insert x (sort a')
    end.

(** [String.prototype.toLowerCase], one code unit at a time: A-Z (65-90)
    and, in the upper half, 192-222 without the multiplication sign (215). *)
Definition lower_char (c : ascii) : ascii :=
  let n := nat_of_ascii c in
  if ((65 <=? n)%nat && (n <=? 90)%nat)
     || ((192 <=? n)%nat && (n <=? 222)%nat && negb (n =? 215)%nat)
  then ascii_of_nat (n + 32) else c.

Fixpoint toLowerCase (s : string) : string :=
  match s with
  | EmptyString => EmptyString
  | String c s' => String (lower_char c) (toLowerCase s')
  end.

(** [String.prototype.includes]: the text occurs at some position. *)
Fixpoint String_includes (s q : string) : bool :=
  if String.prefix q s then true
  else match s with
       | EmptyString => false
       | String _ s' => String_includes s' q
       end.

(** [Array.prototype.reverse]. *)
Definition reverse {A} (a : list A) : list A := rev a.

End JS.

(* ===================================================================== *)
(** ** Data model ([../types]) *)
(* ===================================================================== *)

Module Student.
Record t := mk {
    id : string;
    fullName : string;
    matricNumber : string;
    image : string;
    session : string;
    semester : string;
    courses : list string;
    registrationDate : string
  }.
End Student.

Module CourseAttendance.
Record t := mk {
    id : string;
    matricNumber : string;
    courseCode : string;
    verificationDate : string;
    invigilatorName : string
  }.
End CourseAttendance.

(** A row of the table the home screen reads the enrollments from. *)
Module StudentCourse.
Record t := mk {
    student_id : string;
    course_code : string
  }.
End StudentCourse.

(* ===================================================================== *)
(** ** The remote table store and its client ([../lib/supabase]) *)
(* ===================================================================== *)

Module Supabase.

Record PostgrestError := mkError { code : string; message : string }.

(** What a query resolves to: [{ data, error }]. *)
Record Response (A : Type) := mkResponse {
  data : option A;
  error : option PostgrestError
}.
Arguments mkResponse {A} _ _.
Arguments data {A} _.
Arguments error {A} _.

(** The tables the screens name.  Rows are typed by the fields the screens
    read; the spelling of the column names is not represented.  [id_gen]
    is the identifier the store gives to the n-th attendance row inserted
    without one. *)
Record DB := mkDB {
  students : list Student.t;
  course_attendance : list CourseAttendance.t;
  attendance_records : list CourseAttendance.t;
  student_courses : list StudentCourse.t;
  id_gen : nat -> string
}.

(** A request as the client builds it: [from(table)], then [select] with its
    [eq] filters and possibly [single], or [insert]. *)
Inductive Request :=
| Select (table : string) (eqs : list (string * string)) (single : bool)
| Insert (table : string).

(** What happens to a remote call, independently of the store: it reaches the
    store and is answered, or it fails with an error and the store is not
    touched. *)
Inductive Outcome :=
| Delivered
| Failed (e : PostgrestError).

(** [.single()]: exactly one row, or the error PGRST116. *)
Definition single {A} (rows : list A) : Response A :=
  match rows with
  | [r] => mkResponse (Some r) None
  | _ => mkResponse None
           (Some (mkError "PGRST116"
                    "JSON object requested, multiple (or no) rows returned"))
  end.

Definition rows {A} (rs : list A) : Response (list A) :=
  mkResponse (Some rs) None.

Definition set_students (v : list Student.t) (d : DB) : DB :=
  mkDB v (course_attendance d) (attendance_records d) (student_courses d)
       (id_gen d).

Definition set_course_attendance (v : list CourseAttendance.t) (d : DB) : DB :=
  mkDB (students d) v (attendance_records d) (student_courses d) (id_gen d).

End Supabase.

(* ===================================================================== *)
(** ** The world outside a screen, and the monad of handlers *)
(* ===================================================================== *)

Record World := mkWorld {
  db : Supabase.DB;
  (** outcomes of the remote calls still to come, in order; when the list is
      exhausted every call is delivered *)
  net : list Supabase.Outcome;
  (** labels of the [console.error] calls, oldest first *)
  console : list string;
  (** requests sent, oldest first *)
  sent : list Supabase.Request;
  (** delays of the pending [setTimeout(() => setMessage(null), ms)] *)
  timers : list nat
}.

Record Sys (UI : Type) := mkSys { ui : UI; world : World }.
Arguments mkSys {UI} _ _.
Arguments ui {UI} _.
Arguments world {UI} _.

Definition M (UI A : Type) : Type := Sys UI -> A * Sys UI.

Definition ret {UI A} (a : A) : M UI A := fun s => (a, s).

Definition bind {UI A B} (m : M UI A) (k : A -> M UI B) : M UI B :=
  fun s => let (a, s') := m s in k a s'.

Declare Scope handler_scope.
Delimit Scope handler_scope with handler.
Notation "x <- m ;; k" := (bind m (fun x => k))
  (at level 61, m at next level, right associativity) : handler_scope.
Notation "m ;; k" := (bind m (fun _ => k))
  (at level 61, right associativity) : handler_scope.
Open Scope handler_scope.

Definition getState {UI} : M UI UI := fun s => (ui s, s).

Definition setState {UI} (f : UI -> UI) : M UI unit :=
  fun s => (tt, mkSys (f (ui s)) (world s)).

Definition inWorld {UI A} (f : World -> A * World) : M UI A :=
  fun s => let (a, w) := f (world s) in (a, mkSys (ui s) w).

(** Final state of a handler. *)
Definition exec {UI A} (m : M UI A) (s : Sys UI) : Sys UI := snd (m s).

(** Value returned by a handler. *)
Definition eval {UI A} (m : M UI A) (s : Sys UI) : A := fst (m s).

Definition console_error (label : string) (w : World) : unit * World :=
  (tt, mkWorld (db w) (net w) (console w ++ [label]) (sent w) (timers w)).

Definition setTimeout (ms : nat) (w : World) : unit * World :=
  (tt, mkWorld (db w) (net w) (console w) (sent w) (timers w ++ [ms])).

(** One remote round trip: the request is recorded, the next outcome is
    consumed; a delivered request is run on the store, a failed one answers
    [{ data: null, error }] and leaves the store as it is. *)
Definition call {A} (req : Supabase.Request)
    (run : Supabase.DB -> Supabase.Response A * Supabase.DB) (w : World)
  : Supabase.Response A * World :=
  match net w with
  | Supabase.Failed e :: rest =>
      (Supabase.mkResponse None (Some e),
       mkWorld (db w) rest (console w) (sent w ++ [req]) (timers w))
  | o =>
      let (r, d) := run (db w) in
      (r, mkWorld d (tl o) (console w) (sent w ++ [req]) (timers w))
  end.

(** [from('students').select(..).eq('matricNumber', m).single()] *)
Definition students_eq_matricNumber_single (m : string)
  : World -> Supabase.Response Student.t * World :=
  call (Supabase.Select "students" [("matricNumber", m)] true)
       (fun d =>
          (Supabase.single
             (filter (fun s => String.eqb (Student.matricNumber s) m)
                     (Supabase.students d)), d)).

(** [from('students').select('*')] *)
Definition students_select_all
  : World -> Supabase.Response (list Student.t) * World :=
  call (Supabase.Select "students" [] false)
       (fun d => (Supabase.rows (Supabase.students d), d)).

(** [from('students').insert([row])] *)
Definition students_insert (row : Student.t)
  : World -> Supabase.Response unit * World :=
  call (Supabase.Insert "students")
       (fun d => (Supabase.mkResponse None None,
                  Supabase.set_students (Supabase.students d ++ [row]) d)).

(** [from('course_attendance').select('*').eq('matricNumber', m)
      .eq('courseCode', c)] *)
Definition course_attendance_eq_eq (m c : string)
  : World -> Supabase.Response (list CourseAttendance.t) * World :=
  call (Supabase.Select "course_attendance"
          [("matricNumber", m); ("courseCode", c)] false)
       (fun d =>
          (Supabase.rows
             (filter (fun a =>
                        String.eqb (CourseAttendance.matricNumber a) m
                        && String.eqb (CourseAttendance.courseCode a) c)
                     (Supabase.course_attendance d)), d)).

(** [from('course_attendance').select('*')] *)
Definition course_attendance_select_all
  : World -> Supabase.Response (list CourseAttendance.t) * World :=
  call (Supabase.Select "course_attendance" [] false)
       (fun d => (Supabase.rows (Supabase.course_attendance d), d)).

(** [from('course_attendance').insert([attendance])], the row having no
    [id] of its own. *)
Definition course_attendance_insert
    (matricNumber courseCode verificationDate invigilatorName : string)
  : World -> Supabase.Response unit * World :=
  call (Supabase.Insert "course_attendance")
       (fun d =>
          let rs := Supabase.course_attendance d in
          (Supabase.mkResponse None None,
           Supabase.set_course_attendance
             (rs ++ [CourseAttendance.mk (Supabase.id_gen d (List.length rs))
                       matricNumber courseCode verificationDate
                       invigilatorName]) d)).

(** [from('attendance_records').select('*')] *)
Definition attendance_records_select_all
  : World -> Supabase.Response (list CourseAttendance.t) * World :=
  call (Supabase.Select "attendance_records" [] false)
       (fun d => (Supabase.rows (Supabase.attendance_records d), d)).

(** [from('student_courses').select('*')] *)
Definition student_courses_select_all
  : World -> Supabase.Response (list StudentCourse.t) * World :=
  call (Supabase.Select "student_courses" [] false)
       (fun d => (Supabase.rows (Supabase.student_courses d), d)).

(** The message banner of a screen. *)
Module Msg.
Inductive kind := success | error | info.
Record t := mk { type : kind; text : string }.
End Msg.

(** The two readings of the clock a handler takes. *)
Record Clock := mkClock {
  Date_now_toString : string;
  toISOString : string
}.

(* ===================================================================== *)
(** ** AttendanceReports: aggregation over the lists held in state *)
(* ===================================================================== *)

Module AttendanceReports.

Record CourseStats := mkStats {
    registered : nat;
    attended : nat;
    percentage : float
  }.

Section Component.
Variable students : list Student.t.
Variable attendanceRecords : list CourseAttendance.t.

Definition allCourses : list string :=
      JS.sort (JS.Array_from_Set (flat_map Student.courses students)).

Definition getStudentsForCourse (courseCode : string) : list Student.t :=
      filter (fun student => JS.includes (Student.courses student) courseCode)
             students.

Definition getAttendanceForCourse (courseCode : string)
      : list CourseAttendance.t :=
      filter (fun record =>
                String.eqb (CourseAttendance.courseCode record) courseCode)
             attendanceRecords.

Definition getCourseStats (courseCode : string) : CourseStats :=
      let registeredStudents := getStudentsForCourse courseCode in
      let attendanceList := getAttendanceForCourse courseCode in
      {| registered := List.length registeredStudents;
         attended := List.length attendanceList;
         percentage :=
           if (0 <? List.length registeredStudents)%nat
           then JS.Math_round
                  ((JS.Number (List.length attendanceList)
                    / JS.Number (List.length registeredStudents)) * 100)%float
           else 0%float |}.

    (** [getAttendanceDetails]: one entry per attendance row of the course
        whose student is found. *)
Definition getAttendanceDetails (courseCode : string)
      : list (Student.t * CourseAttendance.t) :=
      flat_map
        (fun attendance =>
           match JS.find (fun s => String.eqb (Student.matricNumber s)
                                     (CourseAttendance.matricNumber attendance))
                         students with
           | Some student => [(student, attendance)]
           | None => []
           end)
        (getAttendanceForCourse courseCode).
End Component.

Record State := mkState {
  selectedCourse : string;
  detailModalCourse : option string;
  students : list Student.t;
  attendanceRecords : list CourseAttendance.t;
  loading : bool;
  error : option string
}.

Definition initialState : State := mkState "" None [] [] true None.

Definition setStudents (v : list Student.t) : M State unit :=
  setState (fun s => mkState (selectedCourse s) (detailModalCourse s) v
                       (attendanceRecords s) (loading s) (error s)).

Definition setAttendanceRecords (v : list CourseAttendance.t) : M State unit :=
  setState (fun s => mkState (selectedCourse s) (detailModalCourse s)
                       (students s) v (loading s) (error s)).

Definition setLoading (v : bool) : M State unit :=
  setState (fun s => mkState (selectedCourse s) (detailModalCourse s)
                       (students s) (attendanceRecords s) v (error s)).

Definition setError (v : option string) : M State unit :=
  setState (fun s => mkState (selectedCourse s) (detailModalCourse s)
                       (students s) (attendanceRecords s) (loading s) v).

(** [data || []] *)
Definition orEmpty {A} (d : option (list A)) : list A :=
  match d with Some l => l | None => [] end.

(** The effect run when the screen is mounted; the [throw]s land in the
    [catch], and [finally] clears the loading flag. *)
Definition fetchData : M State unit :=
  setLoading true;;
  setError None;;
  r1 <- inWorld students_select_all;;
  match Supabase.error r1 with
  | Some _ =>
      inWorld (console_error "Error fetching data:");;
      setError (Some "Failed to load data. Please try again.");;
      setLoading false
  | None =>
      setStudents (orEmpty (Supabase.data r1));;
      r2 <- inWorld course_attendance_select_all;;
      match Supabase.error r2 with
      | Some _ =>
          inWorld (console_error "Error fetching data:");;
          setError (Some "Failed to load data. Please try again.");;
          setLoading false
      | None =>
          setAttendanceRecords (orEmpty (Supabase.data r2));;
          setLoading false
      end
  end.

(** The course cards drawn: the selected course, or all of them. *)
Definition shownCourses (st : State) : list string :=
  if JS.truthy (selectedCourse st) then [selectedCourse st]
  else allCourses (students st).

(** "Total Enrollments":
    [students.reduce((total, student) => total + student.courses.length, 0)] *)
Definition totalEnrollments (st : State) : nat :=
  fold_left (fun total student =>
               (total + List.length (Student.courses student))%nat)
            (students st) 0%nat.

End AttendanceReports.

(* ===================================================================== *)
(** ** AttendanceDetailModal *)
(* ===================================================================== *)

Module AttendanceDetailModal.

Section Props.
Variable course : string.
Variable students : list Student.t.
Variable attendanceRecords : list CourseAttendance.t.

Definition registeredStudents : list Student.t :=
      filter (fun s => JS.includes (Student.courses s) course) students.

Definition courseAttendance : list CourseAttendance.t :=
      filter (fun a => String.eqb (CourseAttendance.courseCode a) course)
             attendanceRecords.

Definition getAttendanceStatus (matricNumber : string)
      : option CourseAttendance.t :=
      JS.find (fun a => String.eqb (CourseAttendance.matricNumber a)
                          matricNumber)
              courseAttendance.

Definition attendedCount : nat := List.length courseAttendance.

Definition absentCount : Z :=
      (Z.of_nat (List.length registeredStudents) - Z.of_nat attendedCount)%Z.


    (** The rows of the student list: a registered student is shown present
        when [getAttendanceStatus] finds a row. *)
Definition isPresent (student : Student.t) : bool :=
      match getAttendanceStatus (Student.matricNumber student) with
      | Some _ => true
      | None => false
      end.
End Props.

End AttendanceDetailModal.

(* ===================================================================== *)
(** ** StudentDetails: per-student attendance *)
(* ===================================================================== *)

Module StudentDetails.

Section Component.
Variable attendanceRecords : list CourseAttendance.t.

Definition getStudentAttendance (matricNumber : string)
      : list CourseAttendance.t :=
      filter (fun record =>
                String.eqb (CourseAttendance.matricNumber record) matricNumber)
             attendanceRecords.

Definition getAttendancePercentage (student : Student.t) : float :=
      let attended :=
        List.length (getStudentAttendance (Student.matricNumber student)) in
      let total := List.length (Student.courses student) in
      if (0 <? total)%nat
      then JS.Math_round ((JS.Number attended / JS.Number total) * 100)%float
      else 0%float.

    (** The per-course tick in a student's card. *)
Definition hasAttended (student : Student.t) (course : string) : bool :=
      JS.some (fun a => String.eqb (CourseAttendance.courseCode a) course)
              (getStudentAttendance (Student.matricNumber student)).
End Component.

Record State := mkState {
  students : list Student.t;
  attendanceRecords : list CourseAttendance.t;
  loading : bool;
  error : option string;
  selectedSession : string;
  selectedSemester : string;
  searchQuery : string
}.

Definition initialState : State := mkState [] [] true None "" "" "".

Definition setStudents (v : list Student.t) : M State unit :=
  setState (fun s => mkState v (attendanceRecords s) (loading s) (error s)
                       (selectedSession s) (selectedSemester s) (searchQuery s)).

Definition setAttendanceRecords (v : list CourseAttendance.t) : M State unit :=
  setState (fun s => mkState (students s) v (loading s) (error s)
                       (selectedSession s) (selectedSemester s) (searchQuery s)).

Definition setLoading (v : bool) : M State unit :=
  setState (fun s => mkState (students s) (attendanceRecords s) v (error s)
                       (selectedSession s) (selectedSemester s) (searchQuery s)).

Definition setError (v : option string) : M State unit :=
  setState (fun s => mkState (students s) (attendanceRecords s) (loading s) v
                       (selectedSession s) (selectedSemester s) (searchQuery s)).

(** The effect run when the screen is mounted. *)
Definition fetchData : M State unit :=
  setLoading true;;
  setError None;;
  r1 <- inWorld students_select_all;;
  match Supabase.error r1 with
  | Some e =>
      setError (Some (Supabase.message e));;
      inWorld (console_error "Error fetching data:");;
      setLoading false
  | None =>
      setStudents (AttendanceReports.orEmpty (Supabase.data r1));;
      r2 <- inWorld attendance_records_select_all;;
      match Supabase.error r2 with
      | Some e =>
          setError (Some (Supabase.message e));;
          inWorld (console_error "Error fetching data:");;
          setLoading false
      | None =>
          setAttendanceRecords (AttendanceReports.orEmpty (Supabase.data r2));;
          setLoading false
      end
  end.

Definition sessions (st : State) : list string :=
  JS.reverse (JS.sort (JS.Array_from_Set (map Student.session (students st)))).

Definition semesters (st : State) : list string :=
  JS.sort (JS.Array_from_Set (map Student.semester (students st))).

Definition filteredStudents (st : State) : list Student.t :=
  filter
    (fun student =>
       let matchesSession :=
         negb (JS.truthy (selectedSession st))
         || String.eqb (Student.session student) (selectedSession st) in
       let matchesSemester :=
         negb (JS.truthy (selectedSemester st))
         || String.eqb (Student.semester student) (selectedSemester st) in
       let matchesSearch :=
         negb (JS.truthy (searchQuery st))
         || JS.String_includes (JS.toLowerCase (Student.fullName student))
                               (JS.toLowerCase (searchQuery st))
         || JS.String_includes (JS.toLowerCase (Student.matricNumber student))
                               (JS.toLowerCase (searchQuery st)) in
       matchesSession && matchesSemester && matchesSearch)
    (students st).

Definition setSearchQuery (v : string) : M State unit :=
  setState (fun s => mkState (students s) (attendanceRecords s) (loading s)
                       (error s) (selectedSession s) (selectedSemester s) v).

End StudentDetails.

(* ===================================================================== *)
(** ** StudentRegistration *)
(* ===================================================================== *)

Module StudentRegistration.

Record FormData := mkForm {
  fullName : string;
  matricNumber : string;
  image : string;
  session : string;
  semester : string;
  courses : list string
}.

Record State := mkState {
  formData : FormData;
  message : option Msg.t;
  loading : bool
}.

Definition emptyForm : FormData :=
  mkForm "" "" "" "2024/2025" "First Semester" [].

Definition initialState : State := mkState emptyForm None false.

Definition setFormData (f : FormData -> FormData) : M State unit :=
  setState (fun s => mkState (f (formData s)) (message s) (loading s)).

Definition setMessage (m : option Msg.t) : M State unit :=
  setState (fun s => mkState (formData s) m (loading s)).

Definition setLoading (b : bool) : M State unit :=
  setState (fun s => mkState (formData s) (message s) b).

(** [onChangeText] of the matric-number input. *)
Definition onChangeMatricNumber (text : string) : M State unit :=
  setFormData (fun prev =>
    mkForm (fullName prev) (JS.toUpperCase text) (image prev)
           (session prev) (semester prev) (courses prev)).

Definition onChangeFullName (text : string) : M State unit :=
  setFormData (fun prev =>
    mkForm text (matricNumber prev) (image prev)
           (session prev) (semester prev) (courses prev)).

Definition handleImageChange : M State unit :=
  setFormData (fun prev =>
    mkForm (fullName prev) (matricNumber prev)
           "https://via.placeholder.com/150"
           (session prev) (semester prev) (courses prev));;
  setMessage (Some (Msg.mk Msg.error
    "Image upload is not yet implemented in React Native."));;
  inWorld (setTimeout 3000).

Definition handleCourseToggle (courseCode : string) : M State unit :=
  setFormData (fun prev =>
    mkForm (fullName prev) (matricNumber prev) (image prev)
           (session prev) (semester prev)
           (if JS.includes (courses prev) courseCode
            then filter (fun c => negb (String.eqb c courseCode)) (courses prev)
            else courses prev ++ [courseCode])).

(** [error && error.code !== 'PGRST116'] *)
Definition otherThanNoRows {A} (r : Supabase.Response A)
  : option Supabase.PostgrestError :=
  match Supabase.error r with
  | Some e => if String.eqb (Supabase.code e) "PGRST116" then None else Some e
  | None => None
  end.

Definition checkDuplicateRegistration (matricNumber : string)
    (courses : list string) : M State (list string) :=
  setLoading true;;
  r <- inWorld (students_eq_matricNumber_single matricNumber);;
  setLoading false;;
  match otherThanNoRows r with
  | Some _ =>
      inWorld (console_error "Error checking duplicate registration:");;
      ret []
  | None =>
      match Supabase.data r with
      | Some data =>
          ret (filter (fun course => JS.includes (Student.courses data) course)
                      courses)
      | None => ret []
      end
  end.

Definition handleSubmit (now : Clock) : M State unit :=
  setLoading true;;
  st <- getState;;
  let fd := formData st in
  if negb (JS.truthy (fullName fd)) || negb (JS.truthy (matricNumber fd))
     || negb (JS.truthy (image fd)) || (List.length (courses fd) =? 0)%nat
  then
    setMessage (Some (Msg.mk Msg.error
      "Please fill in all fields and select at least one course."));;
    setLoading false
  else
    duplicateCourses <- checkDuplicateRegistration (matricNumber fd) (courses fd);;
    if (0 <? List.length duplicateCourses)%nat
    then
      setMessage (Some (Msg.mk Msg.error
        ("Student is already registered for: "
         ++ JS.join ", " duplicateCourses)));;
      setLoading false
    else
      let newStudent :=
        Student.mk (Date_now_toString now) (fullName fd) (matricNumber fd)
                   (image fd) (session fd) (semester fd) (courses fd)
                   (toISOString now) in
      r <- inWorld (students_insert newStudent);;
      setLoading false;;
      match Supabase.error r with
      | Some _ =>
          inWorld (console_error "Error registering student:");;
          setMessage (Some (Msg.mk Msg.error "Error registering student."))
      | None =>
          setMessage (Some (Msg.mk Msg.success
            "Student registered successfully!"));;
          setFormData (fun _ => emptyForm)
      end;;
      inWorld (setTimeout 3000).

Definition availableCourses : list string :=
  ["CSC 301 - Data Structures";
   "CSC 302 - Computer Architecture";
   "CSC 303 - Database Systems";
   "CSC 304 - Software Engineering";
   "CSC 305 - Operating Systems";
   "MTH 301 - Numerical Analysis";
   "MTH 302 - Linear Algebra";
   "STA 301 - Statistics";
   "PHY 301 - Physics III";
   "ENG 301 - Technical Writing"].

(** The items of the two pickers. *)
Definition sessionItems : list string :=
  ["2024/2025"; "2023/2024"; "2022/2023"; "2021/2022"].

Definition semesterItems : list string :=
  ["First Semester"; "Second Semester"].

(** [onValueChange] of the session picker. *)
Definition onChangeSession (itemValue : string) : M State unit :=
  setFormData (fun prev =>
    mkForm (fullName prev) (matricNumber prev) (image prev)
           itemValue (semester prev) (courses prev)).

(** [onValueChange] of the semester picker. *)
Definition onChangeSemester (itemValue : string) : M State unit :=
  setFormData (fun prev =>
    mkForm (fullName prev) (matricNumber prev) (image prev)
           (session prev) itemValue (courses prev)).

(** What the user, or a pending timer, can do on the screen. *)
Inductive Event :=
| TypeFullName (text : string)
| TypeMatricNumber (text : string)
| PickSession (itemValue : string)
| PickSemester (itemValue : string)
| PressSelectImage
| PressCourse (course : string)
| PressRegister (now : Clock)
| MessageTimeout.

(** The pickers offer their items and the course grid the available
    courses. *)
Definition offered (e : Event) : Prop :=
  match e with
  | PickSession v => In v sessionItems
  | PickSemester v => In v semesterItems
  | PressCourse c => In c availableCourses
  | _ => True
  end.

Definition handle (e : Event) : M State unit :=
  match e with
  | TypeFullName text => onChangeFullName text
  | TypeMatricNumber text => onChangeMatricNumber text
  | PickSession v => onChangeSession v
  | PickSemester v => onChangeSemester v
  | PressSelectImage => handleImageChange
  | PressCourse c => handleCourseToggle c
  | PressRegister now => handleSubmit now
  | MessageTimeout => setMessage None
  end.

(** Events taken one at a time, each handler running to its end. *)
Definition play (events : list Event) (s : Sys State) : Sys State :=
  fold_left (fun s e => exec (handle e) s) events s.

End StudentRegistration.

(* ===================================================================== *)
(** ** StudentVerification *)
(* ===================================================================== *)

Module StudentVerification.

Record State := mkState {
  matricNumber : string;
  selectedStudent : option Student.t;
  selectedCourse : string;
  invigilatorName : string;
  message : option Msg.t;
  loading : bool
}.

Definition initialState : State := mkState "" None "" "" None false.

Definition setMatricNumber (v : string) : M State unit :=
  setState (fun s => mkState v (selectedStudent s) (selectedCourse s)
                       (invigilatorName s) (message s) (loading s)).

Definition setSelectedStudent (v : option Student.t) : M State unit :=
  setState (fun s => mkState (matricNumber s) v (selectedCourse s)
                       (invigilatorName s) (message s) (loading s)).

Definition setSelectedCourse (v : string) : M State unit :=
  setState (fun s => mkState (matricNumber s) (selectedStudent s) v
                       (invigilatorName s) (message s) (loading s)).

Definition setInvigilatorName (v : string) : M State unit :=
  setState (fun s => mkState (matricNumber s) (selectedStudent s)
                       (selectedCourse s) v (message s) (loading s)).

Definition setMessage (v : option Msg.t) : M State unit :=
  setState (fun s => mkState (matricNumber s) (selectedStudent s)
                       (selectedCourse s) (invigilatorName s) v (loading s)).

Definition setLoading (v : bool) : M State unit :=
  setState (fun s => mkState (matricNumber s) (selectedStudent s)
                       (selectedCourse s) (invigilatorName s) (message s) v).

(** [onChangeText] of the matric-number input. *)
Definition onChangeMatricNumber (text : string) : M State unit :=
  setMatricNumber (JS.toUpperCase text).

(** The key of the equality query of [handleSearch]. *)
Definition searchKey (matricNumber : string) : string :=
  JS.toUpperCase (JS.trim matricNumber).

Definition handleSearch : M State unit :=
  st <- getState;;
  if negb (JS.truthy (JS.trim (matricNumber st)))
  then setMessage (Some (Msg.mk Msg.error "Please enter a matric number."))
  else
    setLoading true;;
    r <- inWorld (students_eq_matricNumber_single
                    (JS.toUpperCase (JS.trim (matricNumber st))));;
    setLoading false;;
    match StudentRegistration.otherThanNoRows r with
    | Some _ =>
        inWorld (console_error "Error searching student:");;
        setMessage (Some (Msg.mk Msg.error "Error searching student."));;
        setSelectedStudent None
    | None =>
        match Supabase.data r with
        | Some data =>
            setSelectedStudent (Some data);;
            setMessage None
        | None =>
            setSelectedStudent None;;
            setMessage (Some (Msg.mk Msg.error
              "Student not found. Please check the matric number."))
        end
    end.

Definition isAlreadyVerified (matricNum courseCode : string) : M State bool :=
  setLoading true;;
  r <- inWorld (course_attendance_eq_eq matricNum courseCode);;
  setLoading false;;
  match Supabase.error r with
  | Some _ =>
      inWorld (console_error "Error checking attendance:");;
      ret false
  | None =>
      match Supabase.data r with
      | Some data => ret (0 <? List.length data)%nat
      | None => ret false
      end
  end.

Definition handleMarkAttendance (now : Clock) : M State unit :=
  st <- getState;;
  match selectedStudent st with
  | Some student =>
      if negb (JS.truthy (selectedCourse st))
         || negb (JS.truthy (JS.trim (invigilatorName st)))
      then setMessage (Some (Msg.mk Msg.error
             "Please select a course and enter invigilator name."))
      else
        setLoading true;;
        alreadyVerified <-
          isAlreadyVerified (Student.matricNumber student) (selectedCourse st);;
        setLoading false;;
        if alreadyVerified
        then setMessage (Some (Msg.mk Msg.error
               "Student has already been verified for this course exam."))
        else
          setLoading true;;
          r <- inWorld (course_attendance_insert
                          (Student.matricNumber student) (selectedCourse st)
                          (toISOString now) (JS.trim (invigilatorName st)));;
          setLoading false;;
          match Supabase.error r with
          | Some _ =>
              inWorld (console_error "Error marking attendance:");;
              setMessage (Some (Msg.mk Msg.error "Error marking attendance."))
          | None =>
              setMessage (Some (Msg.mk Msg.success
                "Student attendance marked successfully!"));;
              setSelectedStudent None;;
              setSelectedCourse "";;
              setMatricNumber ""
          end;;
          inWorld (setTimeout 3000)
  | None =>
      setMessage (Some (Msg.mk Msg.error
        "Please select a course and enter invigilator name."))
  end.

End StudentVerification.

(* ===================================================================== *)
(** ** HomeScreen: the two lists behind the counters *)
(* ===================================================================== *)

Module HomeScreen.

Record State := mkState {
  students : list Student.t;
  attendanceRecords : list CourseAttendance.t;
  loading : bool;
  error : option string
}.

Definition initialState : State := mkState [] [] true None.

Definition setStudents (v : list Student.t) : M State unit :=
  setState (fun s => mkState v (attendanceRecords s) (loading s) (error s)).

Definition setAttendanceRecords (v : list CourseAttendance.t) : M State unit :=
  setState (fun s => mkState (students s) v (loading s) (error s)).

Definition setLoading (v : bool) : M State unit :=
  setState (fun s => mkState (students s) (attendanceRecords s) v (error s)).

Definition setError (v : option string) : M State unit :=
  setState (fun s => mkState (students s) (attendanceRecords s) (loading s) v).

(** [loadAttendance] from its [await] on; the value is the error it throws,
    if any.  The rows are copied field by field into [CourseAttendance]
    objects. *)
Definition loadAttendance_resume
    (r : Supabase.Response (list CourseAttendance.t))
  : M State (option Supabase.PostgrestError) :=
  match Supabase.error r with
  | Some e =>
      inWorld (console_error "Error loading attendance:");;
      ret (Some e)
  | None =>
      match Supabase.data r with
      | Some data =>
          let attendance :=
            map (fun record =>
                   CourseAttendance.mk
                     (CourseAttendance.id record)
                     (CourseAttendance.matricNumber record)
                     (CourseAttendance.courseCode record)
                     (CourseAttendance.verificationDate record)
                     (CourseAttendance.invigilatorName record))
                data in
          setAttendanceRecords attendance;;
          ret None
      | None => ret None
      end
  end.

(** [loadAttendance], run on its own. *)
Definition loadAttendance : M State (option Supabase.PostgrestError) :=
  r <- inWorld attendance_records_select_all;;
  loadAttendance_resume r.

(** [studentsWithCourses]: every student row with the course codes of the
    [student_courses] rows that bear its id. *)
Definition studentsWithCourses (studentsData : list Student.t)
    (coursesData : option (list StudentCourse.t)) : list Student.t :=
  map (fun student =>
         let studentCourses :=
           match coursesData with
           | Some cs =>
               filter (fun c => String.eqb (StudentCourse.student_id c)
                                           (Student.id student)) cs
           | None => []
           end in
         Student.mk (Student.id student) (Student.fullName student)
           (Student.matricNumber student) (Student.image student)
           (Student.session student) (Student.semester student)
           (map StudentCourse.course_code studentCourses)
           (Student.registrationDate student))
      studentsData.

(** Where [loadStudents] stands after a stretch of its body: it returned, it
    threw, or it waits for the answer to its second request. *)
Inductive Stage :=
| Returned
| Threw (e : Supabase.PostgrestError)
| Awaits (studentsData : list Student.t)
         (r : Supabase.Response (list StudentCourse.t)).

(** [loadStudents] from its first [await] to its second. *)
Definition loadStudents_resume (r : Supabase.Response (list Student.t))
  : M State Stage :=
  match Supabase.error r with
  | Some e =>
      inWorld (console_error "Error loading students:");;
      ret (Threw e)
  | None =>
      match Supabase.data r with
      | Some studentsData =>
          r' <- inWorld student_courses_select_all;;
          ret (Awaits studentsData r')
      | None => ret Returned
      end
  end.

(** [loadStudents] from its second [await] on. *)
Definition loadStudents_finish (studentsData : list Student.t)
    (r : Supabase.Response (list StudentCourse.t))
  : M State (option Supabase.PostgrestError) :=
  match Supabase.error r with
  | Some e =>
      inWorld (console_error "Error loading student courses:");;
      ret (Some e)
  | None =>
      setStudents (studentsWithCourses studentsData (Supabase.data r));;
      ret None
  end.

(** The rest of [loadStudents] once the answer to its first request is in
    hand and nothing comes in between. *)
Definition loadStudents_rest (stage : Stage)
  : M State (option Supabase.PostgrestError) :=
  match stage with
  | Returned => ret None
  | Threw e => ret (Some e)
  | Awaits studentsData r => loadStudents_finish studentsData r
  end.

(** [loadStudents], run on its own. *)
Definition loadStudents : M State (option Supabase.PostgrestError) :=
  r <- inWorld students_select_all;;
  stage <- loadStudents_resume r;;
  loadStudents_rest stage.

(** The [catch] and [finally] blocks of [loadData]. *)
Definition loadData_catch : M State unit :=
  inWorld (console_error "Error loading data:");;
  setError (Some "Failed to load data.");;
  setLoading false.

(** One of the two loaders has settled.  [Promise.all] rejects with the
    first error thrown, and [loadData] then runs its [catch] and [finally]
    blocks; a later error goes nowhere.  The value tells whether
    [Promise.all] has rejected. *)
Definition settled (rejected : bool) (thrown : option Supabase.PostgrestError)
  : M State bool :=
  match thrown with
  | Some _ => if rejected then ret true else (loadData_catch;; ret true)
  | None => ret rejected
  end.

(** Both loaders have settled: when none threw, the [finally] block runs. *)
Definition loadData_finally (rejected : bool) : M State unit :=
  if rejected then ret tt else setLoading false.

(** When the answer to the attendance request is handled, among the at most
    two answers [loadStudents] waits for. *)
Inductive Arrival :=
| AttendanceFirst
| AttendanceSecond
| AttendanceLast.

(** [loadData].  [Promise.all([loadStudents(), loadAttendance()])] starts
    both loaders, so the two first requests are sent one after the other,
    and each loader goes on when its answer arrives: [arrival] is the order
    of the answers.  An answer is handled in one go, up to the next request
    or the end of the loader, and so are the [catch] and [finally] blocks
    once a loader has thrown.  The store is read when the request is sent;
    nothing else writes to it while the screen loads. *)
Definition loadData (arrival : Arrival) : M State unit :=
  setLoading true;;
  setError None;;
  r1 <- inWorld students_select_all;;
  r2 <- inWorld attendance_records_select_all;;
  match arrival with
  | AttendanceFirst =>
      a <- loadAttendance_resume r2;;
      rejected <- settled false a;;
      stage <- loadStudents_resume r1;;
      s <- loadStudents_rest stage;;
      rejected <- settled rejected s;;
      loadData_finally rejected
  | AttendanceSecond =>
      stage <- loadStudents_resume r1;;
      match stage with
      | Awaits studentsData r3 =>
          a <- loadAttendance_resume r2;;
          rejected <- settled false a;;
          s <- loadStudents_finish studentsData r3;;
          rejected <- settled rejected s;;
          loadData_finally rejected
      | _ =>
          s <- loadStudents_rest stage;;
          rejected <- settled false s;;
          a <- loadAttendance_resume r2;;
          rejected <- settled rejected a;;
          loadData_finally rejected
      end
  | AttendanceLast =>
      stage <- loadStudents_resume r1;;
      s <- loadStudents_rest stage;;
      rejected <- settled false s;;
      a <- loadAttendance_resume r2;;
      rejected <- settled rejected a;;
      loadData_finally rejected
  end.

End HomeScreen.

(* ===================================================================== *)
(** ** The app as a whole: the actions that reach the store *)
(* ===================================================================== *)

Module App.

(** A user action together with the state of the screen it is taken in. *)
Inductive Action :=
| Register (now : Clock) (form : StudentRegistration.State)
| Search (screen : StudentVerification.State)
| MarkAttendance (now : Clock) (screen : StudentVerification.State)
| OpenAttendanceReports (screen : AttendanceReports.State)
| OpenStudentDetails (screen : StudentDetails.State)
| OpenHome (arrival : HomeScreen.Arrival) (screen : HomeScreen.State).

Definition step (w : World) (a : Action) : World :=
  match a with
  | Register now form =>
      world (exec (StudentRegistration.handleSubmit now) (mkSys form w))
  | Search screen =>
      world (exec StudentVerification.handleSearch (mkSys screen w))
  | MarkAttendance now screen =>
      world (exec (StudentVerification.handleMarkAttendance now)
                  (mkSys screen w))
  | OpenAttendanceReports screen =>
      world (exec AttendanceReports.fetchData (mkSys screen w))
  | OpenStudentDetails screen =>
      world (exec StudentDetails.fetchData (mkSys screen w))
  | OpenHome arrival screen =>
      world (exec (HomeScreen.loadData arrival) (mkSys screen w))
  end.

Definition run (w : World) (actions : list Action) : World :=
  fold_left step actions w.

(** The actions that only load or look up. *)
Definition reads (a : Action) : bool :=
  match a with
  | Register _ _ | MarkAttendance _ _ => false
  | Search _ | OpenAttendanceReports _ | OpenStudentDetails _
  | OpenHome _ _ => true
  end.

End App.

(** What a handler added to the world it started in. *)
Definition next_outcome (w : World) : Supabase.Outcome :=
  hd Supabase.Delivered (net w).

Definition new_requests (before after : World) : list Supabase.Request :=
  skipn (List.length (sent before)) (sent after).

(** [w'] comes after [w]: the store is related by [same] and the requests
    added all satisfy [ok]. *)
Definition frame (ok : Supabase.Request -> Prop)
    (same : Supabase.DB -> Supabase.DB -> Prop) (w w' : World) : Prop :=
  same (db w) (db w')
  /\ exists reqs, sent w' = (sent w ++ reqs)%list /\ Forall ok reqs.

(** The students of [w'] are those of [w] followed by rows that satisfy
    [good]. *)
Definition adds_students (good : Student.t -> Prop) (w w' : World) : Prop :=
  exists added,
    Supabase.students (db w') = (Supabase.students (db w) ++ added)%list
    /\ Forall good added.

(** A request the app is seen to send: any select, and inserts into
    [students] and [course_attendance] only. *)
Definition app_request (req : Supabase.Request) : Prop :=
  match req with
  | Supabase.Select _ _ _ => True
  | Supabase.Insert table => table = "students" \/ table = "course_attendance"
  end.

Definition same_attendance_records (d d' : Supabase.DB) : Prop :=
  Supabase.attendance_records d' = Supabase.attendance_records d.

(** The table [attendance_records] is as it was. *)
Definition keeps_attendance_records : World -> World -> Prop :=
  frame app_request same_attendance_records.

(** A request that names the table [course_attendance]. *)
Definition on_course_attendance (req : Supabase.Request) : Prop :=
  match req with
  | Supabase.Select table _ _ => table = "course_attendance"
  | Supabase.Insert table => table = "course_attendance"
  end.

Definition same_but_course_attendance (d d' : Supabase.DB) : Prop :=
  Supabase.students d' = Supabase.students d
  /\ Supabase.attendance_records d' = Supabase.attendance_records d.

(** Only the table [course_attendance] is read or written. *)
Definition touches_course_attendance_only : World -> World -> Prop :=
  frame on_course_attendance same_but_course_attendance.

(** The next [n] remote calls are delivered. *)
Definition delivered (n : nat) (w : World) : Prop :=
  Forall (fun o => o = Supabase.Delivered) (firstn n (net w)).

(** A handler all of whose runs relate the world before to the world after. *)
Definition preserves {UI A} (R : World -> World -> Prop) (m : M UI A) : Prop :=
  forall s, R (world s) (world (snd (m s))).

(* ===================================================================== *)
(** ** The quantities the specification names *)
(* ===================================================================== *)

Module Spec.

(** Number of elements of a list that satisfy a decidable property. *)
Fixpoint count {A} (P : A -> Prop) (P_dec : forall a, {P a} + {~ P a})
    (l : list A) : nat :=
  match l with
  | [] => 0
  | a :: l' => (if P_dec a then 1 else 0) + count P P_dec l'
  end.

(** The student's enrollment list contains the course. *)
Definition enrolled (c : string) (s : Student.t) : Prop :=
  In c (Student.courses s).

Definition enrolled_dec (c : string) (s : Student.t)
  : {enrolled c s} + {~ enrolled c s} :=
  in_dec string_dec c (Student.courses s).

(** registered(c): students whose enrollment list contains [c]. *)
Definition registered (students : list Student.t) (c : string) : nat :=
  count (enrolled c) (enrolled_dec c) students.

Definition for_course (c : string) (a : CourseAttendance.t) : Prop :=
  CourseAttendance.courseCode a = c.

Definition for_course_dec (c : string) (a : CourseAttendance.t)
  : {for_course c a} + {~ for_course c a} :=
  string_dec (CourseAttendance.courseCode a) c.

(** attended(c): attendance rows with course code [c]. *)
Definition attended (records : list CourseAttendance.t) (c : string) : nat :=
  count (for_course c) (for_course_dec c) records.







(** round(n / d × 100) on exact numbers: the integer nearest to 100·n/d, a
    half being rounded up; 0 when d = 0. *)
Definition round_percentage (n d : nat) : nat :=
  match d with
  | O => 0
  | S _ => (200 * n + d) / (2 * d)
  end.


(** A student registered for the course for whom no attendance row of the
    course exists. *)
Definition has_row (records : list CourseAttendance.t) (c : string)
    (s : Student.t) : bool :=
  existsb (fun a => String.eqb (CourseAttendance.courseCode a) c
                    && String.eqb (CourseAttendance.matricNumber a)
                                  (Student.matricNumber s))
          records.

Definition registered_without_row (students : list Student.t)
    (records : list CourseAttendance.t) (c : string) : list Student.t :=
  filter (fun s => if enrolled_dec c s then negb (has_row records c s)
                   else false)
         students.

(** The sublist of the requested courses [C] that occur in the enrollment
    list [E]. *)
Definition overlap (C E : list string) : list string :=
  filter (fun c => if in_dec string_dec c E then true else false) C.

(** A registration form that passes the validation of the submit handler. *)
Definition complete (fd : StudentRegistration.FormData) : Prop :=
  StudentRegistration.fullName fd <> ""
  /\ StudentRegistration.matricNumber fd <> ""
  /\ StudentRegistration.image fd <> ""
  /\ StudentRegistration.courses fd <> [].

(** The student rows of the store with a given matriculation number. *)
Definition rows_of (d : Supabase.DB) (m : string) : list Student.t :=
  filter (fun s => String.eqb (Student.matricNumber s) m) (Supabase.students d).

(** The store holds an attendance row for the pair. *)
Definition verified (d : Supabase.DB) (m c : string) : Prop :=
  exists a, In a (Supabase.course_attendance d)
            /\ CourseAttendance.matricNumber a = m
            /\ CourseAttendance.courseCode a = c.



(** The code units of a text. *)
Definition units (s : string) : list ascii := list_ascii_of_string s.

(** White space, as [trim] understands it, below 256. *)
Definition blank (c : ascii) : Prop :=
  In (nat_of_ascii c) [9; 10; 11; 12; 13; 32; 160].

(** A lower-case letter that has a capital, below 256: a-z, the micro sign
    and 223-255 without the division sign.  (The ordinal indicators 170 and
    186 have no capital and are not among them.) *)
Definition small_letter (c : ascii) : Prop :=
  let n := nat_of_ascii c in
  (97 <= n <= 122) \/ n = 181 \/ (223 <= n <= 255 /\ n <> 247).

(** [t] is [s] without the white space around it: [s] is [t] between two
    runs of white space, and [t] neither begins nor ends with white space. *)
Definition trimmed_of (s t : string) : Prop :=
  (exists l r, s = (l ++ t ++ r)%string
               /\ Forall blank (units l) /\ Forall blank (units r))
  /\ (forall c t', t = String c t' -> ~ blank c)
  /\ (forall t' c, t = (t' ++ String c "")%string -> ~ blank c).

(** Strictly descending. *)
Definition descending (l : list string) : Prop :=
  StronglySorted (fun a b => String.ltb b a = true) l.

(** What the registration form holds between two events. *)
Definition form_invariant (fd : StudentRegistration.FormData) : Prop :=
  (StudentRegistration.image fd = ""
   \/ StudentRegistration.image fd = "https://via.placeholder.com/150")
  /\ JS.toUpperCase (StudentRegistration.matricNumber fd)
     = StudentRegistration.matricNumber fd
  /\ In (StudentRegistration.session fd) StudentRegistration.sessionItems
  /\ In (StudentRegistration.semester fd) StudentRegistration.semesterItems
  /\ NoDup (StudentRegistration.courses fd)
  /\ incl (StudentRegistration.courses fd) StudentRegistration.availableCourses.

(** A select request. *)
Definition is_select (req : Supabase.Request) : Prop :=
  match req with
  | Supabase.Select _ _ _ => True
  | Supabase.Insert _ => False
  end.

(** A student row as the registration form can produce it. *)
Definition form_row (r : Student.t) : Prop :=
  Student.fullName r <> ""
  /\ Student.matricNumber r <> ""
  /\ JS.toUpperCase (Student.matricNumber r) = Student.matricNumber r
  /\ Student.image r = "https://via.placeholder.com/150"
  /\ In (Student.session r) StudentRegistration.sessionItems
  /\ In (Student.semester r) StudentRegistration.semesterItems
  /\ Student.courses r <> []
  /\ NoDup (Student.courses r)
  /\ incl (Student.courses r) StudentRegistration.availableCourses.

(** Strictly ascending in the lexicographic order of strings. *)
Definition ascending (l : list string) : Prop :=
  StronglySorted (fun a b => String.ltb a b = true) l.

(** The course is in some student's enrollment list. *)
Definition enrolled_somewhere (students : list Student.t) (c : string) : Prop :=
  exists s, In s students /\ In c (Student.courses s).

End Spec.

(* ===================================================================== *)
(** ** The two roundings, compared on a range of counts *)
(* ===================================================================== *)

Module Compare.




End Compare.

(* ===================================================================== *)
(** ** Sample data *)
(* ===================================================================== *)

Module Sample.

Definition ada : Student.t :=
  Student.mk "1" "Ada Obi" "CSC/2020/001" "https://via.placeholder.com/150"
             "2024/2025" "First Semester" ["CSC301"; "CSC302"]
             "2024-09-01T08:00:00.000Z".

Definition bola : Student.t :=
  Student.mk "2" "Bola Musa" "CSC/2020/002" "https://via.placeholder.com/150"
             "2024/2025" "First Semester" ["CSC301"; "MTH301"]
             "2024-09-01T09:00:00.000Z".

Definition row (id matricNumber courseCode : string) : CourseAttendance.t :=
  CourseAttendance.mk id matricNumber courseCode
                      "2025-01-10T09:00:00.000Z" "Dr Sani".

Definition store : Supabase.DB :=
  Supabase.mkDB [ada; bola] [row "41" "CSC/2020/001" "CSC301"] [] []
                (fun _ => "42").

(** The error the client reports when the request does not reach the
    server. *)
Definition network_error : Supabase.PostgrestError :=
  Supabase.mkError "" "TypeError: Network request failed".

Definition online : World := mkWorld store [] [] [] [].

(** The next remote call fails, the following ones are delivered. *)
Definition lookup_fails : World :=
  mkWorld store [Supabase.Failed network_error] [] [] [].

Definition clock : Clock :=
  mkClock "1736499600000" "2025-01-10T09:00:00.000Z".

(** Bola, already on file for CSC301 and MTH301, is submitted for CSC301. *)
Definition bola_again : StudentRegistration.State :=
  StudentRegistration.mkState
    (StudentRegistration.mkForm "Bola Musa" "CSC/2020/002"
       "https://via.placeholder.com/150" "2024/2025" "First Semester"
       ["CSC301"])
    None false.

(** Ada is selected for CSC301, for which her attendance is on file. *)
Definition ada_csc301 : StudentVerification.State :=
  StudentVerification.mkState "CSC/2020/001" (Some ada) "CSC301" "Dr Sani"
                              None false.

(** Bola is selected for CSC301, for which no attendance is on file. *)
Definition bola_csc301 : StudentVerification.State :=
  StudentVerification.mkState "CSC/2020/002" (Some bola) "CSC301" "Dr Sani"
                              None false.

(** The row the store holds once Bola's attendance is marked. *)
Definition bola_row : CourseAttendance.t :=
  CourseAttendance.mk "42" "CSC/2020/002" "CSC301"
                      "2025-01-10T09:00:00.000Z" "Dr Sani".






End Sample.

(* ===================================================================== *)
(** ** Facts about the built-ins *)
(* ===================================================================== *)

Lemma includes_In (a : list string) (x : string) :
  JS.includes a x = true <-> In x a.
Proof.
  induction a as [| y a IH]; simpl.
  - split; [discriminate | contradiction].
  - destruct (String.eqb_spec y x) as [-> | n].
    + split; auto.
    + rewrite IH. split; [auto | intros [e | i]; [contradiction | exact i]].
Qed.

Lemma includes_false (a : list string) (x : string) :
  JS.includes a x = false <-> ~ In x a.
Proof.
  rewrite <- includes_In. destruct (JS.includes a x); split; congruence.
Qed.

Lemma length_filter_count {A} (f : A -> bool) (P : A -> Prop)
    (P_dec : forall a, {P a} + {~ P a}) (l : list A) :
  (forall a, f a = true <-> P a) ->
  List.length (filter f l) = Spec.count P P_dec l.
Proof.
  intros Hf. induction l as [| a l IH]; simpl; [reflexivity |].
  destruct (P_dec a) as [p | n].
  - apply Hf in p. rewrite p. simpl. now rewrite IH.
  - destruct (f a) eqn:E; [apply Hf in E; contradiction | exact IH].
Qed.

(* ===================================================================== *)
(** ** Reporting aggregation *)
(* ===================================================================== *)

Lemma registered_count (students : list Student.t) (c : string) :
  List.length (filter (fun s => JS.includes (Student.courses s) c) students)
  = Spec.registered students c.
Proof.
  apply length_filter_count. intros s. apply includes_In.
Qed.

Lemma attended_count (records : list CourseAttendance.t) (c : string) :
  List.length
    (filter (fun a => String.eqb (CourseAttendance.courseCode a) c) records)
  = Spec.attended records c.
Proof.
  apply length_filter_count. intros a. apply String.eqb_eq.
Qed.


(** [Spec.round_percentage] is the nearest integer, a half going up:
    r - 1/2 <= 100·n/d < r + 1/2. *)
Lemma round_percentage_nearest (n d : nat) :
  0 < d ->
  2 * d * Spec.round_percentage n d <= 200 * n + d
  /\ 200 * n + d < 2 * d * (Spec.round_percentage n d + 1).
Proof.
  intros Hd. unfold Spec.round_percentage.
  destruct d as [| d']; [lia |]. set (d := S d') in *.
  pose proof (Nat.div_mod_eq (200 * n + d) (2 * d)) as E.
  pose proof (Nat.mod_upper_bound (200 * n + d) (2 * d) ltac:(lia)) as B.
  nia.
Qed.

(** [Math.round] works on the double product, and the double nearest to
    n/d, times 100, can fall below a half that the exact product reaches:
    1 of 8 is 12.5 and is shown as 13, 23 of 40 is 57.49999999999999 and is
    shown as 57, 29 of 200 is 14.499999999999998 and is shown as 14. *)
Example round_at_halves :
  JS.Math_round ((JS.Number 1 / JS.Number 8) * 100)%float = 13%float
  /\ Spec.round_percentage 1 8 = 13
  /\ JS.Math_round ((JS.Number 23 / JS.Number 40) * 100)%float = 57%float
  /\ Spec.round_percentage 23 40 = 58
  /\ JS.Math_round ((JS.Number 29 / JS.Number 200) * 100)%float = 14%float
  /\ Spec.round_percentage 29 200 = 15.
Proof. repeat split; reflexivity. Qed.
















(** The scenario of the specification: two enrolled courses and no attendance
    row give 0; one row for CSC301 gives 50. *)
Example scenario_no_attendance :
  StudentDetails.getAttendancePercentage [] Sample.ada = 0%float.
Proof. reflexivity. Qed.

Example scenario_one_attendance :
  StudentDetails.getAttendancePercentage
    [Sample.row "7" "CSC/2020/001" "CSC301"] Sample.ada = 50%float.
Proof. reflexivity. Qed.




(** C9. In the detail view the absent count is the number of registered
    students minus the number of attendance rows of the course, the rows
    being neither restricted to registered students nor deduplicated.  With
    a row whose matriculation number belongs to no registered student, and
    with two rows for one student, the count is negative and is not the
    number of registered students without a row. *)
Theorem absent_count_is_plain_difference :
  (forall (c : string) (students : list Student.t)
          (records : list CourseAttendance.t),
      AttendanceDetailModal.absentCount c students records
      = (Z.of_nat (Spec.registered students c)
         - Z.of_nat (Spec.attended records c))%Z)
  /\ (let records := [Sample.row "7" "CSC/2020/001" "CSC301";
                      Sample.row "8" "CSC/2020/009" "CSC301"] in
      AttendanceDetailModal.absentCount "CSC301" [Sample.ada] records
      = (-1)%Z
      /\ Spec.registered_without_row [Sample.ada] records "CSC301" = []
      /\ AttendanceDetailModal.absentCount "CSC301" [Sample.ada] records
         <> Z.of_nat (List.length
                        (Spec.registered_without_row [Sample.ada] records
                           "CSC301")))
  /\ (let records := [Sample.row "7" "CSC/2020/001" "CSC301";
                      Sample.row "8" "CSC/2020/001" "CSC301"] in
      AttendanceDetailModal.absentCount "CSC301" [Sample.ada] records
      = (-1)%Z
      /\ Spec.registered_without_row [Sample.ada] records "CSC301" = []
      /\ AttendanceDetailModal.absentCount "CSC301" [Sample.ada] records
         <> Z.of_nat (List.length
                        (Spec.registered_without_row [Sample.ada] records
                           "CSC301"))).
Proof.
  split; [| split; cbv zeta; repeat split; solve [reflexivity | discriminate]].
  intros c students records.
  unfold AttendanceDetailModal.absentCount, AttendanceDetailModal.attendedCount,
    AttendanceDetailModal.registeredStudents,
    AttendanceDetailModal.courseAttendance.
  now rewrite registered_count, attended_count.
Qed.

(* ===================================================================== *)
(** ** The distinct course list *)
(* ===================================================================== *)

Lemma Set_add_In (seen : list string) (x y : string) :
  In y (JS.Set_add seen x) <-> In y seen \/ y = x.
Proof.
  unfold JS.Set_add. destruct (JS.includes seen x) eqn:E.
  - apply includes_In in E. split; [auto | intros [H | ->]; assumption].
  - rewrite in_app_iff. simpl. intuition congruence.
Qed.

Lemma Set_add_NoDup (seen : list string) (x : string) :
  NoDup seen -> NoDup (JS.Set_add seen x).
Proof.
  intros H. unfold JS.Set_add. destruct (JS.includes seen x) eqn:E; [exact H |].
  apply includes_false in E.
  apply NoDup_rev in H. rewrite <- (rev_involutive (seen ++ [x])).
  apply NoDup_rev. rewrite rev_app_distr. simpl.
  constructor; [rewrite <- in_rev; exact E | exact H].
Qed.

Lemma fold_Set_add_In (a : list string) :
  forall seen y,
    In y (fold_left JS.Set_add a seen) <-> In y seen \/ In y a.
Proof.
  induction a as [| x a IH]; intros seen y; simpl.
  - intuition.
  - rewrite IH, Set_add_In. intuition.
Qed.

Lemma fold_Set_add_NoDup (a : list string) :
  forall seen, NoDup seen -> NoDup (fold_left JS.Set_add a seen).
Proof.
  induction a as [| x a IH]; intros seen H; simpl; [exact H |].
  apply IH, Set_add_NoDup, H.
Qed.

Lemma sort_insert_perm (x : string) (a : list string) :
  Permutation (x :: a) (JS.sort_insert x a).
Proof.
  induction a as [| y a IH]; simpl; [reflexivity |].
  destruct (String.leb x y); [reflexivity |].
  rewrite perm_swap. now apply perm_skip.
Qed.

Lemma sort_perm (a : list string) : Permutation a (JS.sort a).
Proof.
  induction a as [| x a IH]; simpl; [reflexivity |].
  rewrite <- sort_insert_perm. now apply perm_skip.
Qed.

Lemma leb_cases (a b : string) :
  String.leb a b = true <-> String.ltb a b = true \/ a = b.
Proof.
  unfold String.leb, String.ltb.
  destruct (String.compare a b) eqn:E.
  - apply String.compare_eq_iff in E. intuition.
  - intuition.
  - split; [discriminate |]. intros [H | ->]; [discriminate |].
    assert (String.compare b b = Eq) as R
        by (apply OrderedTypeEx.String_as_OT.cmp_eq; reflexivity).
    congruence.
Qed.

Lemma ltb_lt (a b : string) :
  String.ltb a b = true <-> OrderedTypeEx.String_as_OT.lt a b.
Proof.
  rewrite <- OrderedTypeEx.String_as_OT.cmp_lt.
  unfold String.ltb, OrderedTypeEx.String_as_OT.cmp.
  destruct (String.compare a b); intuition discriminate.
Qed.

Lemma ltb_trans (a b c : string) :
  String.ltb a b = true -> String.ltb b c = true -> String.ltb a c = true.
Proof.
  rewrite !ltb_lt. apply OrderedTypeEx.String_as_OT.lt_trans.
Qed.

Lemma leb_trans (a b c : string) :
  String.leb a b = true -> String.leb b c = true -> String.leb a c = true.
Proof.
  rewrite !leb_cases. intros [H1 | ->] [H2 | ->]; auto.
  left. eapply ltb_trans; eassumption.
Qed.

Lemma leb_false (a b : string) : String.leb a b = false -> String.leb b a = true.
Proof.
  intros H. destruct (String.leb_total a b) as [T | T]; congruence.
Qed.

Lemma sort_insert_sorted (x : string) (a : list string) :
  Sorted (fun s t => String.leb s t = true) a ->
  Sorted (fun s t => String.leb s t = true) (JS.sort_insert x a).
Proof.
  induction a as [| y a IH]; intros H; simpl.
  - repeat constructor.
  - destruct (String.leb x y) eqn:E.
    + constructor; [exact H | constructor; exact E].
    + apply Sorted_inv in H. destruct H as [Hs Hh].
      constructor; [apply IH, Hs |].
      destruct a as [| z a]; simpl.
      * constructor. now apply leb_false.
      * destruct (String.leb x z); constructor;
          [now apply leb_false | now inversion Hh].
Qed.

Lemma sort_sorted (a : list string) :
  Sorted (fun s t => String.leb s t = true) (JS.sort a).
Proof.
  induction a as [| x a IH]; simpl; [constructor |].
  apply sort_insert_sorted, IH.
Qed.

Lemma strict_of_NoDup (l : list string) :
  StronglySorted (fun s t => String.leb s t = true) l -> NoDup l ->
  Spec.ascending l.
Proof.
  unfold Spec.ascending.
  induction 1 as [| x l Hs IH Hall]; intros Hnd; constructor.
  - apply IH. now inversion Hnd.
  - rewrite Forall_forall in *. intros y Hy.
    destruct (proj1 (leb_cases x y) (Hall y Hy)) as [L | ->]; [exact L |].
    inversion Hnd. contradiction.
Qed.

Lemma sort_ascending (a : list string) : NoDup a -> Spec.ascending (JS.sort a).
Proof.
  intros H. apply strict_of_NoDup.
  - apply Sorted_StronglySorted; [| apply sort_sorted].
    intros s t u. apply leb_trans.
  - eapply Permutation_NoDup; [apply sort_perm | exact H].
Qed.

Lemma allCourses_In (students : list Student.t) (c : string) :
  In c (AttendanceReports.allCourses students)
  <-> Spec.enrolled_somewhere students c.
Proof.
  unfold AttendanceReports.allCourses, JS.Array_from_Set,
    Spec.enrolled_somewhere.
  rewrite <- (Permutation_in' (eq_refl c) (sort_perm _)).
  rewrite fold_Set_add_In, in_flat_map. simpl. intuition.
Qed.

Lemma allCourses_NoDup (students : list Student.t) :
  NoDup (AttendanceReports.allCourses students).
Proof.
  unfold AttendanceReports.allCourses, JS.Array_from_Set.
  eapply Permutation_NoDup; [apply sort_perm |].
  apply fold_Set_add_NoDup. constructor.
Qed.

(** A strictly ascending list is determined by its elements: whatever
    algorithm [sort] runs, the array it returns is this one. *)
Lemma ascending_unique (l1 : list string) :
  forall l2, Spec.ascending l1 -> Spec.ascending l2 ->
             (forall x, In x l1 <-> In x l2) -> l1 = l2.
Proof.
  unfold Spec.ascending.
  induction l1 as [| a l1 IH]; intros [| b l2] H1 H2 Hin.
  - reflexivity.
  - destruct (proj2 (Hin b) (or_introl eq_refl)).
  - destruct (proj1 (Hin a) (or_introl eq_refl)).
  - inversion H1 as [| ? ? S1 F1]; inversion H2 as [| ? ? S2 F2]; subst.
    rewrite Forall_forall in F1, F2.
    assert (forall s, String.ltb s s = true -> False) as irr.
    { intros s Hs. apply ltb_lt in Hs.
      exact (OrderedTypeEx.String_as_OT.lt_not_eq _ _ Hs eq_refl). }
    assert (a = b) as ->.
    { destruct (proj1 (Hin a) (or_introl eq_refl)) as [E | Ia]; [auto |].
      destruct (proj2 (Hin b) (or_introl eq_refl)) as [E | Ib]; [auto |].
      exfalso. apply (irr a). eapply ltb_trans; [apply F1, Ib | apply F2, Ia]. }
    f_equal. apply IH; [assumption | assumption |].
    intros x. split; intros Hx.
    + destruct (proj1 (Hin x) (or_intror Hx)) as [<- | ?]; [| assumption].
      exfalso. exact (irr _ (F1 _ Hx)).
    + destruct (proj2 (Hin x) (or_intror Hx)) as [<- | ?]; [| assumption].
      exfalso. exact (irr _ (F2 _ Hx)).
Qed.

(** C7. The course list of the reports screen holds exactly the courses that
    occur in some student's enrollment list, each of them once, in strictly
    ascending lexicographic order. *)
Theorem allCourses_spec (students : list Student.t) :
  (forall c, In c (AttendanceReports.allCourses students)
             <-> Spec.enrolled_somewhere students c)
  /\ NoDup (AttendanceReports.allCourses students)
  /\ Spec.ascending (AttendanceReports.allCourses students)
  /\ (forall c, count_occ string_dec (AttendanceReports.allCourses students) c
                = if existsb (fun s => JS.includes (Student.courses s) c)
                             students
                  then 1 else 0)
  /\ (forall l, Spec.ascending l ->
                (forall c, In c l <-> Spec.enrolled_somewhere students c) ->
                l = AttendanceReports.allCourses students).
Proof.
  split; [apply allCourses_In |].
  split; [apply allCourses_NoDup |].
  assert (Spec.ascending (AttendanceReports.allCourses students)) as Hasc.
  { apply sort_ascending, fold_Set_add_NoDup. constructor. }
  split; [exact Hasc |].
  split.
  - intros c.
    destruct (existsb _ students) eqn:E.
    + apply existsb_exists in E. destruct E as [s [Hs Hc]].
      apply includes_In in Hc.
      apply NoDup_count_occ'; [apply allCourses_NoDup |].
      apply allCourses_In. exists s. split; assumption.
    + apply count_occ_not_In. intros Hin. apply allCourses_In in Hin.
      destruct Hin as [s [Hs Hc]].
      assert (existsb (fun s => JS.includes (Student.courses s) c) students
              = true) as T
          by (apply existsb_exists; exists s; split;
              [exact Hs | now apply includes_In]).
      congruence.
  - intros l Hl Hin. apply ascending_unique; [exact Hl | exact Hasc |].
    intros x. now rewrite Hin, allCourses_In.
Qed.

(* ===================================================================== *)
(** ** Registration uniqueness check *)
(* ===================================================================== *)

Lemma truthy_true (s : string) : s <> "" -> JS.truthy s = true.
Proof.
  intros H. unfold JS.truthy. now apply String.eqb_neq in H as ->.
Qed.

Lemma skipn_length_app {A} (l x : list A) : skipn (List.length l) (l ++ x) = x.
Proof.
  induction l as [| a l IH]; [reflexivity | exact IH].
Qed.

Lemma overlap_includes (C E : list string) :
  filter (fun course => JS.includes E course) C = Spec.overlap C E.
Proof.
  unfold Spec.overlap. apply filter_ext. intros c.
  destruct (in_dec string_dec c E) as [i | n].
  - now apply includes_In.
  - now apply includes_false.
Qed.

Lemma length_zero_false {A} (l : list A) :
  l <> [] -> (List.length l =? 0)%nat = false.
Proof. destruct l; [congruence | reflexivity]. Qed.

Lemma call_delivered {A} (req : Supabase.Request)
    (run : Supabase.DB -> Supabase.Response A * Supabase.DB) (w : World) :
  next_outcome w = Supabase.Delivered ->
  call req run w
  = (fst (run (db w)),
     mkWorld (snd (run (db w))) (tl (net w)) (console w) (sent w ++ [req])
             (timers w)).
Proof.
  unfold next_outcome, call. intros H.
  destruct (net w) as [| [| e] rest]; simpl in *;
    try discriminate; now destruct (run (db w)).
Qed.

Lemma call_failed {A} (req : Supabase.Request)
    (run : Supabase.DB -> Supabase.Response A * Supabase.DB) (w : World)
    (e : Supabase.PostgrestError) :
  next_outcome w = Supabase.Failed e ->
  call req run w
  = (Supabase.mkResponse None (Some e),
     mkWorld (db w) (tl (net w)) (console w) (sent w ++ [req]) (timers w)).
Proof.
  unfold next_outcome, call. intros H.
  destruct (net w) as [| [| e'] rest]; simpl in *; try discriminate.
  now injection H as ->.
Qed.

(** The check on a lookup that reaches the store. *)
Lemma check_delivered (m : string) (C : list string)
    (st : StudentRegistration.State) (w : World) :
  next_outcome w = Supabase.Delivered ->
  StudentRegistration.checkDuplicateRegistration m C (mkSys st w)
  = (match Spec.rows_of (db w) m with
     | [row] => Spec.overlap C (Student.courses row)
     | _ => []
     end,
     mkSys (StudentRegistration.mkState (StudentRegistration.formData st)
              (StudentRegistration.message st) false)
           (mkWorld (db w) (tl (net w)) (console w)
              (sent w ++ [Supabase.Select "students" [("matricNumber", m)] true])
              (timers w))).
Proof.
  intros Hnet.
  unfold StudentRegistration.checkDuplicateRegistration, bind, inWorld,
    students_eq_matricNumber_single, StudentRegistration.setLoading, setState.
  cbn [ui world]. rewrite (call_delivered _ _ _ Hnet). cbn [fst snd].
  unfold Spec.rows_of.
  destruct (filter _ (Supabase.students (db w))) as [| row [| row' l]];
    cbn; try reflexivity.
  now rewrite overlap_includes.
Qed.


(** The submit handler on a form that passes validation. *)
Lemma handleSubmit_complete (now : Clock) (st : StudentRegistration.State)
    (w : World) :
  Spec.complete (StudentRegistration.formData st) ->
  let fd := StudentRegistration.formData st in
  let checked :=
    StudentRegistration.checkDuplicateRegistration
      (StudentRegistration.matricNumber fd) (StudentRegistration.courses fd)
      (mkSys (StudentRegistration.mkState fd (StudentRegistration.message st)
                true) w) in
  let dup := fst checked in
  let w1 := world (snd checked) in
  let newStudent :=
    Student.mk (Date_now_toString now) (StudentRegistration.fullName fd)
      (StudentRegistration.matricNumber fd) (StudentRegistration.image fd)
      (StudentRegistration.session fd) (StudentRegistration.semester fd)
      (StudentRegistration.courses fd) (toISOString now) in
  let inserted := students_insert newStudent w1 in
  let w2 := snd inserted in
  exec (StudentRegistration.handleSubmit now) (mkSys st w)
  = match dup with
    | _ :: _ =>
        mkSys (StudentRegistration.mkState fd
                 (Some (Msg.mk Msg.error
                          ("Student is already registered for: "
                           ++ JS.join ", " dup))) false) w1
    | [] =>
        match Supabase.error (fst inserted) with
        | Some _ =>
            mkSys (StudentRegistration.mkState fd
                     (Some (Msg.mk Msg.error "Error registering student."))
                     false)
                  (mkWorld (db w2) (net w2)
                     (console w2 ++ ["Error registering student:"])
                     (sent w2) (timers w2 ++ [3000]))
        | None =>
            mkSys (StudentRegistration.mkState StudentRegistration.emptyForm
                     (Some (Msg.mk Msg.success
                              "Student registered successfully!")) false)
                  (mkWorld (db w2) (net w2) (console w2) (sent w2)
                     (timers w2 ++ [3000]))
        end
    end.
Proof.
  intros (Hn & Hm & Hi & Hc). cbv zeta.
  destruct st as [fd msg ld]. cbn [StudentRegistration.formData StudentRegistration.message] in *.
  unfold exec, StudentRegistration.handleSubmit, bind, getState,
    StudentRegistration.setLoading, setState.
  cbn [ui world StudentRegistration.formData StudentRegistration.message
       StudentRegistration.loading fst snd].
  rewrite (truthy_true _ Hn), (truthy_true _ Hm), (truthy_true _ Hi),
    (length_zero_false _ Hc).
  cbn [negb orb].
  destruct (StudentRegistration.checkDuplicateRegistration _ _ _)
    as [dup [st1 w1]] eqn:Echeck.
  assert (st1 = StudentRegistration.mkState fd msg false) as ->.
  { revert Echeck.
    unfold StudentRegistration.checkDuplicateRegistration, bind, inWorld,
      StudentRegistration.setLoading, setState. cbn [ui world].
    destruct (students_eq_matricNumber_single _ w) as [r w'].
    destruct (StudentRegistration.otherThanNoRows r);
      [| destruct (Supabase.data r)]; cbn; unfold ret; congruence. }
  cbn [fst snd world ui]. destruct dup as [| c0 dup]; cbn [List.length Nat.ltb Nat.leb].
  - unfold inWorld, StudentRegistration.setMessage, StudentRegistration.setFormData, setState, setTimeout. cbn [ui world].
    destruct (students_insert _ w1) as [r w2]. cbn [fst snd].
    destruct (Supabase.error r); reflexivity.
  - reflexivity.
Qed.

(** C1, as stated, fails when the lookup itself fails: Bola is on file with
    CSC301 and MTH301 and is submitted for CSC301, the lookup does not reach
    the server; the check returns the empty list although CSC301 overlaps,
    and the insert is sent and stores a second row. *)
Lemma failed_lookup_passes_duplicate_registration :
  Spec.rows_of Sample.store "CSC/2020/002" = [Sample.bola]
  /\ Spec.overlap ["CSC301"] (Student.courses Sample.bola) = ["CSC301"]
  /\ eval (StudentRegistration.checkDuplicateRegistration
             "CSC/2020/002" ["CSC301"])
          (mkSys Sample.bola_again Sample.lookup_fails) = []
  /\ new_requests Sample.lookup_fails
       (world (exec (StudentRegistration.handleSubmit Sample.clock)
                    (mkSys Sample.bola_again Sample.lookup_fails)))
     = [Supabase.Select "students" [("matricNumber", "CSC/2020/002")] true;
        Supabase.Insert "students"]
  /\ Spec.rows_of
       (db (world (exec (StudentRegistration.handleSubmit Sample.clock)
                        (mkSys Sample.bola_again Sample.lookup_fails))))
       "CSC/2020/002"
     = [Sample.bola;
        Student.mk "1736499600000" "Bola Musa" "CSC/2020/002"
          "https://via.placeholder.com/150" "2024/2025" "First Semester"
          ["CSC301"] "2025-01-10T09:00:00.000Z"].
Proof. repeat split; reflexivity. Qed.

(** The scenario of the specification: Bola submitted for CSC301 with CSC301
    and MTH301 on file is rejected, the duplicate subset being CSC301. *)
Example scenario_duplicate_registration :
  eval (StudentRegistration.checkDuplicateRegistration
          "CSC/2020/002" ["CSC301"])
       (mkSys Sample.bola_again Sample.online) = ["CSC301"]
  /\ exec (StudentRegistration.handleSubmit Sample.clock)
          (mkSys Sample.bola_again Sample.online)
     = mkSys (StudentRegistration.mkState
                (StudentRegistration.formData Sample.bola_again)
                (Some (Msg.mk Msg.error
                         "Student is already registered for: CSC301"))
                false)
             (mkWorld Sample.store [] []
                [Supabase.Select "students"
                   [("matricNumber", "CSC/2020/002")] true] []).
Proof. split; reflexivity. Qed.

(** The check relies on [single]: once two rows bear one matriculation
    number (a second registration for other courses passes the check), the
    lookup is answered PGRST116 and no overlap is found any more. *)
Example two_rows_for_one_matric_number :
  let twice :=
    world (exec (StudentRegistration.handleSubmit Sample.clock)
                (mkSys (StudentRegistration.mkState
                          (StudentRegistration.mkForm "Bola Musa"
                             "CSC/2020/002" "https://via.placeholder.com/150"
                             "2024/2025" "First Semester" ["STA301"])
                          None false)
                       Sample.online)) in
  List.length (Spec.rows_of (db twice) "CSC/2020/002") = 2
  /\ eval (StudentRegistration.checkDuplicateRegistration
             "CSC/2020/002" ["CSC301"])
          (mkSys Sample.bola_again twice) = [].
Proof. split; reflexivity. Qed.

Lemma insert_requests (row : Student.t) (w : World) :
  sent (snd (students_insert row w))
  = (sent w ++ [Supabase.Insert "students"])%list.
Proof.
  unfold students_insert, call.
  destruct (net w) as [| [| e] rest]; reflexivity.
Qed.

(** C1, amended. For a submission that passes validation, with proposed
    matriculation number m and requested courses C, whose lookup call is
    delivered: if the store holds exactly one student row with m, with
    enrollment list E, the check returns exactly the sublist of C of the
    courses that occur in E; when that sublist is non-empty no insert is sent,
    the store is unchanged and the error message names the overlapping
    courses, and when it is empty the insert is sent; if no student row with
    m exists the check returns the empty list and the insert is sent. *)
Theorem duplicate_check_on_delivered_lookup
    (now : Clock) (st : StudentRegistration.State) (w : World)
    (Hform : Spec.complete (StudentRegistration.formData st))
    (Hnet : next_outcome w = Supabase.Delivered) :
  let m := StudentRegistration.matricNumber (StudentRegistration.formData st) in
  let C := StudentRegistration.courses (StudentRegistration.formData st) in
  let lookup := Supabase.Select "students" [("matricNumber", m)] true in
  let dup := eval (StudentRegistration.checkDuplicateRegistration m C)
                  (mkSys st w) in
  let after := exec (StudentRegistration.handleSubmit now) (mkSys st w) in
  (forall row,
      Spec.rows_of (db w) m = [row] ->
      dup = Spec.overlap C (Student.courses row)
      /\ (dup = [] ->
          new_requests w (world after) = [lookup; Supabase.Insert "students"])
      /\ (dup <> [] ->
          new_requests w (world after) = [lookup]
          /\ db (world after) = db w
          /\ StudentRegistration.message (ui after)
             = Some (Msg.mk Msg.error
                       ("Student is already registered for: "
                        ++ JS.join ", " dup))))
  /\ (Spec.rows_of (db w) m = [] ->
      dup = []
      /\ new_requests w (world after) = [lookup; Supabase.Insert "students"]).
Proof.
  intros m C lookup dup after.
  assert (Hdup : dup = match Spec.rows_of (db w) m with
                       | [row] => Spec.overlap C (Student.courses row)
                       | _ => []
                       end)
    by (unfold dup, eval; now rewrite check_delivered).
  assert (Hempty : dup = [] ->
            new_requests w (world after)
            = [lookup; Supabase.Insert "students"]).
  { intros E. unfold after.
    rewrite (handleSubmit_complete now st w Hform). cbv zeta.
    rewrite check_delivered by exact Hnet. cbn [fst snd world].
    fold m C. rewrite <- Hdup, E.
    unfold new_requests.
    match goal with
    | |- context [students_insert ?r ?w1] =>
        pose proof (insert_requests r w1) as Hs;
        destruct (students_insert r w1) as [resp w2]
    end.
    cbn [fst snd sent] in *.
    destruct (Supabase.error resp); cbn [world sent]; rewrite Hs;
      rewrite <- app_assoc; apply skipn_length_app. }
  split.
  - intros row Hrow. rewrite Hrow in Hdup.
    split; [exact Hdup |]. split; [exact Hempty |].
    intros Hne. unfold after.
    rewrite (handleSubmit_complete now st w Hform). cbv zeta.
    rewrite check_delivered by exact Hnet. cbn [fst snd world].
    fold m C. rewrite Hrow, <- Hdup.
    destruct dup as [| c0 dup']; [congruence |].
    cbn [world ui db StudentRegistration.message]. unfold new_requests.
    cbn [sent]. rewrite skipn_length_app. repeat split; reflexivity.
  - intros Hnone. rewrite Hnone in Hdup. split; [exact Hdup | auto].
Qed.

Lemma duplicate_check_on_delivered_lookup_witness :
  Spec.complete (StudentRegistration.formData Sample.bola_again)
  /\ next_outcome Sample.online = Supabase.Delivered
  /\ Spec.rows_of (db Sample.online) "CSC/2020/002" = [Sample.bola]
  /\ eval (StudentRegistration.checkDuplicateRegistration
             "CSC/2020/002" ["CSC301"])
          (mkSys Sample.bola_again Sample.online)
     = Spec.overlap ["CSC301"] (Student.courses Sample.bola).
Proof.
  assert (Spec.complete (StudentRegistration.formData Sample.bola_again))
    as Hform by (repeat split; discriminate).
  split; [exact Hform |]. split; [reflexivity |]. split; [reflexivity |].
  exact (proj1 (proj1 (duplicate_check_on_delivered_lookup
                         Sample.clock Sample.bola_again Sample.online
                         Hform eq_refl) Sample.bola eq_refl)).
Defined.

(* ===================================================================== *)
(** ** Attendance uniqueness check *)
(* ===================================================================== *)

(** The attendance check on a lookup that reaches the store. *)
Lemma isAlreadyVerified_delivered (m c : string)
    (st : StudentVerification.State) (w : World) :
  next_outcome w = Supabase.Delivered ->
  StudentVerification.isAlreadyVerified m c (mkSys st w)
  = ((0 <? List.length
             (filter (fun a => String.eqb (CourseAttendance.matricNumber a) m
                               && String.eqb (CourseAttendance.courseCode a) c)
                     (Supabase.course_attendance (db w))))%nat,
     mkSys (StudentVerification.mkState
              (StudentVerification.matricNumber st)
              (StudentVerification.selectedStudent st)
              (StudentVerification.selectedCourse st)
              (StudentVerification.invigilatorName st)
              (StudentVerification.message st) false)
           (mkWorld (db w) (tl (net w)) (console w)
              (sent w ++ [Supabase.Select "course_attendance"
                            [("matricNumber", m); ("courseCode", c)] false])
              (timers w))).
Proof.
  intros Hnet.
  unfold StudentVerification.isAlreadyVerified, bind, inWorld,
    course_attendance_eq_eq, StudentVerification.setLoading, setState.
  cbn [ui world]. rewrite (call_delivered _ _ _ Hnet). reflexivity.
Qed.


(** The mark-attendance handler once a student, a course and an invigilator
    name are given. *)
Lemma handleMarkAttendance_ready (now : Clock)
    (st : StudentVerification.State) (w : World) (student : Student.t) :
  StudentVerification.selectedStudent st = Some student ->
  StudentVerification.selectedCourse st <> "" ->
  JS.trim (StudentVerification.invigilatorName st) <> "" ->
  let m := Student.matricNumber student in
  let c := StudentVerification.selectedCourse st in
  let screen msg :=
    StudentVerification.mkState (StudentVerification.matricNumber st)
      (Some student) c (StudentVerification.invigilatorName st) msg false in
  let checked :=
    StudentVerification.isAlreadyVerified m c
      (mkSys (StudentVerification.mkState
                (StudentVerification.matricNumber st) (Some student) c
                (StudentVerification.invigilatorName st)
                (StudentVerification.message st) true) w) in
  let w1 := world (snd checked) in
  let inserted :=
    course_attendance_insert m c (toISOString now)
      (JS.trim (StudentVerification.invigilatorName st)) w1 in
  let w2 := snd inserted in
  exec (StudentVerification.handleMarkAttendance now) (mkSys st w)
  = if fst checked
    then mkSys (screen (Some (Msg.mk Msg.error
                  "Student has already been verified for this course exam.")))
               w1
    else
      match Supabase.error (fst inserted) with
      | Some _ =>
          mkSys (screen (Some (Msg.mk Msg.error "Error marking attendance.")))
                (mkWorld (db w2) (net w2)
                   (console w2 ++ ["Error marking attendance:"])
                   (sent w2) (timers w2 ++ [3000]))
      | None =>
          mkSys (StudentVerification.mkState "" None ""
                   (StudentVerification.invigilatorName st)
                   (Some (Msg.mk Msg.success
                            "Student attendance marked successfully!"))
                   false)
                (mkWorld (db w2) (net w2) (console w2) (sent w2)
                   (timers w2 ++ [3000]))
      end.
Proof.
  intros Hsel Hc Hi. cbv zeta.
  destruct st as [mn sel course inv msg ld].
  cbn [StudentVerification.matricNumber StudentVerification.selectedStudent
       StudentVerification.selectedCourse StudentVerification.invigilatorName
       StudentVerification.message] in *.
  subst sel.
  unfold exec, StudentVerification.handleMarkAttendance, bind, getState.
  cbn [ui world StudentVerification.selectedStudent
       StudentVerification.selectedCourse StudentVerification.invigilatorName
       fst snd].
  rewrite (truthy_true _ Hc), (truthy_true _ Hi). cbn [negb orb].
  unfold StudentVerification.setLoading at 1, setState at 1.
  cbn [ui world StudentVerification.matricNumber StudentVerification.selectedStudent
       StudentVerification.selectedCourse StudentVerification.invigilatorName
       StudentVerification.message StudentVerification.loading].
  destruct (StudentVerification.isAlreadyVerified _ _ _)
    as [verified [st1 w1]] eqn:Echeck.
  assert (st1 = StudentVerification.mkState mn (Some student) course inv msg
                  false) as ->.
  { revert Echeck.
    unfold StudentVerification.isAlreadyVerified, bind, inWorld,
      StudentVerification.setLoading, setState. cbn [ui world].
    destruct (course_attendance_eq_eq _ _ w) as [r w'].
    destruct (Supabase.error r); [| destruct (Supabase.data r)];
      cbn; unfold ret; congruence. }
  cbn [fst snd world ui].
  unfold StudentVerification.setLoading, StudentVerification.setMessage,
    StudentVerification.setSelectedStudent,
    StudentVerification.setSelectedCourse,
    StudentVerification.setMatricNumber, setState, inWorld, setTimeout.
  destruct verified; [reflexivity |].
  cbn [ui world fst snd StudentVerification.matricNumber
       StudentVerification.selectedStudent StudentVerification.selectedCourse
       StudentVerification.invigilatorName StudentVerification.message
       StudentVerification.loading].
  destruct (course_attendance_insert _ _ _ _ w1) as [r w2]. cbn [fst snd].
  destruct (Supabase.error r); reflexivity.
Qed.

(** The mark-attendance handler when the student, the course or the
    invigilator name is missing. *)
Lemma handleMarkAttendance_incomplete (now : Clock)
    (st : StudentVerification.State) (w : World) :
  StudentVerification.selectedStudent st = None
  \/ StudentVerification.selectedCourse st = ""
  \/ JS.trim (StudentVerification.invigilatorName st) = "" ->
  exec (StudentVerification.handleMarkAttendance now) (mkSys st w)
  = mkSys (StudentVerification.mkState
             (StudentVerification.matricNumber st)
             (StudentVerification.selectedStudent st)
             (StudentVerification.selectedCourse st)
             (StudentVerification.invigilatorName st)
             (Some (Msg.mk Msg.error
                      "Please select a course and enter invigilator name."))
             (StudentVerification.loading st))
          w.
Proof.
  intros H. destruct st as [mn sel course inv msg ld].
  cbn [StudentVerification.selectedStudent StudentVerification.selectedCourse
       StudentVerification.invigilatorName] in H.
  unfold exec, StudentVerification.handleMarkAttendance, bind, getState.
  cbn [ui StudentVerification.selectedStudent
       StudentVerification.selectedCourse StudentVerification.invigilatorName
       fst snd].
  destruct sel as [student |]; [| reflexivity].
  destruct H as [H | [-> | ->]]; [discriminate | reflexivity |].
  now rewrite orb_true_r.
Qed.

Lemma verified_found (d : Supabase.DB) (m c : string) :
  Spec.verified d m c ->
  (0 <? List.length
          (filter (fun a => String.eqb (CourseAttendance.matricNumber a) m
                            && String.eqb (CourseAttendance.courseCode a) c)
                  (Supabase.course_attendance d)))%nat = true.
Proof.
  intros [a (Ha & Hm & Hc)].
  assert (In a (filter (fun a => String.eqb (CourseAttendance.matricNumber a) m
                            && String.eqb (CourseAttendance.courseCode a) c)
                  (Supabase.course_attendance d))) as Hin.
  { apply filter_In. split; [exact Ha |].
    apply andb_true_iff. split; now apply String.eqb_eq. }
  destruct (filter _ _); [destruct Hin | reflexivity].
Qed.

(** C2, amended. For every mark-attendance action on a selected student with
    matriculation number m and course code c whose lookup call is delivered:
    if the store holds an attendance row with exactly that m and that c, the
    action is rejected with an error message, no insert is sent and the store
    is unchanged. *)
Theorem verified_pair_is_rejected
    (now : Clock) (st : StudentVerification.State) (w : World)
    (student : Student.t)
    (Hsel : StudentVerification.selectedStudent st = Some student)
    (Hnet : next_outcome w = Supabase.Delivered)
    (Hrow : Spec.verified (db w) (Student.matricNumber student)
                          (StudentVerification.selectedCourse st)) :
  let after := exec (StudentVerification.handleMarkAttendance now)
                    (mkSys st w) in
  db (world after) = db w
  /\ (forall table,
        ~ In (Supabase.Insert table) (new_requests w (world after)))
  /\ (exists text,
        StudentVerification.message (ui after)
        = Some (Msg.mk Msg.error text))
  /\ (StudentVerification.selectedCourse st <> "" ->
      JS.trim (StudentVerification.invigilatorName st) <> "" ->
      StudentVerification.message (ui after)
      = Some (Msg.mk Msg.error
                "Student has already been verified for this course exam.")
      /\ new_requests w (world after)
         = [Supabase.Select "course_attendance"
              [("matricNumber", Student.matricNumber student);
               ("courseCode", StudentVerification.selectedCourse st)]
              false]).
Proof.
  intros after.
  destruct (string_dec (StudentVerification.selectedCourse st) "") as [Ec | Nc];
    [| destruct (string_dec
                   (JS.trim (StudentVerification.invigilatorName st)) "")
         as [Ei | Ni]].
  - unfold after. rewrite handleMarkAttendance_incomplete by auto.
    cbn [world ui db StudentVerification.message]. unfold new_requests.
    rewrite skipn_all.
    repeat split; eauto; solve [intros ? [] | intros; contradiction].
  - unfold after. rewrite handleMarkAttendance_incomplete by auto.
    cbn [world ui db StudentVerification.message]. unfold new_requests.
    rewrite skipn_all.
    repeat split; eauto; solve [intros ? [] | intros; contradiction].
  - unfold after.
    rewrite (handleMarkAttendance_ready now st w student Hsel Nc Ni).
    cbv zeta. rewrite isAlreadyVerified_delivered by exact Hnet.
    cbn [fst snd world]. rewrite (verified_found _ _ _ Hrow).
    cbn [world ui db StudentVerification.message]. unfold new_requests.
    cbn [sent]. rewrite skipn_length_app.
    repeat split; eauto.
    intros table [H | []]. discriminate H.
Qed.

Lemma verified_pair_is_rejected_witness :
  StudentVerification.selectedStudent Sample.ada_csc301 = Some Sample.ada
  /\ next_outcome Sample.online = Supabase.Delivered
  /\ Spec.verified (db Sample.online) "CSC/2020/001" "CSC301"
  /\ db (world (exec (StudentVerification.handleMarkAttendance Sample.clock)
                     (mkSys Sample.ada_csc301 Sample.online)))
     = db Sample.online.
Proof.
  assert (Spec.verified (db Sample.online) "CSC/2020/001" "CSC301") as Hrow.
  { exists (Sample.row "41" "CSC/2020/001" "CSC301").
    split; [left; reflexivity | split; reflexivity]. }
  split; [reflexivity |]. split; [reflexivity |]. split; [exact Hrow |].
  exact (proj1 (verified_pair_is_rejected Sample.clock Sample.ada_csc301
                  Sample.online Sample.ada eq_refl eq_refl Hrow)).
Defined.

(** C2, as stated, fails when the lookup itself fails: Ada's attendance for
    CSC301 is on file, the lookup does not reach the server; a second row
    for the same pair is inserted and the success message is shown. *)
Lemma failed_lookup_passes_duplicate_attendance :
  Supabase.course_attendance Sample.store
  = [Sample.row "41" "CSC/2020/001" "CSC301"]
  /\ exec (StudentVerification.handleMarkAttendance Sample.clock)
          (mkSys Sample.ada_csc301 Sample.lookup_fails)
     = mkSys (StudentVerification.mkState "" None "" "Dr Sani"
                (Some (Msg.mk Msg.success
                         "Student attendance marked successfully!"))
                false)
             (mkWorld
                (Supabase.set_course_attendance
                   [Sample.row "41" "CSC/2020/001" "CSC301";
                    CourseAttendance.mk "42" "CSC/2020/001" "CSC301"
                      "2025-01-10T09:00:00.000Z" "Dr Sani"]
                   Sample.store)
                []
                ["Error checking attendance:"]
                [Supabase.Select "course_attendance"
                   [("matricNumber", "CSC/2020/001"); ("courseCode", "CSC301")]
                   false;
                 Supabase.Insert "course_attendance"]
                [3000]).
Proof. split; reflexivity. Qed.

(* ===================================================================== *)
(** ** Upper-casing of the matriculation number *)
(* ===================================================================== *)

(** Above 127: e with acute (233) and its capital (201), the sharp s (223),
    the no-break space (160). *)
Example upper_half_texts :
  JS.toUpperCase (String (ascii_of_nat 233) "") = String (ascii_of_nat 201) ""
  /\ JS.toLowerCase (String (ascii_of_nat 201) "") = String (ascii_of_nat 233) ""
  /\ JS.toUpperCase (String (ascii_of_nat 223) "") = "SS"
  /\ JS.trim (String (ascii_of_nat 160) "") = ""
  /\ JS.trim (String "x" (String (ascii_of_nat 160) "")) = "x".
Proof. repeat split; reflexivity. Qed.

Lemma toUpperCase_cons (c : ascii) (s : string) :
  JS.toUpperCase (String c s)
  = (JS.toUpperCase (String c "") ++ JS.toUpperCase s)%string.
Proof.
  simpl. destruct (nat_of_ascii c =? 223)%nat; reflexivity.
Qed.

Lemma append_assoc (s t u : string) :
  ((s ++ t) ++ u = s ++ t ++ u)%string.
Proof. induction s as [| c s IH]; simpl; [reflexivity | now rewrite IH]. Qed.

Lemma toUpperCase_app (s t : string) :
  JS.toUpperCase (s ++ t) = (JS.toUpperCase s ++ JS.toUpperCase t)%string.
Proof.
  induction s as [| c s IH]; [reflexivity |].
  change (String c s ++ t)%string with (String c (s ++ t)%string).
  rewrite (toUpperCase_cons c (s ++ t)), (toUpperCase_cons c s), IH.
  now rewrite append_assoc.
Qed.

Lemma upper_unit_idempotent (c : ascii) :
  JS.toUpperCase (JS.toUpperCase (String c "")) = JS.toUpperCase (String c "").
Proof.
  destruct c as [[] [] [] [] [] [] [] []]; reflexivity.
Qed.

Lemma toUpperCase_idempotent (s : string) :
  JS.toUpperCase (JS.toUpperCase s) = JS.toUpperCase s.
Proof.
  induction s as [| c s IH]; [reflexivity |].
  now rewrite toUpperCase_cons, toUpperCase_app, upper_unit_idempotent, IH.
Qed.

Lemma toUpperCase_space (c : ascii) (s : string) :
  JS.is_space c = true ->
  JS.toUpperCase (String c s) = String c (JS.toUpperCase s).
Proof.
  destruct c as [[] [] [] [] [] [] [] []]; (discriminate || reflexivity).
Qed.

Lemma toUpperCase_head (c : ascii) (s : string) :
  JS.is_space c = false ->
  exists a t, JS.toUpperCase (String c s) = String a t /\ JS.is_space a = false.
Proof.
  destruct c as [[] [] [] [] [] [] [] []]; try discriminate; intros _;
    eexists; eexists; (split; [reflexivity | reflexivity]).
Qed.

Lemma trimStart_toUpperCase (s : string) :
  JS.trimStart (JS.toUpperCase s) = JS.toUpperCase (JS.trimStart s).
Proof.
  induction s as [| c s IH]; [reflexivity |].
  destruct (JS.is_space c) eqn:E.
  - rewrite (toUpperCase_space c s E). simpl. now rewrite E.
  - destruct (toUpperCase_head c s E) as (a & t & Hu & Ha).
    simpl JS.trimStart at 2. rewrite E, Hu. simpl. now rewrite Ha.
Qed.

Lemma trimEnd_cons (c : ascii) (s : string) :
  JS.is_space c = false -> JS.trimEnd (String c s) = String c (JS.trimEnd s).
Proof.
  intros H. simpl. destruct (JS.trimEnd s); [rewrite H |]; reflexivity.
Qed.

Lemma trimEnd_upper_unit (c : ascii) (s : string) :
  JS.is_space c = false ->
  JS.trimEnd (JS.toUpperCase (String c "") ++ s)
  = (JS.toUpperCase (String c "") ++ JS.trimEnd s)%string.
Proof.
  destruct c as [[] [] [] [] [] [] [] []]; try discriminate; intros _;
    match goal with
    | |- context [JS.toUpperCase ?x] =>
        let u := eval vm_compute in (JS.toUpperCase x) in
        change (JS.toUpperCase x) with u
    end;
    cbn [append]; rewrite ?trimEnd_cons by reflexivity; reflexivity.
Qed.

Lemma toUpperCase_empty (s : string) : JS.toUpperCase s = "" -> s = "".
Proof.
  destruct s as [| c s]; [reflexivity |]. simpl.
  destruct (nat_of_ascii c =? 223)%nat; discriminate.
Qed.

Lemma trimEnd_toUpperCase (s : string) :
  JS.trimEnd (JS.toUpperCase s) = JS.toUpperCase (JS.trimEnd s).
Proof.
  induction s as [| c s IH]; [reflexivity |].
  destruct (JS.is_space c) eqn:E.
  - rewrite (toUpperCase_space c s E). simpl. rewrite IH, E.
    destruct (JS.trimEnd s) as [| c' t] eqn:Et; [reflexivity |].
    rewrite (toUpperCase_space c _ E).
    destruct (JS.toUpperCase (String c' t)) eqn:Eu; [| reflexivity].
    apply toUpperCase_empty in Eu. discriminate.
  - rewrite (trimEnd_cons c s E), toUpperCase_cons, (toUpperCase_cons c (JS.trimEnd s)).
    now rewrite trimEnd_upper_unit, IH.
Qed.

Lemma trim_toUpperCase (s : string) :
  JS.trim (JS.toUpperCase s) = JS.toUpperCase (JS.trim s).
Proof.
  unfold JS.trim. now rewrite trimStart_toUpperCase, trimEnd_toUpperCase.
Qed.

Lemma searchKey_toUpperCase (s : string) :
  StudentVerification.searchKey (JS.toUpperCase s)
  = StudentVerification.searchKey s.
Proof.
  unfold StudentVerification.searchKey.
  now rewrite trim_toUpperCase, toUpperCase_idempotent.
Qed.




Example search_is_case_insensitive :
  exec (StudentVerification.onChangeMatricNumber " csc/2020/001 ";;
        StudentVerification.handleSearch)
       (mkSys StudentVerification.initialState Sample.online)
  = mkSys (StudentVerification.mkState " CSC/2020/001 " (Some Sample.ada)
             "" "" None false)
          (mkWorld Sample.store [] []
             [Supabase.Select "students" [("matricNumber", "CSC/2020/001")]
                true] []).
Proof. reflexivity. Qed.

(* ===================================================================== *)
(** ** Which tables the screens read and write *)
(* ===================================================================== *)

Section Preservation.
Context {UI : Type} (R : World -> World -> Prop).
Hypothesis R_refl : forall w, R w w.
Hypothesis R_trans : forall w1 w2 w3, R w1 w2 -> R w2 w3 -> R w1 w3.

Lemma preserves_ret {A} (a : A) : preserves R (@ret UI A a).
Proof. intros s. apply R_refl. Qed.

Lemma preserves_bind {A B} (m : M UI A) (k : A -> M UI B) :
  preserves R m -> (forall a, preserves R (k a)) -> preserves R (bind m k).
Proof.
  intros Hm Hk s. unfold bind. specialize (Hm s).
  destruct (m s) as [a s']. specialize (Hk a s'). cbn [snd] in *.
  eapply R_trans; eassumption.
Qed.

Lemma preserves_getState : preserves R (@getState UI).
Proof. intros s. apply R_refl. Qed.

Lemma preserves_setState (f : UI -> UI) : preserves R (setState f).
Proof. intros s. apply R_refl. Qed.

Lemma preserves_inWorld {A} (f : World -> A * World) :
  (forall w, R w (snd (f w))) -> preserves R (@inWorld UI A f).
Proof.
  intros Hf s. unfold inWorld. specialize (Hf (world s)).
  now destruct (f (world s)).
Qed.
End Preservation.

Section Frame.
Variable ok : Supabase.Request -> Prop.
Variable same : Supabase.DB -> Supabase.DB -> Prop.
Hypothesis same_refl : forall d, same d d.
Hypothesis same_trans : forall d1 d2 d3, same d1 d2 -> same d2 d3 -> same d1 d3.

Lemma frame_refl (w : World) : frame ok same w w.
Proof.
  split; [apply same_refl |].
  exists []. split; [now rewrite app_nil_r | constructor].
Qed.

Lemma frame_trans (w1 w2 w3 : World) :
  frame ok same w1 w2 -> frame ok same w2 w3 -> frame ok same w1 w3.
Proof.
  intros [E1 [r1 [S1 F1]]] [E2 [r2 [S2 F2]]].
  split; [eapply same_trans; eassumption |].
  exists (r1 ++ r2)%list. split.
  - now rewrite S2, S1, app_assoc.
  - apply Forall_app. split; assumption.
Qed.

Lemma frame_call {A} (req : Supabase.Request)
    (run : Supabase.DB -> Supabase.Response A * Supabase.DB) (w : World) :
  ok req -> (forall d, same d (snd (run d))) ->
  frame ok same w (snd (call req run w)).
Proof.
  intros Hreq Hrun. unfold call.
  assert (Forall ok [req]) as F by (constructor; [exact Hreq | constructor]).
  destruct (net w) as [| [| e] rest]; try specialize (Hrun (db w));
    try destruct (run (db w)) as [r d]; cbn [snd db sent] in *;
    (split; [first [assumption | apply same_refl]
            | exists [req]; split; [reflexivity | exact F]]).
Qed.

Lemma frame_console_error (label : string) (w : World) :
  frame ok same w (snd (console_error label w)).
Proof.
  split; [apply same_refl |].
  exists []. cbn. split; [now rewrite app_nil_r | constructor].
Qed.

Lemma frame_setTimeout (ms : nat) (w : World) :
  frame ok same w (snd (setTimeout ms w)).
Proof.
  split; [apply same_refl |].
  exists []. cbn. split; [now rewrite app_nil_r | constructor].
Qed.
End Frame.

Lemma same_attendance_records_refl (d : Supabase.DB) :
  same_attendance_records d d.
Proof. reflexivity. Qed.

Lemma same_but_course_attendance_refl (d : Supabase.DB) :
  same_but_course_attendance d d.
Proof. split; reflexivity. Qed.

Lemma same_attendance_records_trans (d1 d2 d3 : Supabase.DB) :
  same_attendance_records d1 d2 -> same_attendance_records d2 d3 ->
  same_attendance_records d1 d3.
Proof. unfold same_attendance_records. congruence. Qed.

Lemma same_but_course_attendance_trans (d1 d2 d3 : Supabase.DB) :
  same_but_course_attendance d1 d2 -> same_but_course_attendance d2 d3 ->
  same_but_course_attendance d1 d3.
Proof. unfold same_but_course_attendance. intuition congruence. Qed.

(** Walks through a handler, one bind and one branch at a time. *)
Ltac frame_walk same_refl same_trans :=
  repeat first
    [ apply (preserves_bind _ (frame_trans _ _ same_trans)); [| intros ?]
    | apply (preserves_ret _ (frame_refl _ _ same_refl))
    | apply (preserves_getState _ (frame_refl _ _ same_refl))
    | apply (preserves_setState _ (frame_refl _ _ same_refl))
    | apply preserves_inWorld; intros ?;
      first [ apply (frame_console_error _ _ same_refl)
            | apply (frame_setTimeout _ _ same_refl)
            | apply (frame_call _ _ same_refl);
              [cbn; auto | intros ?; cbv; auto] ]
    | match goal with
      | |- preserves _ (match ?x with _ => _ end) => destruct x
      | |- preserves _ (let _ := _ in _) => cbv zeta
      end ].

Ltac as_preserves w :=
  unfold exec;
  match goal with
  | |- ?R _ (world (snd (?m (mkSys ?u w)))) =>
      change (R (world (mkSys u w)) (world (snd (m (mkSys u w)))));
      generalize (mkSys u w); change (preserves R m)
  end.

Lemma step_keeps (w : World) (a : App.Action) :
  keeps_attendance_records w (App.step w a).
Proof.
  destruct a as [now form | screen | now screen | screen | screen
                 | arrival screen];
    cbn [App.step]; as_preserves w.
  - unfold StudentRegistration.handleSubmit,
      StudentRegistration.checkDuplicateRegistration,
      StudentRegistration.setLoading, StudentRegistration.setMessage,
      StudentRegistration.setFormData, students_eq_matricNumber_single,
      students_insert.
    frame_walk same_attendance_records_refl
               same_attendance_records_trans.
  - unfold StudentVerification.handleSearch, StudentVerification.setLoading,
      StudentVerification.setMessage, StudentVerification.setSelectedStudent,
      students_eq_matricNumber_single.
    frame_walk same_attendance_records_refl
               same_attendance_records_trans.
  - unfold StudentVerification.handleMarkAttendance,
      StudentVerification.isAlreadyVerified,
      StudentVerification.setLoading, StudentVerification.setMessage,
      StudentVerification.setSelectedStudent,
      StudentVerification.setSelectedCourse,
      StudentVerification.setMatricNumber, course_attendance_eq_eq,
      course_attendance_insert.
    frame_walk same_attendance_records_refl
               same_attendance_records_trans.
  - unfold AttendanceReports.fetchData, AttendanceReports.setLoading,
      AttendanceReports.setError, AttendanceReports.setStudents,
      AttendanceReports.setAttendanceRecords, students_select_all,
      course_attendance_select_all.
    frame_walk same_attendance_records_refl
               same_attendance_records_trans.
  - unfold StudentDetails.fetchData, StudentDetails.setLoading,
      StudentDetails.setError, StudentDetails.setStudents,
      StudentDetails.setAttendanceRecords, students_select_all,
      attendance_records_select_all.
    frame_walk same_attendance_records_refl
               same_attendance_records_trans.
  - unfold HomeScreen.loadData, HomeScreen.loadAttendance_resume,
      HomeScreen.loadStudents_resume, HomeScreen.loadStudents_rest,
      HomeScreen.loadStudents_finish, HomeScreen.settled,
      HomeScreen.loadData_finally, HomeScreen.loadData_catch,
      HomeScreen.setLoading, HomeScreen.setError, HomeScreen.setStudents,
      HomeScreen.setAttendanceRecords, students_select_all,
      attendance_records_select_all, student_courses_select_all.
    frame_walk same_attendance_records_refl
               same_attendance_records_trans.
Qed.

Lemma run_keeps (actions : list App.Action) :
  forall w, keeps_attendance_records w (App.run w actions).
Proof.
  induction actions as [| a actions IH]; intros w; cbn.
  - apply frame_refl, same_attendance_records_refl.
  - eapply frame_trans; [apply same_attendance_records_trans
                        | apply step_keeps | apply IH].
Qed.

Lemma mark_touches_course_attendance_only (now : Clock)
    (screen : StudentVerification.State) (w : World) :
  touches_course_attendance_only w (App.step w (App.MarkAttendance now screen)).
Proof.
  cbn [App.step]. as_preserves w.
  unfold StudentVerification.handleMarkAttendance,
    StudentVerification.isAlreadyVerified,
    StudentVerification.setLoading, StudentVerification.setMessage,
    StudentVerification.setSelectedStudent,
    StudentVerification.setSelectedCourse,
    StudentVerification.setMatricNumber, course_attendance_eq_eq,
    course_attendance_insert.
  frame_walk same_but_course_attendance_refl same_but_course_attendance_trans.
Qed.

Lemma frame_new_requests (ok : Supabase.Request -> Prop)
    (same : Supabase.DB -> Supabase.DB -> Prop) (w w' : World) :
  frame ok same w w' -> Forall ok (new_requests w w').
Proof.
  intros [_ [reqs [E F]]]. unfold new_requests.
  now rewrite E, skipn_length_app.
Qed.

Lemma delivered_next (n : nat) (w : World) :
  delivered (S n) w -> next_outcome w = Supabase.Delivered.
Proof.
  unfold delivered, next_outcome. destruct (net w) as [| o rest]; cbn.
  - reflexivity.
  - intros H. now inversion H.
Qed.

Lemma delivered_tail (n : nat) (w : World) (d : Supabase.DB)
    (c : list string) (s : list Supabase.Request) (t : list nat) :
  delivered (S n) w -> delivered n (mkWorld d (tl (net w)) c s t).
Proof.
  unfold delivered. cbn [net]. destruct (net w) as [| o rest]; cbn.
  - intros _. destruct n; constructor.
  - intros H. now inversion H.
Qed.

Lemma copy_rows (rows : list CourseAttendance.t) :
  map (fun record =>
         CourseAttendance.mk (CourseAttendance.id record)
           (CourseAttendance.matricNumber record)
           (CourseAttendance.courseCode record)
           (CourseAttendance.verificationDate record)
           (CourseAttendance.invigilatorName record)) rows
  = rows.
Proof.
  induction rows as [| [i m c v n] rows IH]; cbn; [reflexivity | now rewrite IH].
Qed.

(** The home screen's attendance list when its call is delivered. *)
Lemma loadAttendance_delivered (screen : HomeScreen.State) (w : World) :
  delivered 1 w ->
  let after := exec HomeScreen.loadAttendance (mkSys screen w) in
  HomeScreen.attendanceRecords (ui after)
  = Supabase.attendance_records (db w)
  /\ new_requests w (world after)
     = [Supabase.Select "attendance_records" [] false].
Proof.
  intros H. apply delivered_next in H. cbv zeta.
  unfold exec, HomeScreen.loadAttendance, bind, inWorld,
    attendance_records_select_all, HomeScreen.setAttendanceRecords, setState.
  cbn [ui world]. rewrite (call_delivered _ _ _ H).
  cbn. rewrite copy_rows. unfold new_requests. cbn [sent].
  now rewrite skipn_length_app.
Qed.

(** The student-details screen's attendance list when its two calls are
    delivered. *)
Lemma StudentDetails_fetchData_delivered (screen : StudentDetails.State)
    (w : World) :
  delivered 2 w ->
  let after := exec StudentDetails.fetchData (mkSys screen w) in
  StudentDetails.attendanceRecords (ui after)
  = Supabase.attendance_records (db w)
  /\ StudentDetails.students (ui after) = Supabase.students (db w)
  /\ new_requests w (world after)
     = [Supabase.Select "students" [] false;
        Supabase.Select "attendance_records" [] false].
Proof.
  intros H. cbv zeta.
  unfold exec, StudentDetails.fetchData, bind, inWorld, students_select_all,
    attendance_records_select_all, StudentDetails.setLoading,
    StudentDetails.setError, StudentDetails.setStudents,
    StudentDetails.setAttendanceRecords, setState.
  cbn [ui world]. rewrite (call_delivered _ _ _ (delivered_next _ _ H)).
  cbn [fst snd Supabase.rows Supabase.error Supabase.data ui world].
  rewrite call_delivered
    by (eapply delivered_next, delivered_tail, H).
  cbn. unfold new_requests. cbn [sent].
  rewrite <- app_assoc. now rewrite skipn_length_app.
Qed.

(** The reports screen's attendance list when its two calls are delivered. *)
Lemma AttendanceReports_fetchData_delivered (screen : AttendanceReports.State)
    (w : World) :
  delivered 2 w ->
  let after := exec AttendanceReports.fetchData (mkSys screen w) in
  AttendanceReports.attendanceRecords (ui after)
  = Supabase.course_attendance (db w)
  /\ AttendanceReports.students (ui after) = Supabase.students (db w)
  /\ new_requests w (world after)
     = [Supabase.Select "students" [] false;
        Supabase.Select "course_attendance" [] false].
Proof.
  intros H. cbv zeta.
  unfold exec, AttendanceReports.fetchData, bind, inWorld, students_select_all,
    course_attendance_select_all, AttendanceReports.setLoading,
    AttendanceReports.setError, AttendanceReports.setStudents,
    AttendanceReports.setAttendanceRecords, setState.
  cbn [ui world]. rewrite (call_delivered _ _ _ (delivered_next _ _ H)).
  cbn [fst snd Supabase.rows Supabase.error Supabase.data ui world].
  rewrite call_delivered
    by (eapply delivered_next, delivered_tail, H).
  cbn. unfold new_requests. cbn [sent].
  rewrite <- app_assoc. now rewrite skipn_length_app.
Qed.

(** C8. Marking attendance reads and writes the table [course_attendance]
    only, which the reports screen reads; the home screen and the
    student-details screen load their attendance lists from the table
    [attendance_records], which no action of the app writes.  So whatever
    the app does, these two lists are the rows [attendance_records] held
    before; a row the app creates is shown by the reports screen and is
    absent from both lists. *)
Theorem app_rows_never_reach_attendance_records :
  (forall now screen w,
      touches_course_attendance_only w
        (App.step w (App.MarkAttendance now screen)))
  /\ (forall w actions,
        Supabase.attendance_records (db (App.run w actions))
        = Supabase.attendance_records (db w)
        /\ Forall app_request (new_requests w (App.run w actions)))
  /\ (forall screen w,
        delivered 2 w ->
        let after := exec AttendanceReports.fetchData (mkSys screen w) in
        AttendanceReports.attendanceRecords (ui after)
        = Supabase.course_attendance (db w)
        /\ new_requests w (world after)
           = [Supabase.Select "students" [] false;
              Supabase.Select "course_attendance" [] false])
  /\ (forall w actions home details,
        let w' := App.run w actions in
        let home' := exec HomeScreen.loadAttendance (mkSys home w') in
        let details' := exec StudentDetails.fetchData (mkSys details w') in
        delivered 2 w' ->
        HomeScreen.attendanceRecords (ui home')
        = Supabase.attendance_records (db w)
        /\ new_requests w' (world home')
           = [Supabase.Select "attendance_records" [] false]
        /\ StudentDetails.attendanceRecords (ui details')
           = Supabase.attendance_records (db w)
        /\ new_requests w' (world details')
           = [Supabase.Select "students" [] false;
              Supabase.Select "attendance_records" [] false]
        /\ (forall r,
              ~ In r (Supabase.attendance_records (db w)) ->
              ~ In r (HomeScreen.attendanceRecords (ui home'))
              /\ ~ In r (StudentDetails.attendanceRecords (ui details'))))
  /\ (let w' := App.run Sample.online
                  [App.MarkAttendance Sample.clock Sample.bola_csc301] in
      Supabase.course_attendance (db w')
      = [Sample.row "41" "CSC/2020/001" "CSC301"; Sample.bola_row]
      /\ AttendanceReports.attendanceRecords
           (ui (exec AttendanceReports.fetchData
                     (mkSys AttendanceReports.initialState w')))
         = [Sample.row "41" "CSC/2020/001" "CSC301"; Sample.bola_row]
      /\ HomeScreen.attendanceRecords
           (ui (exec HomeScreen.loadAttendance
                     (mkSys HomeScreen.initialState w'))) = []
      /\ StudentDetails.attendanceRecords
           (ui (exec StudentDetails.fetchData
                     (mkSys StudentDetails.initialState w'))) = []).
Proof.
  split; [apply mark_touches_course_attendance_only |].
  split.
  { intros w actions. pose proof (run_keeps actions w) as H.
    split; [apply H | eapply frame_new_requests, H]. }
  split.
  { intros screen w H.
    destruct (AttendanceReports_fetchData_delivered screen w H) as (A & _ & B).
    split; assumption. }
  split.
  { intros w actions home details w' home' details' H.
    assert (Supabase.attendance_records (db w')
            = Supabase.attendance_records (db w)) as E
        by apply (run_keeps actions w).
    assert (delivered 1 w') as H1.
    { unfold delivered in *. destruct (net w') as [| o rest]; cbn in *;
        [constructor | inversion H; subst; repeat constructor; assumption]. }
    destruct (loadAttendance_delivered home w' H1) as (A & B).
    destruct (StudentDetails_fetchData_delivered details w' H) as (C & _ & D).
    fold home' in A, B. fold details' in C, D.
    rewrite E in A, C. repeat split; try assumption;
      intros Hin; [rewrite A in Hin | rewrite C in Hin]; contradiction. }
  cbv zeta. repeat split; reflexivity.
Qed.

(* ===================================================================== *)
(** ** Failed remote calls *)
(* ===================================================================== *)




(* ===================================================================== *)
(** ** The registration form *)
(* ===================================================================== *)


Lemma NoDup_snoc {A} (l : list A) (x : A) :
  NoDup l -> ~ In x l -> NoDup (l ++ [x]).
Proof.
  intros Hl Hx. apply NoDup_rev in Hl.
  rewrite <- (rev_involutive (l ++ [x])). apply NoDup_rev.
  rewrite rev_app_distr. simpl. constructor; [now rewrite <- in_rev | exact Hl].
Qed.

Lemma filter_none {A} (p : A -> bool) (l : list A) :
  (forall x, In x l -> p x = true) -> filter p l = l.
Proof.
  induction l as [| a l IH]; intros H; simpl; [reflexivity |].
  rewrite (H a (or_introl eq_refl)). f_equal. apply IH. intros x Hx.
  apply H. now right.
Qed.


(** The submit handler on a form that fails validation. *)
Lemma handleSubmit_incomplete (now : Clock) (st : StudentRegistration.State)
    (w : World) :
  ~ Spec.complete (StudentRegistration.formData st) ->
  exec (StudentRegistration.handleSubmit now) (mkSys st w)
  = mkSys (StudentRegistration.mkState (StudentRegistration.formData st)
             (Some (Msg.mk Msg.error
                "Please fill in all fields and select at least one course."))
             false)
          w.
Proof.
  intros H. destruct st as [fd msg ld].
  cbn [StudentRegistration.formData] in *.
  unfold exec, StudentRegistration.handleSubmit, bind, getState,
    StudentRegistration.setLoading, setState.
  cbn [ui world StudentRegistration.formData StudentRegistration.message
       StudentRegistration.loading fst snd].
  destruct (negb (JS.truthy (StudentRegistration.fullName fd))
            || negb (JS.truthy (StudentRegistration.matricNumber fd))
            || negb (JS.truthy (StudentRegistration.image fd))
            || (List.length (StudentRegistration.courses fd) =? 0)%nat) eqn:E;
    [reflexivity |].
  exfalso. apply H.
  repeat (apply orb_false_iff in E; destruct E as [E ?]).
  unfold JS.truthy in *.
  repeat match goal with
         | H : negb (negb _) = false |- _ =>
             rewrite negb_involutive in H; apply String.eqb_neq in H
         end.
  repeat split; try assumption.
  intros Hc. rewrite Hc in *. discriminate.
Qed.

Lemma complete_dec (fd : StudentRegistration.FormData) :
  {Spec.complete fd} + {~ Spec.complete fd}.
Proof.
  unfold Spec.complete.
  destruct (string_dec (StudentRegistration.fullName fd) "");
    [right; tauto |].
  destruct (string_dec (StudentRegistration.matricNumber fd) "");
    [right; tauto |].
  destruct (string_dec (StudentRegistration.image fd) ""); [right; tauto |].
  destruct (StudentRegistration.courses fd) as [| c l];
    [right; tauto | left; repeat split; congruence].
Qed.

(** X2. A submission with an empty name, matriculation number or image, or
    with no course selected, is refused before anything is sent: the store
    and the form are as they were and the banner asks to fill in all
    fields. *)
Theorem incomplete_form_is_not_sent
    (now : Clock) (st : StudentRegistration.State) (w : World)
    (Hmissing :
       StudentRegistration.fullName (StudentRegistration.formData st) = ""
       \/ StudentRegistration.matricNumber (StudentRegistration.formData st)
          = ""
       \/ StudentRegistration.image (StudentRegistration.formData st) = ""
       \/ StudentRegistration.courses (StudentRegistration.formData st) = []) :
  let after := exec (StudentRegistration.handleSubmit now) (mkSys st w) in
  world after = w
  /\ new_requests w (world after) = []
  /\ StudentRegistration.formData (ui after) = StudentRegistration.formData st
  /\ StudentRegistration.message (ui after)
     = Some (Msg.mk Msg.error
               "Please fill in all fields and select at least one course.")
  /\ StudentRegistration.loading (ui after) = false.
Proof.
  intros after. unfold after.
  rewrite handleSubmit_incomplete by (unfold Spec.complete; tauto).
  cbn. unfold new_requests. rewrite skipn_all. repeat split; reflexivity.
Qed.

Lemma incomplete_form_is_not_sent_witness :
  StudentRegistration.courses
    (StudentRegistration.formData StudentRegistration.initialState) = []
  /\ world (exec (StudentRegistration.handleSubmit Sample.clock)
                 (mkSys StudentRegistration.initialState Sample.online))
     = Sample.online.
Proof.
  split; [reflexivity |].
  exact (proj1 (incomplete_form_is_not_sent Sample.clock
                  StudentRegistration.initialState Sample.online
                  (or_intror (or_intror (or_intror eq_refl))))).
Defined.

Lemma Forall_firstn_weaken {A} (P : A -> Prop) (l : list A) :
  forall n, Forall P (firstn (S n) l) -> Forall P (firstn n l).
Proof.
  induction l as [| a l IH]; intros n H.
  - rewrite firstn_nil. constructor.
  - destruct n as [| n]; [constructor |].
    rewrite firstn_cons in H. inversion H; subst.
    rewrite firstn_cons. constructor; [assumption | now apply IH].
Qed.

Lemma delivered_weaken (n : nat) (w : World) :
  delivered (S n) w -> delivered n w.
Proof. apply Forall_firstn_weaken. Qed.

Lemma rows_of_added (d : Supabase.DB) (row : Student.t) :
  Spec.rows_of d (Student.matricNumber row) = [] ->
  Spec.rows_of (Supabase.set_students (Supabase.students d ++ [row]) d)
               (Student.matricNumber row)
  = [row].
Proof.
  unfold Spec.rows_of. cbn [Supabase.students Supabase.set_students].
  intros H. rewrite filter_app, H. cbn. now rewrite String.eqb_refl.
Qed.

Lemma overlap_self (C : list string) : Spec.overlap C C = C.
Proof.
  unfold Spec.overlap. apply filter_none. intros c Hc.
  now destruct (in_dec string_dec c C).
Qed.

(** A submission that passes validation and finds no overlap, its two calls
    being delivered. *)
Lemma handleSubmit_stores (now : Clock) (st : StudentRegistration.State)
    (w : World) :
  let fd := StudentRegistration.formData st in
  let m := StudentRegistration.matricNumber fd in
  let newStudent :=
    Student.mk (Date_now_toString now) (StudentRegistration.fullName fd) m
      (StudentRegistration.image fd) (StudentRegistration.session fd)
      (StudentRegistration.semester fd) (StudentRegistration.courses fd)
      (toISOString now) in
  Spec.complete fd ->
  delivered 2 w ->
  eval (StudentRegistration.checkDuplicateRegistration m
          (StudentRegistration.courses fd)) (mkSys st w) = [] ->
  exec (StudentRegistration.handleSubmit now) (mkSys st w)
  = mkSys (StudentRegistration.mkState StudentRegistration.emptyForm
             (Some (Msg.mk Msg.success "Student registered successfully!"))
             false)
          (mkWorld
             (Supabase.set_students (Supabase.students (db w) ++ [newStudent])
                                    (db w))
             (tl (tl (net w))) (console w)
             (sent w ++ [Supabase.Select "students" [("matricNumber", m)] true;
                         Supabase.Insert "students"])
             (timers w ++ [3000])).
Proof.
  intros fd m newStudent Hform Hnet Hdup.
  pose proof (delivered_next _ _ Hnet) as H1.
  rewrite (handleSubmit_complete now st w Hform). cbv zeta.
  unfold eval in Hdup. rewrite check_delivered in Hdup by exact H1.
  rewrite check_delivered by exact H1.
  cbn [fst snd world] in *. subst fd m. rewrite Hdup.
  unfold students_insert.
  rewrite call_delivered by (eapply delivered_next, delivered_tail, Hnet).
  cbn. now rewrite <- app_assoc.
Qed.

(** X3. A complete form whose check finds no overlap, both calls being
    delivered, adds exactly one student row carrying the fields of the form,
    the clock reading as identifier and registration date; the form is
    reset, the success banner is shown and its clearing is scheduled. *)
Theorem registration_stores_the_form
    (now : Clock) (st : StudentRegistration.State) (w : World)
    (Hform : Spec.complete (StudentRegistration.formData st))
    (Hnet : delivered 2 w)
    (Hfree : eval (StudentRegistration.checkDuplicateRegistration
                     (StudentRegistration.matricNumber
                        (StudentRegistration.formData st))
                     (StudentRegistration.courses
                        (StudentRegistration.formData st)))
                  (mkSys st w) = []) :
  let fd := StudentRegistration.formData st in
  let after := exec (StudentRegistration.handleSubmit now) (mkSys st w) in
  Supabase.students (db (world after))
  = (Supabase.students (db w)
     ++ [Student.mk (Date_now_toString now)
           (StudentRegistration.fullName fd)
           (StudentRegistration.matricNumber fd)
           (StudentRegistration.image fd) (StudentRegistration.session fd)
           (StudentRegistration.semester fd) (StudentRegistration.courses fd)
           (toISOString now)])%list
  /\ Supabase.course_attendance (db (world after))
     = Supabase.course_attendance (db w)
  /\ Supabase.attendance_records (db (world after))
     = Supabase.attendance_records (db w)
  /\ ui after
     = StudentRegistration.mkState StudentRegistration.emptyForm
         (Some (Msg.mk Msg.success "Student registered successfully!")) false
  /\ timers (world after) = (timers w ++ [3000])%list.
Proof.
  intros fd after. unfold after.
  rewrite (handleSubmit_stores now st w Hform Hnet Hfree).
  repeat split; reflexivity.
Qed.

Lemma registration_stores_the_form_witness :
  Spec.complete (StudentRegistration.formData Sample.bola_again)
  /\ delivered 2 (mkWorld (Supabase.mkDB [Sample.ada] [] [] [] (fun _ => "1"))
                    [] [] [] [])
  /\ Supabase.students
       (db (world (exec (StudentRegistration.handleSubmit Sample.clock)
                        (mkSys Sample.bola_again
                           (mkWorld (Supabase.mkDB [Sample.ada] [] [] []
                                       (fun _ => "1")) [] [] [] [])))))
     = [Sample.ada;
        Student.mk "1736499600000" "Bola Musa" "CSC/2020/002"
          "https://via.placeholder.com/150" "2024/2025" "First Semester"
          ["CSC301"] "2025-01-10T09:00:00.000Z"].
Proof.
  assert (Spec.complete (StudentRegistration.formData Sample.bola_again))
    as Hform by (repeat split; discriminate).
  assert (delivered 2 (mkWorld (Supabase.mkDB [Sample.ada] [] [] []
                                  (fun _ => "1")) [] [] [] []))
    as Hnet by constructor.
  split; [exact Hform |]. split; [exact Hnet |].
  exact (proj1 (registration_stores_the_form Sample.clock Sample.bola_again
                  _ Hform Hnet eq_refl)).
Defined.

(** X4. Registering and then submitting the same form again: when no row bore
    the matriculation number before and the three calls are delivered, the
    second submission is refused, every requested course is named as
    already registered and the store is left with the single new row. *)
Theorem second_registration_is_refused
    (now now' : Clock) (st : StudentRegistration.State) (w : World)
    (Hform : Spec.complete (StudentRegistration.formData st))
    (Hnet : delivered 3 w)
    (Hnew : Spec.rows_of (db w)
              (StudentRegistration.matricNumber
                 (StudentRegistration.formData st)) = []) :
  let fd := StudentRegistration.formData st in
  let first := exec (StudentRegistration.handleSubmit now) (mkSys st w) in
  let again := StudentRegistration.mkState fd
                 (StudentRegistration.message (ui first)) false in
  let second := exec (StudentRegistration.handleSubmit now')
                     (mkSys again (world first)) in
  eval (StudentRegistration.checkDuplicateRegistration
          (StudentRegistration.matricNumber fd)
          (StudentRegistration.courses fd)) (mkSys again (world first))
  = StudentRegistration.courses fd
  /\ db (world second) = db (world first)
  /\ List.length (Spec.rows_of (db (world second))
                    (StudentRegistration.matricNumber fd)) = 1
  /\ StudentRegistration.message (ui second)
     = Some (Msg.mk Msg.error
               ("Student is already registered for: "
                ++ JS.join ", " (StudentRegistration.courses fd)))
  /\ StudentRegistration.formData (ui second) = fd.
Proof.
  intros fd first again second.
  pose proof (delivered_next _ _ Hnet) as H1.
  assert (Hfree : eval (StudentRegistration.checkDuplicateRegistration
                          (StudentRegistration.matricNumber fd)
                          (StudentRegistration.courses fd))
                       (mkSys st w) = []).
  { unfold eval. rewrite check_delivered by exact H1. cbn [fst].
    subst fd. now rewrite Hnew. }
  assert (Hfirst := handleSubmit_stores now st w Hform
                      (delivered_weaken _ _ Hnet) Hfree).
  cbv zeta in Hfirst. fold fd in Hfirst.
  set (row := Student.mk _ _ _ _ _ _ _ _) in Hfirst.
  assert (Hrows : Spec.rows_of (db (world first))
                    (StudentRegistration.matricNumber fd) = [row]).
  { unfold first. rewrite Hfirst. cbn [world db].
    apply (rows_of_added (db w) row). exact Hnew. }
  assert (H3 : next_outcome (world first) = Supabase.Delivered).
  { unfold first. rewrite Hfirst. unfold next_outcome. cbn [world net].
    unfold delivered in Hnet.
    destruct (net w) as [| o1 [| o2 [| o3 l]]]; cbn in *; try reflexivity.
    inversion Hnet as [| ? ? _ Hr]; inversion Hr as [| ? ? _ Hr'];
      now inversion Hr'. }
  assert (Hdup : eval (StudentRegistration.checkDuplicateRegistration
                         (StudentRegistration.matricNumber fd)
                         (StudentRegistration.courses fd))
                      (mkSys again (world first))
                 = StudentRegistration.courses fd).
  { unfold eval. rewrite check_delivered by exact H3. cbn [fst].
    rewrite Hrows. apply overlap_self. }
  split; [exact Hdup |].
  assert (Hform' : Spec.complete (StudentRegistration.formData again))
    by exact Hform.
  unfold second.
  rewrite (handleSubmit_complete now' again (world first) Hform').
  cbv zeta. cbn [StudentRegistration.formData StudentRegistration.message again].
  rewrite check_delivered by exact H3. cbn [fst snd world].
  fold fd. rewrite Hrows. cbn [Student.courses row]. rewrite overlap_self.
  destruct Hform as (_ & _ & _ & Hc). fold fd in Hc.
  destruct (StudentRegistration.courses fd) as [| c0 C] eqn:EC; [congruence |].
  cbn [world db ui StudentRegistration.message StudentRegistration.formData].
  rewrite Hrows. repeat split; reflexivity.
Qed.

Lemma second_registration_is_refused_witness :
  Spec.complete (StudentRegistration.formData Sample.bola_again)
  /\ delivered 3 (mkWorld (Supabase.mkDB [Sample.ada] [] [] [] (fun _ => "1"))
                    [] [] [] [])
  /\ Spec.rows_of (Supabase.mkDB [Sample.ada] [] [] [] (fun _ => "1"))
                  "CSC/2020/002" = []
  /\ eval (StudentRegistration.checkDuplicateRegistration
             "CSC/2020/002" ["CSC301"])
          (mkSys (StudentRegistration.mkState
                    (StudentRegistration.formData Sample.bola_again)
                    (Some (Msg.mk Msg.success
                             "Student registered successfully!")) false)
             (world (exec (StudentRegistration.handleSubmit Sample.clock)
                      (mkSys Sample.bola_again
                         (mkWorld (Supabase.mkDB [Sample.ada] [] [] []
                                     (fun _ => "1")) [] [] [] [])))))
     = ["CSC301"].
Proof.
  assert (Spec.complete (StudentRegistration.formData Sample.bola_again))
    as Hform by (repeat split; discriminate).
  assert (delivered 3 (mkWorld (Supabase.mkDB [Sample.ada] [] [] []
                                  (fun _ => "1")) [] [] [] []))
    as Hnet by constructor.
  split; [exact Hform |]. split; [exact Hnet |]. split; [reflexivity |].
  exact (proj1 (second_registration_is_refused Sample.clock Sample.clock
                  Sample.bola_again _ Hform Hnet eq_refl)).
Defined.

(* ===================================================================== *)
(** ** Searching a student *)
(* ===================================================================== *)

Lemma trimStart_head (s : string) :
  match JS.trimStart s with
  | EmptyString => True
  | String c _ => JS.is_space c = false
  end.
Proof.
  induction s as [| c s IH]; simpl; [exact I |].
  destruct (JS.is_space c) eqn:E; [exact IH | exact E].
Qed.

Lemma trimStart_fixed (s : string) :
  match s with
  | EmptyString => True
  | String c _ => JS.is_space c = false
  end ->
  JS.trimStart s = s.
Proof. destruct s as [| c s]; simpl; [reflexivity | now intros ->]. Qed.

Lemma trimEnd_head (s : string) :
  match s with
  | EmptyString => True
  | String c _ => JS.is_space c = false
  end ->
  match JS.trimEnd s with
  | EmptyString => True
  | String c _ => JS.is_space c = false
  end.
Proof.
  destruct s as [| c s]; simpl; [trivial |]. intros H.
  destruct (JS.trimEnd s); [rewrite H |]; exact H.
Qed.

Lemma trimEnd_idempotent (s : string) :
  JS.trimEnd (JS.trimEnd s) = JS.trimEnd s.
Proof.
  induction s as [| c s IH]; simpl; [reflexivity |].
  destruct (JS.trimEnd s) as [| c' t] eqn:E.
  - destruct (JS.is_space c) eqn:Ec; simpl; [reflexivity | now rewrite Ec].
  - change (JS.trimEnd (String c (String c' t))) with
      (match JS.trimEnd (String c' t) with
       | EmptyString => if JS.is_space c then EmptyString
                        else String c EmptyString
       | u => String c u
       end).
    now rewrite IH.
Qed.

Lemma trim_idempotent (s : string) : JS.trim (JS.trim s) = JS.trim s.
Proof.
  unfold JS.trim.
  rewrite (trimStart_fixed (JS.trimEnd (JS.trimStart s)))
    by apply trimEnd_head, trimStart_head.
  apply trimEnd_idempotent.
Qed.

Lemma searchKey_normal (s : string) :
  JS.trim (StudentVerification.searchKey s) = StudentVerification.searchKey s
  /\ JS.toUpperCase (StudentVerification.searchKey s)
     = StudentVerification.searchKey s.
Proof.
  unfold StudentVerification.searchKey.
  now rewrite trim_toUpperCase, trim_idempotent, toUpperCase_idempotent.
Qed.

(** The search with a blank input field. *)
Lemma handleSearch_blank (st : StudentVerification.State) (w : World) :
  JS.trim (StudentVerification.matricNumber st) = "" ->
  exec StudentVerification.handleSearch (mkSys st w)
  = mkSys (StudentVerification.mkState
             (StudentVerification.matricNumber st)
             (StudentVerification.selectedStudent st)
             (StudentVerification.selectedCourse st)
             (StudentVerification.invigilatorName st)
             (Some (Msg.mk Msg.error "Please enter a matric number."))
             (StudentVerification.loading st))
          w.
Proof.
  intros H. unfold exec, StudentVerification.handleSearch, bind, getState.
  cbn [ui fst snd]. now rewrite H.
Qed.

(** The search whose call is delivered. *)
Lemma handleSearch_delivered (st : StudentVerification.State) (w : World) :
  JS.trim (StudentVerification.matricNumber st) <> "" ->
  next_outcome w = Supabase.Delivered ->
  let key := StudentVerification.searchKey
               (StudentVerification.matricNumber st) in
  exec StudentVerification.handleSearch (mkSys st w)
  = mkSys (match Spec.rows_of (db w) key with
           | [row] =>
               StudentVerification.mkState
                 (StudentVerification.matricNumber st) (Some row)
                 (StudentVerification.selectedCourse st)
                 (StudentVerification.invigilatorName st) None false
           | _ =>
               StudentVerification.mkState
                 (StudentVerification.matricNumber st) None
                 (StudentVerification.selectedCourse st)
                 (StudentVerification.invigilatorName st)
                 (Some (Msg.mk Msg.error
                    "Student not found. Please check the matric number."))
                 false
           end)
          (mkWorld (db w) (tl (net w)) (console w)
             (sent w ++ [Supabase.Select "students" [("matricNumber", key)]
                           true])
             (timers w)).
Proof.
  intros Hb Hnet. cbv zeta.
  unfold exec, StudentVerification.handleSearch, bind, getState.
  cbn [ui world fst snd]. rewrite (truthy_true _ Hb). cbn [negb].
  unfold inWorld, students_eq_matricNumber_single,
    StudentVerification.setLoading, StudentVerification.setMessage,
    StudentVerification.setSelectedStudent, setState.
  cbn [ui world]. rewrite (call_delivered _ _ _ Hnet). cbn [fst snd].
  unfold Spec.rows_of, StudentVerification.searchKey.
  destruct (filter _ (Supabase.students (db w))) as [| row [| row' l]];
    reflexivity.
Qed.

(** The search whose call fails. *)
Lemma handleSearch_undelivered (st : StudentVerification.State) (w : World)
    (e : Supabase.PostgrestError) :
  JS.trim (StudentVerification.matricNumber st) <> "" ->
  next_outcome w = Supabase.Failed e ->
  StudentVerification.selectedStudent
    (ui (exec StudentVerification.handleSearch (mkSys st w))) = None.
Proof.
  intros Hb Hnet.
  unfold exec, StudentVerification.handleSearch, bind, getState.
  cbn [ui world fst snd]. rewrite (truthy_true _ Hb). cbn [negb].
  unfold inWorld, students_eq_matricNumber_single,
    StudentVerification.setLoading, StudentVerification.setMessage,
    StudentVerification.setSelectedStudent, setState.
  cbn [ui world]. rewrite (call_failed _ _ _ _ Hnet).
  unfold StudentRegistration.otherThanNoRows. cbn.
  destruct (String.eqb (Supabase.code e) "PGRST116"); reflexivity.
Qed.

Lemma is_space_blank (c : ascii) : JS.is_space c = true <-> Spec.blank c.
Proof.
  unfold Spec.blank.
  destruct c as [[] [] [] [] [] [] [] []]; cbn; split; intros H;
    try discriminate; try reflexivity; try tauto;
    repeat (destruct H as [H | H]; try discriminate H); try contradiction.
Qed.

Lemma trimStart_split (s : string) :
  exists l, s = (l ++ JS.trimStart s)%string /\ Forall Spec.blank (Spec.units l).
Proof.
  induction s as [| c s (l & E & F)]; [exists ""; split; [reflexivity | constructor] |].
  simpl. destruct (JS.is_space c) eqn:Ec.
  - exists (String c l). split; [simpl; now rewrite <- E |].
    constructor; [now apply is_space_blank | exact F].
  - exists "". split; [reflexivity | constructor].
Qed.

Lemma trimEnd_split (s : string) :
  exists r, s = (JS.trimEnd s ++ r)%string /\ Forall Spec.blank (Spec.units r).
Proof.
  induction s as [| c s (r & E & F)]; [exists ""; split; [reflexivity | constructor] |].
  simpl. destruct (JS.trimEnd s) as [| c' t] eqn:Et.
  - destruct (JS.is_space c) eqn:Ec.
    + exists (String c r). simpl in *. split; [congruence |].
      constructor; [now apply is_space_blank | exact F].
    + exists r. simpl in *. split; [congruence | exact F].
  - exists r. simpl in *. split; [congruence | exact F].
Qed.

Lemma append_snoc_inv (t1 t2 : string) (c1 c2 : ascii) :
  (t1 ++ String c1 "" = t2 ++ String c2 "")%string -> c1 = c2.
Proof.
  revert t2. induction t1 as [| a t1 IH]; intros [| b t2] H; simpl in H.
  - now injection H.
  - injection H as _ H. destruct t2; discriminate H.
  - injection H as _ H. destruct t1; discriminate H.
  - injection H as _ H. eauto.
Qed.

Lemma trimEnd_last (s t : string) (c : ascii) :
  JS.trimEnd s = (t ++ String c "")%string -> JS.is_space c = false.
Proof.
  revert t. induction s as [| a s IH]; intros t H; simpl in H.
  - destruct t; discriminate H.
  - destruct (JS.trimEnd s) as [| c' u] eqn:Eu.
    + destruct (JS.is_space a) eqn:Ea; [destruct t; discriminate H |].
      destruct t as [| b t]; simpl in H.
      * injection H as ->. exact Ea.
      * injection H as _ H. destruct t; discriminate H.
    + destruct t as [| b t]; simpl in H; [discriminate H |].
      injection H as _ H. eapply IH. exact H.
Qed.

Lemma trim_trimmed (s : string) : Spec.trimmed_of s (JS.trim s).
Proof.
  unfold Spec.trimmed_of, JS.trim.
  destruct (trimStart_split s) as (l & El & Fl).
  destruct (trimEnd_split (JS.trimStart s)) as (r & Er & Fr).
  split; [exists l, r; split; [now rewrite <- Er | split; assumption] |].
  split.
  - intros c t' E Hb. apply is_space_blank in Hb.
    pose proof (trimEnd_head (JS.trimStart s) (trimStart_head s)) as H.
    rewrite E in H. congruence.
  - intros t' c E Hb. apply is_space_blank in Hb.
    apply trimEnd_last in E. congruence.
Qed.

Lemma upper_fits_app (s t : string) :
  JS.upper_fits (s ++ t) = JS.upper_fits s && JS.upper_fits t.
Proof.
  induction s as [| c s IH]; simpl; [reflexivity |].
  rewrite IH. now rewrite andb_assoc.
Qed.

Lemma upper_fits_trim (s : string) :
  JS.upper_fits s = true -> JS.upper_fits (JS.trim s) = true.
Proof.
  destruct (trim_trimmed s) as ((l & r & E & _) & _).
  intros H. rewrite E, !upper_fits_app in H.
  apply andb_true_iff in H. destruct H as [_ H].
  apply andb_true_iff in H. now destruct H.
Qed.

Lemma upper_unit_capital (c : ascii) :
  JS.upper_fits (String c "") = true ->
  Forall (fun u => ~ Spec.small_letter u)
         (Spec.units (JS.toUpperCase (String c ""))).
Proof.
  destruct c as [[] [] [] [] [] [] [] []]; intros H; vm_compute in H;
    try discriminate H;
    match goal with
    | |- Forall _ (Spec.units ?u) =>
        let v := eval vm_compute in (Spec.units u) in
        change (Spec.units u) with v
    end;
    repeat (constructor;
            [unfold Spec.small_letter;
             match goal with
             | |- context [nat_of_ascii ?a] =>
                 let n := eval vm_compute in (nat_of_ascii a) in
                 change (nat_of_ascii a) with n
             end; cbv zeta; lia |]);
    constructor.
Qed.

Lemma units_app (s t : string) :
  Spec.units (s ++ t) = (Spec.units s ++ Spec.units t)%list.
Proof.
  induction s as [| c s IH]; simpl; [reflexivity | now rewrite IH].
Qed.

Lemma toUpperCase_capital (s : string) :
  JS.upper_fits s = true ->
  Forall (fun u => ~ Spec.small_letter u) (Spec.units (JS.toUpperCase s)).
Proof.
  induction s as [| c s IH]; intros H; [constructor |].
  change (String c s) with (String c "" ++ s)%string in H.
  rewrite upper_fits_app in H. apply andb_true_iff in H. destruct H as [Hc Hs].
  rewrite toUpperCase_cons, units_app. apply Forall_app. split.
  - now apply upper_unit_capital.
  - now apply IH.
Qed.

Lemma upper_char_same_letter (c : ascii) :
  nat_of_ascii c <> 223 ->
  JS.toUpperCase (String c "") = String (JS.upper_char c) "".
Proof.
  intros H. simpl. destruct (nat_of_ascii c =? 223)%nat eqn:E;
    [apply Nat.eqb_eq in E; contradiction | reflexivity].
Qed.






(** X5. Whatever the input and the answer, a search with a non-blank input
    selects only a student row of the store whose matriculation number is
    the trimmed, upper-cased input; such a number has no white space around
    it and no lower-case letter, so a row stored otherwise is never found.
    The input is one whose capitals are code units below 256. *)
Theorem search_selects_only_normalised_numbers
    (st : StudentVerification.State) (w : World) (row : Student.t)
    (Hfits : JS.upper_fits (StudentVerification.matricNumber st) = true)
    (Hinput : JS.trim (StudentVerification.matricNumber st) <> "")
    (Hsel : StudentVerification.selectedStudent
              (ui (exec StudentVerification.handleSearch (mkSys st w)))
            = Some row) :
  In row (Supabase.students (db w))
  /\ Student.matricNumber row
     = JS.toUpperCase (JS.trim (StudentVerification.matricNumber st))
  /\ JS.trim (Student.matricNumber row) = Student.matricNumber row
  /\ JS.toUpperCase (Student.matricNumber row) = Student.matricNumber row
  /\ (forall c t, Student.matricNumber row = String c t -> ~ Spec.blank c)
  /\ (forall t c, Student.matricNumber row = (t ++ String c "")%string ->
                  ~ Spec.blank c)
  /\ Forall (fun u => ~ Spec.small_letter u)
            (Spec.units (Student.matricNumber row)).
Proof.
  destruct (next_outcome w) as [| e] eqn:Hnet.
  - rewrite (handleSearch_delivered st w Hinput Hnet) in Hsel. cbv zeta in Hsel.
    cbn [ui] in Hsel.
    destruct (Spec.rows_of (db w) _) as [| r [| r' l]] eqn:Hrows;
      cbn in Hsel; try discriminate.
    injection Hsel as ->.
    assert (In row (Spec.rows_of (db w)
                      (StudentVerification.searchKey
                         (StudentVerification.matricNumber st)))) as Hin
        by (rewrite Hrows; now left).
    apply filter_In in Hin. destruct Hin as [Hin Hm].
    apply String.eqb_eq in Hm.
    destruct (searchKey_normal (StudentVerification.matricNumber st))
      as [Ht Hu].
    rewrite Hm.
    assert (Forall (fun u => ~ Spec.small_letter u)
              (Spec.units (StudentVerification.searchKey
                             (StudentVerification.matricNumber st)))) as Hcap
        by now apply toUpperCase_capital, upper_fits_trim.
    destruct (trim_trimmed (StudentVerification.searchKey
                              (StudentVerification.matricNumber st)))
      as (_ & Hhead & Hlast).
    rewrite Ht in Hhead, Hlast.
    repeat split; assumption.
  - rewrite (handleSearch_undelivered st w e Hinput Hnet) in Hsel.
    discriminate.
Qed.

Lemma search_selects_only_normalised_numbers_witness :
  JS.upper_fits " csc/2020/001 " = true
  /\ JS.trim " csc/2020/001 " <> ""
  /\ Student.matricNumber Sample.ada = JS.toUpperCase (JS.trim " csc/2020/001 ").
Proof.
  assert (JS.trim " csc/2020/001 " <> "") as H by discriminate.
  split; [reflexivity |]. split; [exact H |].
  exact (proj1 (proj2 (search_selects_only_normalised_numbers
                         (StudentVerification.mkState " csc/2020/001 " None ""
                            "" None false)
                         Sample.online Sample.ada eq_refl H eq_refl))).
Defined.

(** X6. A delivered search selects the student when exactly one row bears the
    key and clears the banner; with no such row, or several, it clears the
    selection and reports that the student was not found.  A blank input
    sends nothing.  In every case the text of the input, the selected course
    and the invigilator name stay as they were, and the store is not
    changed.  The input is one whose capitals are code units below 256. *)
Theorem search_outcomes
    (st : StudentVerification.State) (w : World)
    (Hfits : JS.upper_fits (StudentVerification.matricNumber st) = true)
    (Hnet : next_outcome w = Supabase.Delivered) :
  let after := exec StudentVerification.handleSearch (mkSys st w) in
  let key := StudentVerification.searchKey
               (StudentVerification.matricNumber st) in
  (JS.trim (StudentVerification.matricNumber st) = "" ->
   world after = w
   /\ StudentVerification.selectedStudent (ui after)
      = StudentVerification.selectedStudent st
   /\ StudentVerification.message (ui after)
      = Some (Msg.mk Msg.error "Please enter a matric number."))
  /\ (JS.trim (StudentVerification.matricNumber st) <> "" ->
      new_requests w (world after)
      = [Supabase.Select "students" [("matricNumber", key)] true]
      /\ (forall row,
            Spec.rows_of (db w) key = [row] ->
            StudentVerification.selectedStudent (ui after) = Some row
            /\ StudentVerification.message (ui after) = None)
      /\ (List.length (Spec.rows_of (db w) key) <> 1 ->
          StudentVerification.selectedStudent (ui after) = None
          /\ StudentVerification.message (ui after)
             = Some (Msg.mk Msg.error
                  "Student not found. Please check the matric number.")))
  /\ db (world after) = db w
  /\ StudentVerification.matricNumber (ui after)
     = StudentVerification.matricNumber st
  /\ StudentVerification.selectedCourse (ui after)
     = StudentVerification.selectedCourse st
  /\ StudentVerification.invigilatorName (ui after)
     = StudentVerification.invigilatorName st.
Proof.
  intros after key.
  destruct (string_dec (JS.trim (StudentVerification.matricNumber st)) "")
    as [Hb | Hb].
  - unfold after. rewrite (handleSearch_blank st w Hb).
    cbn [ui world StudentVerification.matricNumber
         StudentVerification.selectedStudent StudentVerification.selectedCourse
         StudentVerification.invigilatorName StudentVerification.message].
    repeat split; try reflexivity; intros; contradiction.
  - unfold after. rewrite (handleSearch_delivered st w Hb Hnet). cbv zeta.
    fold key. cbn [world db ui]. unfold new_requests. cbn [sent].
    rewrite skipn_length_app.
    split; [intros; contradiction |].
    split.
    { intros _. split; [reflexivity |]. split.
      - intros row ->. split; reflexivity.
      - destruct (Spec.rows_of (db w) key) as [| r [| r' l]]; cbn;
          intros H; try (split; reflexivity). congruence. }
    destruct (Spec.rows_of (db w) key) as [| r [| r' l]];
      repeat split; reflexivity.
Qed.

Lemma search_outcomes_witness :
  JS.upper_fits (StudentVerification.matricNumber Sample.ada_csc301) = true
  /\ next_outcome Sample.online = Supabase.Delivered
  /\ db (world (exec StudentVerification.handleSearch
                     (mkSys Sample.ada_csc301 Sample.online)))
     = db Sample.online.
Proof.
  split; [reflexivity |]. split; [reflexivity |].
  exact (proj1 (proj2 (proj2 (search_outcomes Sample.ada_csc301 Sample.online
                                eq_refl eq_refl)))).
Defined.

(** X7. A student registered under a matriculation number is found by a
    search whose input, trimmed and upper-cased, is that number: with no row
    bearing it before and the three calls delivered, the search selects the
    row the registration stored.  The input is one whose capitals are code
    units below 256. *)
Theorem registered_student_is_found
    (now : Clock) (st : StudentRegistration.State)
    (screen : StudentVerification.State) (w : World)
    (Hform : Spec.complete (StudentRegistration.formData st))
    (Hnet : delivered 3 w)
    (Hnew : Spec.rows_of (db w)
              (StudentRegistration.matricNumber
                 (StudentRegistration.formData st)) = [])
    (Hfits : JS.upper_fits (StudentVerification.matricNumber screen) = true)
    (Hkey : StudentVerification.searchKey
              (StudentVerification.matricNumber screen)
            = StudentRegistration.matricNumber
                (StudentRegistration.formData st)) :
  let fd := StudentRegistration.formData st in
  let registered := exec (StudentRegistration.handleSubmit now) (mkSys st w) in
  let searched := exec StudentVerification.handleSearch
                       (mkSys screen (world registered)) in
  StudentVerification.selectedStudent (ui searched)
  = Some (Student.mk (Date_now_toString now)
            (StudentRegistration.fullName fd)
            (StudentRegistration.matricNumber fd)
            (StudentRegistration.image fd) (StudentRegistration.session fd)
            (StudentRegistration.semester fd) (StudentRegistration.courses fd)
            (toISOString now))
  /\ StudentVerification.message (ui searched) = None.
Proof.
  intros fd registered searched.
  pose proof (delivered_next _ _ Hnet) as H1.
  assert (Hfree : eval (StudentRegistration.checkDuplicateRegistration
                          (StudentRegistration.matricNumber fd)
                          (StudentRegistration.courses fd))
                       (mkSys st w) = []).
  { unfold eval. rewrite check_delivered by exact H1. cbn [fst].
    subst fd. now rewrite Hnew. }
  assert (Hreg := handleSubmit_stores now st w Hform
                    (delivered_weaken _ _ Hnet) Hfree).
  cbv zeta in Hreg. fold fd in Hreg.
  set (row := Student.mk _ _ _ _ _ _ _ _) in Hreg |- *.
  assert (Hb : JS.trim (StudentVerification.matricNumber screen) <> "").
  { intros E. unfold StudentVerification.searchKey in Hkey.
    rewrite E in Hkey. destruct Hform as (_ & Hm & _). now apply Hm. }
  assert (H3 : next_outcome (world registered) = Supabase.Delivered).
  { unfold registered. rewrite Hreg. unfold next_outcome. cbn [world net].
    unfold delivered in Hnet.
    destruct (net w) as [| o1 [| o2 [| o3 l]]]; cbn in *; try reflexivity.
    inversion Hnet as [| ? ? _ Hr]; inversion Hr as [| ? ? _ Hr'];
      now inversion Hr'. }
  unfold searched. rewrite (handleSearch_delivered _ _ Hb H3). cbv zeta.
  rewrite Hkey. unfold registered. rewrite Hreg. cbn [world db].
  fold fd.
  assert (Hrows : Spec.rows_of
                    (Supabase.set_students (Supabase.students (db w) ++ [row])
                       (db w))
                    (StudentRegistration.matricNumber fd) = [row])
    by (apply (rows_of_added (db w) row); exact Hnew).
  rewrite Hrows. split; reflexivity.
Qed.

Lemma registered_student_is_found_witness :
  Spec.complete (StudentRegistration.formData Sample.bola_again)
  /\ delivered 3 (mkWorld (Supabase.mkDB [Sample.ada] [] [] [] (fun _ => "1"))
                    [] [] [] [])
  /\ Spec.rows_of (Supabase.mkDB [Sample.ada] [] [] [] (fun _ => "1"))
                  "CSC/2020/002" = []
  /\ JS.upper_fits " csc/2020/002" = true
  /\ StudentVerification.searchKey " csc/2020/002" = "CSC/2020/002"
  /\ StudentVerification.message
       (ui (exec StudentVerification.handleSearch
              (mkSys (StudentVerification.mkState " csc/2020/002" None "" ""
                        None false)
                 (world (exec (StudentRegistration.handleSubmit Sample.clock)
                           (mkSys Sample.bola_again
                              (mkWorld (Supabase.mkDB [Sample.ada] [] [] []
                                          (fun _ => "1")) [] [] [] [])))))))
     = None.
Proof.
  assert (Spec.complete (StudentRegistration.formData Sample.bola_again))
    as Hform by (repeat split; discriminate).
  assert (delivered 3 (mkWorld (Supabase.mkDB [Sample.ada] [] [] []
                                  (fun _ => "1")) [] [] [] []))
    as Hnet by constructor.
  split; [exact Hform |]. split; [exact Hnet |]. split; [reflexivity |].
  split; [reflexivity |]. split; [reflexivity |].
  exact (proj2 (registered_student_is_found Sample.clock Sample.bola_again
                  (StudentVerification.mkState " csc/2020/002" None "" ""
                     None false)
                  _ Hform Hnet eq_refl eq_refl eq_refl)).
Defined.

(* ===================================================================== *)
(** ** Marking attendance *)
(* ===================================================================== *)

Lemma not_verified_none (d : Supabase.DB) (m c : string) :
  ~ Spec.verified d m c ->
  (0 <? List.length
          (filter (fun a => String.eqb (CourseAttendance.matricNumber a) m
                            && String.eqb (CourseAttendance.courseCode a) c)
                  (Supabase.course_attendance d)))%nat = false.
Proof.
  intros H.
  destruct (filter _ (Supabase.course_attendance d)) as [| a l] eqn:E;
    [reflexivity |].
  exfalso. apply H. exists a.
  assert (In a (a :: l)) as Hin by now left.
  rewrite <- E in Hin. apply filter_In in Hin. destruct Hin as [Hin Hb].
  apply andb_true_iff in Hb. destruct Hb as [Hm Hc].
  apply String.eqb_eq in Hm, Hc. auto.
Qed.

Lemma delivered_third (w : World) (d : Supabase.DB) (c : list string)
    (s : list Supabase.Request) (t : list nat) :
  delivered 3 w ->
  next_outcome (mkWorld d (tl (tl (net w))) c s t) = Supabase.Delivered.
Proof.
  unfold delivered, next_outcome. cbn [net].
  destruct (net w) as [| o1 [| o2 [| o3 l]]]; cbn; try reflexivity.
  intros H. inversion H as [| ? ? _ Hr]; inversion Hr as [| ? ? _ Hr'];
    now inversion Hr'.
Qed.

(** Marking attendance for a pair with no row on file, both calls being
    delivered. *)
Lemma handleMarkAttendance_marks (now : Clock)
    (st : StudentVerification.State) (w : World) (student : Student.t) :
  let m := Student.matricNumber student in
  let c := StudentVerification.selectedCourse st in
  let rows := Supabase.course_attendance (db w) in
  StudentVerification.selectedStudent st = Some student ->
  c <> "" ->
  JS.trim (StudentVerification.invigilatorName st) <> "" ->
  delivered 2 w ->
  ~ Spec.verified (db w) m c ->
  exec (StudentVerification.handleMarkAttendance now) (mkSys st w)
  = mkSys (StudentVerification.mkState "" None ""
             (StudentVerification.invigilatorName st)
             (Some (Msg.mk Msg.success
                      "Student attendance marked successfully!"))
             false)
          (mkWorld
             (Supabase.set_course_attendance
                (rows ++ [CourseAttendance.mk
                            (Supabase.id_gen (db w) (List.length rows)) m c
                            (toISOString now)
                            (JS.trim (StudentVerification.invigilatorName st))])
                (db w))
             (tl (tl (net w))) (console w)
             (sent w ++ [Supabase.Select "course_attendance"
                           [("matricNumber", m); ("courseCode", c)] false;
                         Supabase.Insert "course_attendance"])
             (timers w ++ [3000])).
Proof.
  intros m c rows Hsel Hc Hi Hnet Hfree.
  rewrite (handleMarkAttendance_ready now st w student Hsel Hc Hi). cbv zeta.
  rewrite isAlreadyVerified_delivered by (eapply delivered_next, Hnet).
  cbn [fst snd world]. fold m c. rewrite (not_verified_none _ _ _ Hfree).
  unfold course_attendance_insert.
  rewrite call_delivered by (eapply delivered_next, delivered_tail, Hnet).
  cbn. now rewrite <- app_assoc.
Qed.

(** X8. Marking attendance for a selected student, a chosen course and a named
    invigilator, when no row for the pair is on file and both calls are
    delivered, adds exactly one attendance row: the student's matriculation
    number, the chosen course, the clock reading and the trimmed invigilator
    name.  Whether the course is in the student's enrollment list is not
    looked at.  The selection and the input are cleared, the invigilator
    name is kept. *)
Theorem attendance_is_recorded
    (now : Clock) (st : StudentVerification.State) (w : World)
    (student : Student.t)
    (Hsel : StudentVerification.selectedStudent st = Some student)
    (Hcourse : StudentVerification.selectedCourse st <> "")
    (Hinv : JS.trim (StudentVerification.invigilatorName st) <> "")
    (Hnet : delivered 2 w)
    (Hfree : ~ Spec.verified (db w) (Student.matricNumber student)
               (StudentVerification.selectedCourse st)) :
  let after := exec (StudentVerification.handleMarkAttendance now)
                    (mkSys st w) in
  Supabase.course_attendance (db (world after))
  = (Supabase.course_attendance (db w)
     ++ [CourseAttendance.mk
           (Supabase.id_gen (db w)
              (List.length (Supabase.course_attendance (db w))))
           (Student.matricNumber student)
           (StudentVerification.selectedCourse st) (toISOString now)
           (JS.trim (StudentVerification.invigilatorName st))])%list
  /\ Supabase.students (db (world after)) = Supabase.students (db w)
  /\ ui after
     = StudentVerification.mkState "" None ""
         (StudentVerification.invigilatorName st)
         (Some (Msg.mk Msg.success "Student attendance marked successfully!"))
         false
  /\ Spec.verified (db (world after)) (Student.matricNumber student)
       (StudentVerification.selectedCourse st).
Proof.
  intros after. unfold after.
  rewrite (handleMarkAttendance_marks now st w student Hsel Hcourse Hinv Hnet
             Hfree).
  cbn [world db ui Supabase.set_course_attendance Supabase.course_attendance
       Supabase.students].
  repeat split.
  eexists. split; [apply in_or_app; right; left; reflexivity |].
  split; reflexivity.
Qed.

Lemma attendance_is_recorded_witness :
  StudentVerification.selectedStudent Sample.bola_csc301 = Some Sample.bola
  /\ StudentVerification.selectedCourse Sample.bola_csc301 <> ""
  /\ JS.trim (StudentVerification.invigilatorName Sample.bola_csc301) <> ""
  /\ delivered 2 Sample.online
  /\ ~ Spec.verified (db Sample.online) "CSC/2020/002" "CSC301"
  /\ Supabase.course_attendance
       (db (world (exec (StudentVerification.handleMarkAttendance Sample.clock)
                        (mkSys Sample.bola_csc301 Sample.online))))
     = [Sample.row "41" "CSC/2020/001" "CSC301"; Sample.bola_row].
Proof.
  assert (StudentVerification.selectedCourse Sample.bola_csc301 <> "")
    as Hc by discriminate.
  assert (JS.trim (StudentVerification.invigilatorName Sample.bola_csc301)
          <> "") as Hi by discriminate.
  assert (delivered 2 Sample.online) as Hnet by constructor.
  assert (~ Spec.verified (db Sample.online) "CSC/2020/002" "CSC301") as Hfree.
  { intros [a ([<- | []] & Hm & _)]. discriminate Hm. }
  repeat (split; [first [reflexivity | assumption] |]).
  exact (proj1 (attendance_is_recorded Sample.clock Sample.bola_csc301
                  Sample.online Sample.bola eq_refl Hc Hi Hnet Hfree)).
Defined.

(** X9. Marking the same student for the same course a second time, the three
    calls being delivered, is refused with the already-verified message and
    leaves the single row the first marking stored. *)
Theorem second_marking_is_refused
    (now now' : Clock) (st : StudentVerification.State) (w : World)
    (student : Student.t)
    (Hsel : StudentVerification.selectedStudent st = Some student)
    (Hcourse : StudentVerification.selectedCourse st <> "")
    (Hinv : JS.trim (StudentVerification.invigilatorName st) <> "")
    (Hnet : delivered 3 w)
    (Hfree : ~ Spec.verified (db w) (Student.matricNumber student)
               (StudentVerification.selectedCourse st)) :
  let first := exec (StudentVerification.handleMarkAttendance now)
                    (mkSys st w) in
  let again :=
    StudentVerification.mkState (StudentVerification.matricNumber st)
      (Some student) (StudentVerification.selectedCourse st)
      (StudentVerification.invigilatorName (ui first))
      (StudentVerification.message (ui first)) false in
  let second := exec (StudentVerification.handleMarkAttendance now')
                     (mkSys again (world first)) in
  db (world second) = db (world first)
  /\ List.length (Supabase.course_attendance (db (world second)))
     = S (List.length (Supabase.course_attendance (db w)))
  /\ StudentVerification.message (ui second)
     = Some (Msg.mk Msg.error
               "Student has already been verified for this course exam.")
  /\ StudentVerification.selectedStudent (ui second) = Some student.
Proof.
  intros first again second.
  assert (Hfirst := handleMarkAttendance_marks now st w student Hsel Hcourse
                      Hinv (delivered_weaken _ _ Hnet) Hfree).
  cbv zeta in Hfirst.
  assert (Hagain : again
                   = StudentVerification.mkState
                       (StudentVerification.matricNumber st) (Some student)
                       (StudentVerification.selectedCourse st)
                       (StudentVerification.invigilatorName st)
                       (Some (Msg.mk Msg.success
                                "Student attendance marked successfully!"))
                       false)
    by (unfold again, first; now rewrite Hfirst).
  assert (Hver : Spec.verified (db (world first))
                   (Student.matricNumber student)
                   (StudentVerification.selectedCourse st)).
  { unfold first. rewrite Hfirst. cbn [world db].
    eexists. split; [apply in_or_app; right; left; reflexivity |].
    split; reflexivity. }
  assert (H3 : next_outcome (world first) = Supabase.Delivered)
    by (unfold first; rewrite Hfirst; cbn [world];
        now apply delivered_third).
  unfold second.
  rewrite (handleMarkAttendance_ready now' again (world first) student)
    by (rewrite Hagain; assumption || reflexivity).
  cbv zeta. rewrite isAlreadyVerified_delivered by exact H3.
  cbn [fst snd world]. rewrite Hagain.
  cbn [StudentVerification.selectedCourse StudentVerification.matricNumber
       StudentVerification.invigilatorName StudentVerification.message].
  rewrite (verified_found _ _ _ Hver).
  cbn [world db ui StudentVerification.message
       StudentVerification.selectedStudent].
  repeat split; try reflexivity.
  unfold first. rewrite Hfirst. cbn [world db Supabase.course_attendance
                                     Supabase.set_course_attendance].
  rewrite length_app. cbn. lia.
Qed.

Lemma second_marking_is_refused_witness :
  StudentVerification.selectedStudent Sample.bola_csc301 = Some Sample.bola
  /\ delivered 3 Sample.online
  /\ ~ Spec.verified (db Sample.online) "CSC/2020/002" "CSC301"
  /\ StudentVerification.message
       (ui (exec (StudentVerification.handleMarkAttendance Sample.clock)
              (mkSys (StudentVerification.mkState "CSC/2020/002"
                        (Some Sample.bola) "CSC301" "Dr Sani"
                        (Some (Msg.mk Msg.success
                                 "Student attendance marked successfully!"))
                        false)
                 (world (exec (StudentVerification.handleMarkAttendance
                                 Sample.clock)
                           (mkSys Sample.bola_csc301 Sample.online))))))
     = Some (Msg.mk Msg.error
               "Student has already been verified for this course exam.").
Proof.
  assert (StudentVerification.selectedCourse Sample.bola_csc301 <> "")
    as Hc by discriminate.
  assert (JS.trim (StudentVerification.invigilatorName Sample.bola_csc301)
          <> "") as Hi by discriminate.
  assert (delivered 3 Sample.online) as Hnet by constructor.
  assert (~ Spec.verified (db Sample.online) "CSC/2020/002" "CSC301") as Hfree.
  { intros [a ([<- | []] & Hm & _)]. discriminate Hm. }
  split; [reflexivity |]. split; [exact Hnet |]. split; [exact Hfree |].
  exact (proj1 (proj2 (proj2 (second_marking_is_refused Sample.clock
                                Sample.clock Sample.bola_csc301 Sample.online
                                Sample.bola eq_refl Hc Hi Hnet Hfree)))).
Defined.

(** X10. With no student selected, no course chosen or a blank invigilator name,
    the mark-attendance action sends nothing: the store and the rest of the
    screen are as they were and the banner asks for the course and the
    name. *)
Theorem marking_needs_student_course_and_invigilator
    (now : Clock) (st : StudentVerification.State) (w : World)
    (Hmissing : StudentVerification.selectedStudent st = None
                \/ StudentVerification.selectedCourse st = ""
                \/ JS.trim (StudentVerification.invigilatorName st) = "") :
  let after := exec (StudentVerification.handleMarkAttendance now)
                    (mkSys st w) in
  world after = w
  /\ new_requests w (world after) = []
  /\ StudentVerification.message (ui after)
     = Some (Msg.mk Msg.error
               "Please select a course and enter invigilator name.")
  /\ StudentVerification.selectedStudent (ui after)
     = StudentVerification.selectedStudent st
  /\ StudentVerification.selectedCourse (ui after)
     = StudentVerification.selectedCourse st
  /\ StudentVerification.invigilatorName (ui after)
     = StudentVerification.invigilatorName st
  /\ StudentVerification.matricNumber (ui after)
     = StudentVerification.matricNumber st.
Proof.
  intros after. unfold after.
  rewrite (handleMarkAttendance_incomplete now st w Hmissing).
  cbn. unfold new_requests. rewrite skipn_all. repeat split; reflexivity.
Qed.

Lemma marking_needs_student_course_and_invigilator_witness :
  StudentVerification.selectedStudent StudentVerification.initialState = None
  /\ world (exec (StudentVerification.handleMarkAttendance Sample.clock)
                 (mkSys StudentVerification.initialState Sample.online))
     = Sample.online.
Proof.
  split; [reflexivity |].
  exact (proj1 (marking_needs_student_course_and_invigilator Sample.clock
                  StudentVerification.initialState Sample.online
                  (or_introl eq_refl))).
Defined.

(* ===================================================================== *)
(** ** The detail view and the reports screen *)
(* ===================================================================== *)

Lemma distinct_keys_filter {S K} (key : S -> K) (keep : S -> bool) :
  forall rows : list S,
    NoDup (map key rows) -> NoDup (map key (filter keep rows)).
Proof.
  intros rows. induction rows as [| r rows IH]; simpl; intros H;
    [constructor |].
  inversion H as [| ? ? Hn Hl]; subst.
  destruct (keep r); simpl; [constructor |]; auto.
  intros Hin. apply Hn. apply in_map_iff in Hin.
  destruct Hin as [x [E Hx]]. apply filter_In in Hx.
  apply in_map_iff. exists x. tauto.
Qed.

Lemma filter_partition_length {A} (p : A -> bool) (l : list A) :
  List.length l
  = (List.length (filter p l)
     + List.length (filter (fun x => negb (p x)) l))%nat.
Proof.
  induction l as [| a l IH]; simpl; [reflexivity |].
  destruct (p a); simpl; lia.
Qed.

Lemma isPresent_iff (c : string) (records : list CourseAttendance.t)
    (s : Student.t) :
  AttendanceDetailModal.isPresent c records s = true
  <-> In (Student.matricNumber s)
         (map CourseAttendance.matricNumber
              (AttendanceDetailModal.courseAttendance c records)).
Proof.
  unfold AttendanceDetailModal.isPresent,
    AttendanceDetailModal.getAttendanceStatus, JS.find.
  destruct (find _ _) as [a |] eqn:E.
  - apply find_some in E. destruct E as [Hin Hm]. apply String.eqb_eq in Hm.
    split; [intros _ | reflexivity].
    apply in_map_iff. exists a. split; assumption.
  - split; [discriminate |]. intros Hin. apply in_map_iff in Hin.
    destruct Hin as [a [Hm Ha]].
    pose proof (find_none _ _ E a Ha) as Hf. cbn in Hf.
    apply String.eqb_neq in Hf. contradiction.
Qed.

(** X11. In the detail view a registered student is shown as attended exactly
    when some attendance row of the course bears the student's
    matriculation number.  When the registered students have distinct
    matriculation numbers, every row of the course belongs to one of them
    and no student has two rows, the absent count is the number of students
    shown as absent. *)
Theorem absent_count_matches_list
    (c : string) (students : list Student.t)
    (records : list CourseAttendance.t)
    (Hstudents :
       NoDup (map Student.matricNumber
                  (AttendanceDetailModal.registeredStudents c students)))
    (Hrows :
       NoDup (map CourseAttendance.matricNumber
                  (AttendanceDetailModal.courseAttendance c records)))
    (Hknown :
       forall a, In a (AttendanceDetailModal.courseAttendance c records) ->
                 In (CourseAttendance.matricNumber a)
                    (map Student.matricNumber
                       (AttendanceDetailModal.registeredStudents c students))) :
  (forall s,
      AttendanceDetailModal.isPresent c records s = true
      <-> exists a, In a records
                    /\ CourseAttendance.courseCode a = c
                    /\ CourseAttendance.matricNumber a = Student.matricNumber s)
  /\ AttendanceDetailModal.absentCount c students records
     = Z.of_nat
         (List.length
            (filter (fun s => negb (AttendanceDetailModal.isPresent c records s))
                    (AttendanceDetailModal.registeredStudents c students)))
  /\ AttendanceDetailModal.attendedCount c records
     = List.length
         (filter (AttendanceDetailModal.isPresent c records)
                 (AttendanceDetailModal.registeredStudents c students)).
Proof.
  set (reg := AttendanceDetailModal.registeredStudents c students) in *.
  set (rows := AttendanceDetailModal.courseAttendance c records) in *.
  assert (Hpresent :
    List.length (filter (AttendanceDetailModal.isPresent c records) reg)
    = List.length rows).
  { rewrite <- (length_map Student.matricNumber),
            <- (length_map CourseAttendance.matricNumber rows).
    apply Permutation_length, NoDup_Permutation.
    - now apply distinct_keys_filter.
    - exact Hrows.
    - intros m. split; intros Hin.
      + apply in_map_iff in Hin. destruct Hin as [s [<- Hs]].
        apply filter_In in Hs. now apply isPresent_iff.
      + pose proof Hin as Hin'. apply in_map_iff in Hin'.
        destruct Hin' as [a [<- Ha]]. pose proof (Hknown a Ha) as Hk.
        apply in_map_iff in Hk. destruct Hk as [s [E Hs]].
        apply in_map_iff. exists s. split; [exact E |].
        apply filter_In. split; [exact Hs |].
        apply isPresent_iff. fold rows. now rewrite E. }
  split.
  { intros s. rewrite isPresent_iff. fold rows. split.
    - intros Hin. apply in_map_iff in Hin. destruct Hin as [a [E Ha]].
      unfold rows, AttendanceDetailModal.courseAttendance in Ha.
      apply filter_In in Ha. destruct Ha as [Ha Hc].
      apply String.eqb_eq in Hc. exists a. auto.
    - intros [a (Ha & Hc & E)]. apply in_map_iff. exists a.
      split; [exact E |].
      unfold rows, AttendanceDetailModal.courseAttendance.
      apply filter_In. split; [exact Ha | now apply String.eqb_eq]. }
  split; [| now rewrite Hpresent].
  unfold AttendanceDetailModal.absentCount, AttendanceDetailModal.attendedCount.
  fold reg rows.
  rewrite (filter_partition_length (AttendanceDetailModal.isPresent c records)
             reg), Hpresent.
  lia.
Qed.

Lemma absent_count_matches_list_witness :
  AttendanceDetailModal.absentCount "CSC301" [Sample.ada; Sample.bola]
    [Sample.row "7" "CSC/2020/001" "CSC301"]
  = Z.of_nat
      (List.length
         (filter (fun s =>
                    negb (AttendanceDetailModal.isPresent "CSC301"
                            [Sample.row "7" "CSC/2020/001" "CSC301"] s))
                 (AttendanceDetailModal.registeredStudents "CSC301"
                    [Sample.ada; Sample.bola]))).
Proof.
  refine (proj1 (proj2 (absent_count_matches_list "CSC301"
                          [Sample.ada; Sample.bola]
                          [Sample.row "7" "CSC/2020/001" "CSC301"] _ _ _))).
  - repeat constructor; simpl; intuition discriminate.
  - repeat constructor; simpl; intuition.
  - intros a [<- | []]. left. reflexivity.
Defined.

(** The rows of a course with their student, as the reports screen lists
    them. *)
Lemma details_cons (students : list Student.t) (a : CourseAttendance.t)
    (records : list CourseAttendance.t) (c : string) :
  AttendanceReports.getAttendanceDetails students (a :: records) c
  = ((if String.eqb (CourseAttendance.courseCode a) c
      then match JS.find (fun s => String.eqb (Student.matricNumber s)
                                     (CourseAttendance.matricNumber a))
                         students with
           | Some student => [(student, a)]
           | None => []
           end
      else [])
     ++ AttendanceReports.getAttendanceDetails students records c)%list.
Proof.
  unfold AttendanceReports.getAttendanceDetails,
    AttendanceReports.getAttendanceForCourse.
  simpl. destruct (String.eqb (CourseAttendance.courseCode a) c); reflexivity.
Qed.

Lemma find_known (students : list Student.t) (m : string) :
  In m (map Student.matricNumber students)
  <-> exists s, JS.find (fun s' => String.eqb (Student.matricNumber s') m)
                        students = Some s.
Proof.
  unfold JS.find. split.
  - intros Hin. apply in_map_iff in Hin. destruct Hin as [s [E Hs]].
    destruct (find _ students) as [s' |] eqn:F; [eauto |].
    pose proof (find_none _ _ F s Hs) as Hn. cbn in Hn.
    apply String.eqb_neq in Hn. contradiction.
  - intros [s F]. apply find_some in F. destruct F as [Hs E].
    apply String.eqb_eq in E. apply in_map_iff. eauto.
Qed.

Lemma details_In (students : list Student.t) (c : string)
    (s : Student.t) (a : CourseAttendance.t) :
  forall records,
    In (s, a) (AttendanceReports.getAttendanceDetails students records c)
    <-> In a records
        /\ CourseAttendance.courseCode a = c
        /\ JS.find (fun s' => String.eqb (Student.matricNumber s')
                                (CourseAttendance.matricNumber a))
                   students = Some s.
Proof.
  induction records as [| b records IH].
  - simpl. tauto.
  - rewrite details_cons, in_app_iff, IH. simpl.
    destruct (String.eqb_spec (CourseAttendance.courseCode b) c) as [Ec | Ec].
    + destruct (JS.find (fun s' => String.eqb (Student.matricNumber s')
                                     (CourseAttendance.matricNumber b))
                        students) as [s' |] eqn:F; simpl.
      * split.
        -- intros [[E | F'] | H]; [| contradiction | tauto].
           injection E as E1 E2. subst. auto.
        -- intros (Ha & Hc & Hf). destruct Ha as [E | Ha]; [| tauto].
           subst b. left. left. congruence.
      * split; [tauto |].
        intros (Ha & Hc & Hf). destruct Ha as [E | Ha]; [| tauto].
        subst b. congruence.
    + simpl. split; [tauto |].
      intros (Ha & Hc & Hf). destruct Ha as [E | Ha]; [| tauto].
      subst b. contradiction.
Qed.

Lemma details_length (students : list Student.t) (c : string) :
  forall records,
    (List.length (AttendanceReports.getAttendanceDetails students records c)
     <= List.length (AttendanceReports.getAttendanceForCourse records c))%nat
    /\ (List.length (AttendanceReports.getAttendanceDetails students records c)
        = List.length (AttendanceReports.getAttendanceForCourse records c)
        <-> forall a, In a records -> CourseAttendance.courseCode a = c ->
                      In (CourseAttendance.matricNumber a)
                         (map Student.matricNumber students)).
Proof.
  induction records as [| b records [IHle IHeq]].
  - simpl. split; [lia |]. split; [contradiction | reflexivity].
  - rewrite details_cons, length_app.
    unfold AttendanceReports.getAttendanceForCourse in *. simpl.
    destruct (String.eqb_spec (CourseAttendance.courseCode b) c) as [Ec | Ec].
    + destruct (JS.find _ students) as [s' |] eqn:F; simpl.
      * split; [lia |]. split.
        -- intros E a Ha Hc. destruct Ha as [Eb | Ha].
           ++ subst a. apply find_known. eauto.
           ++ apply IHeq; [lia | exact Ha | exact Hc].
        -- intros H. f_equal. apply IHeq. intros a Ha Hc. apply H; auto.
      * split; [lia |]. split; [lia |].
        intros H. exfalso.
        destruct (proj1 (find_known students _)
                    (H b (or_introl eq_refl) Ec)) as [s Fs].
        congruence.
    + simpl. split; [exact IHle |]. split.
      * intros E a Ha Hc. destruct Ha as [Eb | Ha];
          [subst a; contradiction | now apply IHeq].
      * intros H. apply IHeq. intros a Ha Hc. apply H; auto.
Qed.

(** X12. The list of verified students of a course holds one entry for each
    attendance row of the course whose matriculation number is that of some
    student, paired with the first such student, and none for the other
    rows; so it is never longer than the attended count of the course card,
    and it is as long exactly when every row of the course belongs to a
    student. *)
Theorem attendance_details_skip_unknown_students
    (students : list Student.t) (records : list CourseAttendance.t)
    (c : string) :
  let details := AttendanceReports.getAttendanceDetails students records c in
  (forall s a,
      In (s, a) details
      <-> In a records
          /\ CourseAttendance.courseCode a = c
          /\ JS.find (fun s' => String.eqb (Student.matricNumber s')
                                  (CourseAttendance.matricNumber a))
                     students = Some s)
  /\ (forall s a, In (s, a) details ->
                  In s students
                  /\ Student.matricNumber s = CourseAttendance.matricNumber a)
  /\ (List.length details
      <= AttendanceReports.attended
           (AttendanceReports.getCourseStats students records c))%nat
  /\ (List.length details
      = AttendanceReports.attended
          (AttendanceReports.getCourseStats students records c)
      <-> forall a, In a records -> CourseAttendance.courseCode a = c ->
                    In (CourseAttendance.matricNumber a)
                       (map Student.matricNumber students)).
Proof.
  cbv zeta.
  split; [intros s a; apply details_In |].
  split.
  { intros s a H. apply details_In in H. destruct H as (_ & _ & F).
    apply find_some in F. destruct F as [Hs E]. apply String.eqb_eq in E.
    auto. }
  apply details_length.
Qed.

Lemma fold_left_add_length {A} (f : A -> nat) (l : list A) :
  forall n, fold_left (fun total x => (total + f x)%nat) l n
            = (n + list_sum (map f l))%nat.
Proof.
  induction l as [| a l IH]; intros n; simpl; [lia |].
  rewrite IH. lia.
Qed.

Lemma list_sum_map_add {A} (f g : A -> nat) (l : list A) :
  list_sum (map (fun x => (f x + g x)%nat) l)
  = (list_sum (map f l) + list_sum (map g l))%nat.
Proof. induction l as [| a l IH]; simpl; lia. Qed.

Lemma list_sum_map_indicator {A} (p : A -> bool) (l : list A) :
  list_sum (map (fun x => if p x then 1 else 0)%nat l)
  = List.length (filter p l).
Proof.
  induction l as [| a l IH]; simpl; [reflexivity |].
  destruct (p a); simpl; lia.
Qed.

(** Counting the pairs of a relation by rows or by columns. *)
Lemma count_pairs_swap {A B} (p : A -> B -> bool) (la : list A)
    (lb : list B) :
  list_sum (map (fun a => List.length (filter (p a) lb)) la)
  = list_sum (map (fun b => List.length (filter (fun a => p a b) la)) lb).
Proof.
  induction lb as [| b lb IH]; simpl.
  - induction la as [| a la IHa]; simpl; [reflexivity | exact IHa].
  - rewrite <- IH, <- list_sum_map_indicator, <- list_sum_map_add.
    f_equal. apply map_ext. intros a. destruct (p a b); reflexivity.
Qed.

Lemma length_filter_members (l U : list string) :
  NoDup l -> NoDup U -> incl l U ->
  List.length (filter (fun c => JS.includes l c) U) = List.length l.
Proof.
  intros Hl HU Hincl. apply Permutation_length, NoDup_Permutation.
  - now apply NoDup_filter.
  - exact Hl.
  - intros c. rewrite filter_In, includes_In. split; [tauto |].
    intros H. split; [now apply Hincl | exact H].
Qed.

(** X13. When no student lists a course twice, the "Total Enrollments" figure is
    the sum of the registered counts of the course cards, and it is at
    least the "Total Courses" figure. *)
Theorem total_enrollments_is_sum_of_registered
    (st : AttendanceReports.State)
    (Hdistinct : forall s, In s (AttendanceReports.students st) ->
                           NoDup (Student.courses s)) :
  AttendanceReports.totalEnrollments st
  = list_sum
      (map (fun c =>
              AttendanceReports.registered
                (AttendanceReports.getCourseStats
                   (AttendanceReports.students st)
                   (AttendanceReports.attendanceRecords st) c))
           (AttendanceReports.allCourses (AttendanceReports.students st)))
  /\ (AttendanceReports.totalEnrollments st
      >= List.length
           (AttendanceReports.allCourses (AttendanceReports.students st)))%nat.
Proof.
  set (students := AttendanceReports.students st) in *.
  set (U := AttendanceReports.allCourses students).
  assert (Hsum :
    AttendanceReports.totalEnrollments st
    = list_sum (map (fun c => List.length
                      (filter (fun s => JS.includes (Student.courses s) c)
                              students)) U)).
  { unfold AttendanceReports.totalEnrollments. fold students.
    rewrite fold_left_add_length. simpl.
    rewrite <- (count_pairs_swap
                  (fun s c => JS.includes (Student.courses s) c) students U).
    apply f_equal. apply map_ext_in. intros s Hs. symmetry.
    apply length_filter_members.
    - now apply Hdistinct.
    - apply allCourses_NoDup.
    - intros c Hc. apply allCourses_In. exists s. split; assumption. }
  split; [exact Hsum |].
  rewrite Hsum. clear Hsum.
  assert (Hone : forall c, In c U ->
            (1 <= List.length
                    (filter (fun s => JS.includes (Student.courses s) c)
                            students))%nat).
  { intros c Hc. apply allCourses_In in Hc. destruct Hc as [s [Hs Hc]].
    assert (In s (filter (fun s => JS.includes (Student.courses s) c)
                         students)) as Hin
        by (apply filter_In; split; [exact Hs | now apply includes_In]).
    destruct (filter _ students); [destruct Hin | simpl; lia]. }
  induction U as [| c U IH]; simpl; [lia |].
  specialize (Hone c (or_introl eq_refl)) as H1.
  assert (forall c', In c' U ->
            (1 <= List.length
                    (filter (fun s => JS.includes (Student.courses s) c')
                            students))%nat) as H2
      by (intros c' Hc'; apply Hone; now right).
  specialize (IH H2). lia.
Qed.

Lemma total_enrollments_is_sum_of_registered_witness :
  AttendanceReports.totalEnrollments
    (AttendanceReports.mkState "" None [Sample.ada; Sample.bola] [] false None)
  = list_sum
      (map (fun c =>
              AttendanceReports.registered
                (AttendanceReports.getCourseStats [Sample.ada; Sample.bola]
                   [] c))
           (AttendanceReports.allCourses [Sample.ada; Sample.bola])).
Proof.
  refine (proj1 (total_enrollments_is_sum_of_registered
                   (AttendanceReports.mkState "" None [Sample.ada; Sample.bola]
                      [] false None) _)).
  intros s [<- | [<- | []]]; repeat constructor; simpl; intuition discriminate.
Defined.

(** X14. Without a course filter every card drawn is for a course with at least
    one registered student, so its percentage is the rounded quotient and
    the zero guard is not what produces it. *)
Theorem listed_course_has_registered_students
    (st : AttendanceReports.State) (c : string)
    (Hall : AttendanceReports.selectedCourse st = "")
    (Hshown : In c (AttendanceReports.shownCourses st)) :
  let stats := AttendanceReports.getCourseStats
                 (AttendanceReports.students st)
                 (AttendanceReports.attendanceRecords st) c in
  (1 <= AttendanceReports.registered stats)%nat
  /\ AttendanceReports.percentage stats
     = JS.Math_round
         ((JS.Number (AttendanceReports.attended stats)
           / JS.Number (AttendanceReports.registered stats)) * 100)%float.
Proof.
  unfold AttendanceReports.shownCourses in Hshown. rewrite Hall in Hshown.
  cbn in Hshown. apply allCourses_In in Hshown.
  destruct Hshown as [s [Hs Hc]].
  cbv zeta. unfold AttendanceReports.getCourseStats.
  cbn [AttendanceReports.registered AttendanceReports.attended
       AttendanceReports.percentage].
  unfold AttendanceReports.getStudentsForCourse.
  assert (In s (filter (fun s => JS.includes (Student.courses s) c)
                       (AttendanceReports.students st))) as Hin
      by (apply filter_In; split; [exact Hs | now apply includes_In]).
  destruct (filter _ (AttendanceReports.students st)) as [| s0 l];
    [destruct Hin |].
  split; [simpl; lia | reflexivity].
Qed.

Lemma listed_course_has_registered_students_witness :
  In "MTH301"
     (AttendanceReports.shownCourses
        (AttendanceReports.mkState "" None [Sample.ada; Sample.bola] []
           false None))
  /\ (1 <= AttendanceReports.registered
             (AttendanceReports.getCourseStats [Sample.ada; Sample.bola] []
                "MTH301"))%nat.
Proof.
  assert (In "MTH301"
            (AttendanceReports.shownCourses
               (AttendanceReports.mkState "" None [Sample.ada; Sample.bola] []
                  false None))) as H.
  { cbn. right. right. left. reflexivity. }
  split; [exact H |].
  exact (proj1 (listed_course_has_registered_students
                  (AttendanceReports.mkState "" None [Sample.ada; Sample.bola]
                     [] false None) "MTH301" eq_refl H)).
Defined.

(* ===================================================================== *)
(** ** The student-details screen *)
(* ===================================================================== *)

Lemma StronglySorted_snoc {A} (R : A -> A -> Prop) (l : list A) (a : A) :
  StronglySorted R l -> Forall (fun x => R x a) l ->
  StronglySorted R (l ++ [a]).
Proof.
  induction 1 as [| x l Hs IH Hx]; intros Ha; simpl.
  - repeat constructor.
  - inversion Ha; subst. constructor; [now apply IH |].
    apply Forall_app. split; [exact Hx | repeat constructor; assumption].
Qed.

Lemma ascending_rev (l : list string) :
  Spec.ascending l -> Spec.descending (rev l).
Proof.
  unfold Spec.ascending, Spec.descending.
  induction 1 as [| x l Hs IH Hx]; simpl; [constructor |].
  apply StronglySorted_snoc; [exact IH |].
  apply Forall_rev. exact Hx.
Qed.

(** X15. The items of the session filter are the sessions of the students, each
    once, from the latest down; those of the semester filter are the
    semesters, each once, in ascending order. *)
Theorem session_and_semester_items (st : StudentDetails.State) :
  (forall x, In x (StudentDetails.sessions st)
             <-> exists s, In s (StudentDetails.students st)
                           /\ Student.session s = x)
  /\ NoDup (StudentDetails.sessions st)
  /\ Spec.descending (StudentDetails.sessions st)
  /\ (forall x, In x (StudentDetails.semesters st)
                <-> exists s, In s (StudentDetails.students st)
                              /\ Student.semester s = x)
  /\ NoDup (StudentDetails.semesters st)
  /\ Spec.ascending (StudentDetails.semesters st).
Proof.
  unfold StudentDetails.sessions, StudentDetails.semesters, JS.reverse.
  assert (Hnd : forall l, NoDup (JS.Array_from_Set l))
    by (intros l; apply fold_Set_add_NoDup; constructor).
  assert (Hin : forall l x, In x (JS.sort (JS.Array_from_Set l)) <-> In x l).
  { intros l x. rewrite <- (Permutation_in' (eq_refl x) (sort_perm _)).
    unfold JS.Array_from_Set. rewrite fold_Set_add_In. simpl. tauto. }
  assert (Hmap : forall (f : Student.t -> string) x,
            In x (map f (StudentDetails.students st))
            <-> exists s, In s (StudentDetails.students st) /\ f s = x).
  { intros f x. rewrite in_map_iff. split; intros [s [H1 H2]]; eauto. }
  split; [intros x; now rewrite <- in_rev, Hin, Hmap |].
  split.
  { apply NoDup_rev. eapply Permutation_NoDup; [apply sort_perm | apply Hnd]. }
  split; [apply ascending_rev, sort_ascending, Hnd |].
  split; [intros x; now rewrite Hin, Hmap |].
  split; [eapply Permutation_NoDup; [apply sort_perm | apply Hnd] |].
  apply sort_ascending, Hnd.
Qed.

Lemma prefix_app (q s : string) :
  String.prefix q s = true <-> exists post, s = q ++ post.
Proof.
  revert s. induction q as [| c q IH]; intros s; simpl.
  - destruct s; split; eauto.
  - destruct s as [| c' s]; simpl.
    + split; [discriminate | intros [post H]; discriminate].
    + destruct (ascii_dec c c') as [<- | n].
      * rewrite IH. split; intros [post H]; exists post; congruence.
      * split; [discriminate | intros [post H]; congruence].
Qed.

Lemma String_includes_eq (s q : string) :
  JS.String_includes s q
  = if String.prefix q s then true
    else match s with
         | EmptyString => false
         | String _ s' => JS.String_includes s' q
         end.
Proof. destruct s; reflexivity. Qed.

(** [includes] on strings finds the text at some position. *)
Lemma String_includes_spec (s q : string) :
  JS.String_includes s q = true <-> exists pre post, s = pre ++ q ++ post.
Proof.
  induction s as [| c s IH]; rewrite String_includes_eq;
    destruct (String.prefix q _) eqn:P.
  - split; [intros _ | reflexivity].
    apply prefix_app in P. destruct P as [post H]. exists "", post. exact H.
  - split; [discriminate |]. intros [pre [post H]].
    destruct pre; simpl in H; [| discriminate].
    assert (String.prefix q "" = true) as T by (apply prefix_app; eauto).
    congruence.
  - split; [intros _ | reflexivity].
    apply prefix_app in P. destruct P as [post H]. exists "", post. exact H.
  - rewrite IH. split.
    + intros [pre [post H]]. exists (String c pre), post. simpl.
      now rewrite H.
    + intros [pre [post H]]. destruct pre as [| c' pre]; simpl in H.
      * assert (String.prefix q (String c s) = true) as T
            by (apply prefix_app; eauto).
        congruence.
      * injection H as _ H. eauto.
Qed.

Lemma truthy_toLowerCase (s : string) :
  JS.truthy (JS.toLowerCase s) = JS.truthy s.
Proof. destruct s; reflexivity. Qed.

Lemma truthy_iff (s : string) : JS.truthy s = true <-> s <> "".
Proof.
  unfold JS.truthy. rewrite negb_true_iff. apply String.eqb_neq.
Qed.

Lemma falsy_iff (s : string) : negb (JS.truthy s) = true <-> s = "".
Proof.
  unfold JS.truthy. rewrite negb_involutive. apply String.eqb_eq.
Qed.

(** X16. A student is listed exactly when the session filter is unset or equal
    to the student's session, the same for the semester, and the query is
    empty or occurs, letter case apart, in the name or in the matriculation
    number.  With no filter all students are listed, and two queries that
    are equal once lower-cased give the same list. *)
Theorem filtered_students_spec (st : StudentDetails.State) :
  (forall s,
      In s (StudentDetails.filteredStudents st)
      <-> In s (StudentDetails.students st)
          /\ (StudentDetails.selectedSession st = ""
              \/ Student.session s = StudentDetails.selectedSession st)
          /\ (StudentDetails.selectedSemester st = ""
              \/ Student.semester s = StudentDetails.selectedSemester st)
          /\ (StudentDetails.searchQuery st = ""
              \/ (exists pre post,
                    JS.toLowerCase (Student.fullName s)
                    = pre ++ JS.toLowerCase (StudentDetails.searchQuery st)
                          ++ post)
              \/ (exists pre post,
                    JS.toLowerCase (Student.matricNumber s)
                    = pre ++ JS.toLowerCase (StudentDetails.searchQuery st)
                          ++ post)))
  /\ (StudentDetails.selectedSession st = "" ->
      StudentDetails.selectedSemester st = "" ->
      StudentDetails.searchQuery st = "" ->
      StudentDetails.filteredStudents st = StudentDetails.students st)
  /\ (forall q w,
        JS.toLowerCase q = JS.toLowerCase (StudentDetails.searchQuery st) ->
        StudentDetails.filteredStudents
          (ui (exec (StudentDetails.setSearchQuery q) (mkSys st w)))
        = StudentDetails.filteredStudents st).
Proof.
  split; [| split].
  - intros s. unfold StudentDetails.filteredStudents.
    rewrite filter_In. cbv zeta.
    rewrite !andb_true_iff, !orb_true_iff, !falsy_iff, !String.eqb_eq,
      !String_includes_spec.
    tauto.
  - intros H1 H2 H3. unfold StudentDetails.filteredStudents.
    rewrite H1, H2, H3. apply filter_none. reflexivity.
  - intros q w Hq. unfold StudentDetails.filteredStudents. cbn.
    rewrite Hq, <- (truthy_toLowerCase q), Hq, truthy_toLowerCase.
    reflexivity.
Qed.

(* ===================================================================== *)
(** ** What the actions leave alone *)
(* ===================================================================== *)

Lemma eq_db_trans (d1 d2 d3 : Supabase.DB) : d1 = d2 -> d2 = d3 -> d1 = d3.
Proof. congruence. Qed.

Lemma step_reads (w : World) (a : App.Action) :
  App.reads a = true -> frame Spec.is_select eq w (App.step w a).
Proof.
  destruct a as [now form | screen | now screen | screen | screen
                 | arrival screen];
    cbn [App.reads]; intros H; try discriminate H;
    cbn [App.step]; as_preserves w.
  - unfold StudentVerification.handleSearch, StudentVerification.setLoading,
      StudentVerification.setMessage, StudentVerification.setSelectedStudent,
      students_eq_matricNumber_single.
    frame_walk (@eq_refl Supabase.DB) eq_db_trans.
  - unfold AttendanceReports.fetchData, AttendanceReports.setLoading,
      AttendanceReports.setError, AttendanceReports.setStudents,
      AttendanceReports.setAttendanceRecords, students_select_all,
      course_attendance_select_all.
    frame_walk (@eq_refl Supabase.DB) eq_db_trans.
  - unfold StudentDetails.fetchData, StudentDetails.setLoading,
      StudentDetails.setError, StudentDetails.setStudents,
      StudentDetails.setAttendanceRecords, students_select_all,
      attendance_records_select_all.
    frame_walk (@eq_refl Supabase.DB) eq_db_trans.
  - unfold HomeScreen.loadData, HomeScreen.loadAttendance_resume,
      HomeScreen.loadStudents_resume, HomeScreen.loadStudents_rest,
      HomeScreen.loadStudents_finish, HomeScreen.settled,
      HomeScreen.loadData_finally, HomeScreen.loadData_catch,
      HomeScreen.setLoading, HomeScreen.setError, HomeScreen.setStudents,
      HomeScreen.setAttendanceRecords, students_select_all,
      attendance_records_select_all, student_courses_select_all.
    frame_walk (@eq_refl Supabase.DB) eq_db_trans.
Qed.

(** X17. Searching a student and opening the reports, the student details or the
    home screen never change the store, whatever the remote calls answer:
    they send select requests only. *)
Theorem reading_never_writes (w : World) (a : App.Action)
    (Hreads : App.reads a = true) :
  db (App.step w a) = db w
  /\ Forall Spec.is_select (new_requests w (App.step w a)).
Proof.
  pose proof (step_reads w a Hreads) as H.
  split; [symmetry; apply H | eapply frame_new_requests, H].
Qed.

Lemma reading_never_writes_witness :
  App.reads (App.Search Sample.ada_csc301) = true
  /\ db (App.step Sample.lookup_fails (App.Search Sample.ada_csc301))
     = db Sample.lookup_fails.
Proof.
  split; [reflexivity |].
  exact (proj1 (reading_never_writes Sample.lookup_fails
                  (App.Search Sample.ada_csc301) eq_refl)).
Defined.

(* ===================================================================== *)
(** ** What the registration form can store *)
(* ===================================================================== *)

Lemma check_keeps_store (m : string) (C : list string)
    (s : Sys StudentRegistration.State) :
  db (world (snd (StudentRegistration.checkDuplicateRegistration m C s)))
  = db (world s).
Proof.
  unfold StudentRegistration.checkDuplicateRegistration, bind, inWorld,
    students_eq_matricNumber_single, call, StudentRegistration.setLoading,
    setState.
  cbn [ui world].
  destruct (net (world s)) as [| [| e] rest]; cbn [fst snd ui world];
    try (destruct (Supabase.single _) as [[row |] err]; cbn;
         unfold StudentRegistration.otherThanNoRows; cbn;
         destruct err as [e' |]; cbn;
         try destruct (String.eqb (Supabase.code e') "PGRST116");
         reflexivity).
  unfold StudentRegistration.otherThanNoRows. cbn.
  destruct (String.eqb (Supabase.code e) "PGRST116"); reflexivity.
Qed.

Lemma insert_keeps_or_adds (row : Student.t) (w : World) :
  Supabase.students (db (snd (students_insert row w)))
  = Supabase.students (db w)
  \/ Supabase.students (db (snd (students_insert row w)))
     = (Supabase.students (db w) ++ [row])%list.
Proof.
  unfold students_insert, call.
  destruct (net w) as [| [| e] rest]; cbn; auto.
Qed.

Lemma adds_form_rows_refl (w w' : World) :
  Supabase.students (db w') = Supabase.students (db w) ->
  adds_students Spec.form_row w w'.
Proof.
  intros H. exists []. split; [now rewrite app_nil_r | constructor].
Qed.

Lemma adds_form_rows_trans (w1 w2 w3 : World) :
  adds_students Spec.form_row w1 w2 -> adds_students Spec.form_row w2 w3 -> adds_students Spec.form_row w1 w3.
Proof.
  intros [a1 [E1 F1]] [a2 [E2 F2]]. exists (a1 ++ a2)%list. split.
  - now rewrite E2, E1, app_assoc.
  - apply Forall_app. split; assumption.
Qed.

Lemma emptyForm_invariant :
  Spec.form_invariant StudentRegistration.emptyForm.
Proof.
  unfold Spec.form_invariant, StudentRegistration.emptyForm. cbn.
  split; [now left |]. split; [reflexivity |].
  split; [now left |]. split; [now left |].
  split; [constructor | intros x []].
Qed.

Lemma submit_keeps_invariant (now : Clock) (s : Sys StudentRegistration.State) :
  Spec.form_invariant (StudentRegistration.formData (ui s)) ->
  Spec.form_invariant
    (StudentRegistration.formData
       (ui (exec (StudentRegistration.handleSubmit now) s)))
  /\ adds_students Spec.form_row (world s)
       (world (exec (StudentRegistration.handleSubmit now) s)).
Proof.
  destruct s as [st w]. cbn [ui world]. intros Hinv.
  destruct (complete_dec (StudentRegistration.formData st)) as [Hc | Hc].
  - rewrite (handleSubmit_complete now st w Hc). cbv zeta.
    pose proof (check_keeps_store
                  (StudentRegistration.matricNumber
                     (StudentRegistration.formData st))
                  (StudentRegistration.courses
                     (StudentRegistration.formData st))
                  (mkSys (StudentRegistration.mkState
                            (StudentRegistration.formData st)
                            (StudentRegistration.message st) true) w))
      as Hdb.
    cbn [world] in Hdb.
    destruct (StudentRegistration.checkDuplicateRegistration _ _ _)
      as [dup [st1 w1]].
    cbn [fst snd world] in *.
    destruct dup as [| c0 dup].
    + match goal with
      | |- context [students_insert ?r w1] => set (row := r)
      end.
      pose proof (insert_keeps_or_adds row w1) as Hins.
      destruct (students_insert row w1) as [resp w2].
      cbn [fst snd] in *.
      assert (Hrel : adds_students Spec.form_row w w2).
      { destruct Hins as [E | E].
        - apply adds_form_rows_refl. congruence.
        - exists [row]. split; [congruence |].
          constructor; [| constructor].
          destruct Hc as (Hn & Hm & Hi & Hcs).
          destruct Hinv as (Himg & Hup & Hse & Hsm & Hnd & Hin).
          unfold Spec.form_row, row. cbn.
          repeat split; try assumption.
          destruct Himg as [E0 | E0]; [contradiction | exact E0]. }
      destruct (Supabase.error resp); cbn [ui world
        StudentRegistration.formData].
      * split; [exact Hinv |].
        destruct Hrel as [added [E F]]. exists added. split; assumption.
      * split.
        -- apply emptyForm_invariant.
        -- destruct Hrel as [added [E F]]. exists added. split; assumption.
    + cbn [ui world StudentRegistration.formData].
      split; [exact Hinv | apply adds_form_rows_refl; congruence].
  - rewrite (handleSubmit_incomplete now st w Hc).
    cbn [ui world StudentRegistration.formData].
    split; [exact Hinv | now apply adds_form_rows_refl].
Qed.

Lemma handle_keeps_invariant (e : StudentRegistration.Event)
    (s : Sys StudentRegistration.State) :
  StudentRegistration.offered e ->
  Spec.form_invariant (StudentRegistration.formData (ui s)) ->
  Spec.form_invariant
    (StudentRegistration.formData
       (ui (exec (StudentRegistration.handle e) s)))
  /\ adds_students Spec.form_row (world s)
       (world (exec (StudentRegistration.handle e) s)).
Proof.
  intros Hoff Hinv.
  destruct e as [text | text | v | v | | c | now |];
    cbn [StudentRegistration.handle StudentRegistration.offered] in *;
    try (apply submit_keeps_invariant; exact Hinv);
    (split; [| apply adds_form_rows_refl; reflexivity]);
    destruct Hinv as (Himg & Hup & Hse & Hsm & Hnd & Hin);
    unfold Spec.form_invariant; cbn.
  - repeat split; assumption.
  - repeat split; try assumption. apply toUpperCase_idempotent.
  - repeat split; assumption.
  - repeat split; assumption.
  - repeat split; try assumption. now right.
  - repeat split; try assumption.
    + destruct (JS.includes _ c) eqn:E.
      * now apply NoDup_filter.
      * apply NoDup_snoc; [exact Hnd | now apply includes_false].
    + destruct (JS.includes _ c) eqn:E.
      * intros x Hx. apply filter_In in Hx. apply Hin, Hx.
      * intros x Hx. apply in_app_iff in Hx.
        destruct Hx as [Hx | [<- | []]]; [now apply Hin | exact Hoff].
  - repeat split; assumption.
Qed.

(** X18. Starting from the empty form and whatever the remote calls answer, the
    events of the registration screen add to the students table only rows
    with a non-empty name, an upper-cased non-empty matriculation number,
    the placeholder image, a session and a semester among the picker items
    and a non-empty, repetition-free list of available courses; the rows
    that were there stay in place. *)
Theorem form_stores_only_well_formed_rows
    (events : list StudentRegistration.Event) (w : World)
    (Hoffered : Forall StudentRegistration.offered events) :
  let final := StudentRegistration.play events
                 (mkSys StudentRegistration.initialState w) in
  (exists added,
      Supabase.students (db (world final))
      = (Supabase.students (db w) ++ added)%list
      /\ Forall Spec.form_row added)
  /\ Spec.form_invariant (StudentRegistration.formData (ui final)).
Proof.
  cbv zeta.
  assert (Hgen : forall s,
            Spec.form_invariant (StudentRegistration.formData (ui s)) ->
            adds_students Spec.form_row (world s)
              (world (StudentRegistration.play events s))
            /\ Spec.form_invariant
                 (StudentRegistration.formData
                    (ui (StudentRegistration.play events s)))).
  { induction Hoffered as [| e events He _ IH]; intros s Hinv.
    - split; [now apply adds_form_rows_refl | exact Hinv].
    - destruct (handle_keeps_invariant e s He Hinv) as [Hinv' Hrel].
      destruct (IH _ Hinv') as [Hrel' Hfinal].
      cbn [StudentRegistration.play fold_left] in *.
      split; [eapply adds_form_rows_trans; eassumption | exact Hfinal]. }
  destruct (Hgen (mkSys StudentRegistration.initialState w)
              emptyForm_invariant) as [Hrel Hinv].
  split; assumption.
Qed.

Lemma form_stores_only_well_formed_rows_witness :
  Forall StudentRegistration.offered
    [StudentRegistration.TypeFullName "Bola Musa";
     StudentRegistration.TypeMatricNumber "csc/2020/002";
     StudentRegistration.PressSelectImage;
     StudentRegistration.PressCourse "STA 301 - Statistics";
     StudentRegistration.PressRegister Sample.clock]
  /\ Spec.form_invariant
       (StudentRegistration.formData
          (ui (StudentRegistration.play
                 [StudentRegistration.TypeFullName "Bola Musa";
                  StudentRegistration.TypeMatricNumber "csc/2020/002";
                  StudentRegistration.PressSelectImage;
                  StudentRegistration.PressCourse "STA 301 - Statistics";
                  StudentRegistration.PressRegister Sample.clock]
                 (mkSys StudentRegistration.initialState Sample.online)))).
Proof.
  assert (Forall StudentRegistration.offered
            [StudentRegistration.TypeFullName "Bola Musa";
             StudentRegistration.TypeMatricNumber "csc/2020/002";
             StudentRegistration.PressSelectImage;
             StudentRegistration.PressCourse "STA 301 - Statistics";
             StudentRegistration.PressRegister Sample.clock]) as H.
  { repeat (apply Forall_cons; [cbn; auto 12 |]). constructor. }
  split; [exact H |].
  exact (proj2 (form_stores_only_well_formed_rows _ Sample.online H)).
Defined.

Example form_run :
  Supabase.students
    (db (world (StudentRegistration.play
                  [StudentRegistration.TypeFullName "Bola Musa";
                   StudentRegistration.TypeMatricNumber "csc/2020/002";
                   StudentRegistration.PressSelectImage;
                   StudentRegistration.PressCourse "STA 301 - Statistics";
                   StudentRegistration.PressRegister Sample.clock]
                  (mkSys StudentRegistration.initialState Sample.online))))
  = [Sample.ada; Sample.bola;
     Student.mk "1736499600000" "Bola Musa" "CSC/2020/002"
       "https://via.placeholder.com/150" "2024/2025" "First Semester"
       ["STA 301 - Statistics"] "2025-01-10T09:00:00.000Z"].
Proof. reflexivity. Qed.

(* ===================================================================== *)
(** ** From marking to the reports *)
(* ===================================================================== *)

Lemma delivered_after_two (w : World) (d : Supabase.DB) (c : list string)
    (s : list Supabase.Request) (t : list nat) :
  delivered 4 w -> delivered 2 (mkWorld d (tl (tl (net w))) c s t).
Proof.
  unfold delivered. cbn [net].
  destruct (net w) as [| o1 [| o2 l]]; cbn [tl firstn]; try constructor.
  intros H. inversion H as [| ? ? _ Ha]; inversion Ha as [| ? ? _ Hb].
  exact Hb.
Qed.

(** X19. Once attendance is marked for a course and the reports screen is opened,
    all four calls being delivered, the attended count of that course is one
    more than the store held before and the counts of the other courses and
    all registered counts are what they were. *)
Theorem marking_raises_attended_by_one
    (now : Clock) (st : StudentVerification.State)
    (reports : AttendanceReports.State) (w : World) (student : Student.t)
    (Hsel : StudentVerification.selectedStudent st = Some student)
    (Hcourse : StudentVerification.selectedCourse st <> "")
    (Hinv : JS.trim (StudentVerification.invigilatorName st) <> "")
    (Hnet : delivered 4 w)
    (Hfree : ~ Spec.verified (db w) (Student.matricNumber student)
               (StudentVerification.selectedCourse st)) :
  let marked := exec (StudentVerification.handleMarkAttendance now)
                     (mkSys st w) in
  let opened := ui (exec AttendanceReports.fetchData
                         (mkSys reports (world marked))) in
  let stats c :=
    AttendanceReports.getCourseStats (AttendanceReports.students opened)
      (AttendanceReports.attendanceRecords opened) c in
  let before c :=
    AttendanceReports.getCourseStats (Supabase.students (db w))
      (Supabase.course_attendance (db w)) c in
  forall c,
    AttendanceReports.attended (stats c)
    = (AttendanceReports.attended (before c)
       + if String.eqb (StudentVerification.selectedCourse st) c
         then 1 else 0)%nat
    /\ AttendanceReports.registered (stats c)
       = AttendanceReports.registered (before c).
Proof.
  intros marked opened stats before c.
  assert (H2 : delivered 2 w)
    by (apply delivered_weaken, delivered_weaken; exact Hnet).
  assert (Hmarked := handleMarkAttendance_marks now st w student Hsel Hcourse
                       Hinv H2 Hfree).
  cbv zeta in Hmarked.
  assert (Hload : delivered 2 (world marked))
    by (unfold marked; rewrite Hmarked; cbn [world];
        now apply delivered_after_two).
  destruct (AttendanceReports_fetchData_delivered reports (world marked) Hload)
    as (Hrecords & Hstudents & _).
  fold opened in Hrecords, Hstudents.
  unfold stats, before, AttendanceReports.getCourseStats.
  cbn [AttendanceReports.attended AttendanceReports.registered].
  rewrite Hrecords, Hstudents. unfold marked. rewrite Hmarked.
  cbn [world db Supabase.set_course_attendance Supabase.course_attendance
       Supabase.students].
  split; [| reflexivity].
  unfold AttendanceReports.getAttendanceForCourse.
  rewrite filter_app, length_app. cbn.
  destruct (String.eqb (StudentVerification.selectedCourse st) c); reflexivity.
Qed.

Lemma marking_raises_attended_by_one_witness :
  delivered 4 Sample.online
  /\ ~ Spec.verified (db Sample.online) "CSC/2020/002" "CSC301"
  /\ AttendanceReports.attended
       (AttendanceReports.getCourseStats
          (AttendanceReports.students
             (ui (exec AttendanceReports.fetchData
                    (mkSys AttendanceReports.initialState
                       (world (exec (StudentVerification.handleMarkAttendance
                                       Sample.clock)
                                 (mkSys Sample.bola_csc301 Sample.online)))))))
          (AttendanceReports.attendanceRecords
             (ui (exec AttendanceReports.fetchData
                    (mkSys AttendanceReports.initialState
                       (world (exec (StudentVerification.handleMarkAttendance
                                       Sample.clock)
                                 (mkSys Sample.bola_csc301 Sample.online)))))))
          "CSC301")
     = (AttendanceReports.attended
          (AttendanceReports.getCourseStats
             (Supabase.students (db Sample.online))
             (Supabase.course_attendance (db Sample.online)) "CSC301")
        + (if String.eqb "CSC301" "CSC301" then 1 else 0))%nat.
Proof.
  assert (StudentVerification.selectedCourse Sample.bola_csc301 <> "")
    as Hc by discriminate.
  assert (JS.trim (StudentVerification.invigilatorName Sample.bola_csc301)
          <> "") as Hi by discriminate.
  assert (delivered 4 Sample.online) as Hnet by constructor.
  assert (~ Spec.verified (db Sample.online) "CSC/2020/002" "CSC301") as Hfree.
  { intros [a ([<- | []] & Hm & _)]. discriminate Hm. }
  split; [exact Hnet |]. split; [exact Hfree |].
  exact (proj1 (marking_raises_attended_by_one Sample.clock Sample.bola_csc301
                  AttendanceReports.initialState Sample.online Sample.bola
                  eq_refl Hc Hi Hnet Hfree "CSC301")).
Defined.

Lemma hasAttended_iff (records : list CourseAttendance.t)
    (student : Student.t) (course : string) :
  StudentDetails.hasAttended records student course = true
  <-> In course
         (map CourseAttendance.courseCode
              (StudentDetails.getStudentAttendance records
                 (Student.matricNumber student))).
Proof.
  unfold StudentDetails.hasAttended, JS.some. rewrite existsb_exists.
  rewrite in_map_iff. split.
  - intros [a [Ha E]]. apply String.eqb_eq in E. eauto.
  - intros [a [E Ha]]. exists a. split; [exact Ha | now apply String.eqb_eq].
Qed.

(** X20. On a student's card a course is ticked exactly when one of the student's
    attendance rows bears its code.  When the student lists no course twice
    and has at most one row per course, all for listed courses, the "attended"
    figure is the number of ticked courses and does not exceed the number of
    courses. *)
Theorem attended_figure_matches_ticks
    (records : list CourseAttendance.t) (student : Student.t)
    (Hcourses : NoDup (Student.courses student))
    (Hrows : NoDup (map CourseAttendance.courseCode
                      (StudentDetails.getStudentAttendance records
                         (Student.matricNumber student))))
    (Hlisted : forall a,
       In a (StudentDetails.getStudentAttendance records
               (Student.matricNumber student)) ->
       In (CourseAttendance.courseCode a) (Student.courses student)) :
  (forall course,
      StudentDetails.hasAttended records student course = true
      <-> exists a, In a records
                    /\ CourseAttendance.matricNumber a
                       = Student.matricNumber student
                    /\ CourseAttendance.courseCode a = course)
  /\ List.length (StudentDetails.getStudentAttendance records
                    (Student.matricNumber student))
     = List.length (filter (StudentDetails.hasAttended records student)
                           (Student.courses student))
  /\ (List.length (StudentDetails.getStudentAttendance records
                     (Student.matricNumber student))
      <= List.length (Student.courses student))%nat.
Proof.
  set (rows := StudentDetails.getStudentAttendance records
                 (Student.matricNumber student)) in *.
  assert (Hlen : List.length rows
                 = List.length (filter (StudentDetails.hasAttended records
                                          student)
                                       (Student.courses student))).
  { rewrite <- (length_map CourseAttendance.courseCode rows).
    apply Permutation_length, NoDup_Permutation.
    - exact Hrows.
    - now apply NoDup_filter.
    - intros c. rewrite filter_In, hasAttended_iff. fold rows. split.
      + intros Hin. split; [| exact Hin].
        apply in_map_iff in Hin. destruct Hin as [a [<- Ha]].
        now apply Hlisted.
      + tauto. }
  split.
  { intros course. rewrite hasAttended_iff. fold rows. rewrite in_map_iff.
    unfold rows, StudentDetails.getStudentAttendance. split.
    - intros [a [E Ha]]. apply filter_In in Ha. destruct Ha as [Ha Hm].
      apply String.eqb_eq in Hm. eauto.
    - intros [a (Ha & Hm & E)]. exists a. split; [exact E |].
      apply filter_In. split; [exact Ha | now apply String.eqb_eq]. }
  split; [exact Hlen |].
  rewrite Hlen. apply filter_length_le.
Qed.

Lemma attended_figure_matches_ticks_witness :
  List.length (StudentDetails.getStudentAttendance
                 [Sample.row "7" "CSC/2020/001" "CSC301"]
                 (Student.matricNumber Sample.ada))
  = List.length (filter (StudentDetails.hasAttended
                           [Sample.row "7" "CSC/2020/001" "CSC301"] Sample.ada)
                        (Student.courses Sample.ada)).
Proof.
  refine (proj1 (proj2 (attended_figure_matches_ticks
                          [Sample.row "7" "CSC/2020/001" "CSC301"] Sample.ada
                          _ _ _))).
  - repeat constructor; simpl; intuition discriminate.
  - repeat constructor; simpl; intuition.
  - intros a [<- | []]. left. reflexivity.
Defined.

(** X21. Once a form is registered and the reports screen is opened, all four
    calls being delivered, the registered count of every course of the form
    is one more than before, the other counts are what they were, and every
    course of the form is among the courses the screen lists. *)
Theorem registration_raises_registered_by_one
    (now : Clock) (st : StudentRegistration.State)
    (reports : AttendanceReports.State) (w : World)
    (Hform : Spec.complete (StudentRegistration.formData st))
    (Hnet : delivered 4 w)
    (Hfree : eval (StudentRegistration.checkDuplicateRegistration
                     (StudentRegistration.matricNumber
                        (StudentRegistration.formData st))
                     (StudentRegistration.courses
                        (StudentRegistration.formData st)))
                  (mkSys st w) = []) :
  let C := StudentRegistration.courses (StudentRegistration.formData st) in
  let registered := exec (StudentRegistration.handleSubmit now) (mkSys st w) in
  let opened := ui (exec AttendanceReports.fetchData
                         (mkSys reports (world registered))) in
  let stats c :=
    AttendanceReports.getCourseStats (AttendanceReports.students opened)
      (AttendanceReports.attendanceRecords opened) c in
  let before c :=
    AttendanceReports.getCourseStats (Supabase.students (db w))
      (Supabase.course_attendance (db w)) c in
  forall c,
    AttendanceReports.registered (stats c)
    = (AttendanceReports.registered (before c)
       + if JS.includes C c then 1 else 0)%nat
    /\ AttendanceReports.attended (stats c)
       = AttendanceReports.attended (before c)
    /\ (In c C ->
        In c (AttendanceReports.allCourses
                (AttendanceReports.students opened))).
Proof.
  intros C registered opened stats before c.
  assert (H2 : delivered 2 w)
    by (apply delivered_weaken, delivered_weaken; exact Hnet).
  assert (Hreg := handleSubmit_stores now st w Hform H2 Hfree).
  cbv zeta in Hreg.
  assert (Hload : delivered 2 (world registered))
    by (unfold registered; rewrite Hreg; cbn [world];
        now apply delivered_after_two).
  destruct (AttendanceReports_fetchData_delivered reports (world registered)
              Hload) as (Hrecords & Hstudents & _).
  fold opened in Hrecords, Hstudents.
  unfold stats, before, AttendanceReports.getCourseStats.
  cbn [AttendanceReports.attended AttendanceReports.registered].
  rewrite Hrecords, Hstudents. unfold registered. rewrite Hreg.
  cbn [world db Supabase.set_students Supabase.course_attendance
       Supabase.students].
  split; [| split; [reflexivity |]].
  - unfold AttendanceReports.getStudentsForCourse.
    rewrite filter_app, length_app. cbn. fold C.
    destruct (JS.includes C c); reflexivity.
  - intros Hc. apply allCourses_In. eexists. split.
    + apply in_or_app. right. left. reflexivity.
    + exact Hc.
Qed.

Lemma registration_raises_registered_by_one_witness :
  Spec.complete (StudentRegistration.formData Sample.bola_again)
  /\ delivered 4 (mkWorld (Supabase.mkDB [Sample.ada] [] [] [] (fun _ => "1"))
                    [] [] [] [])
  /\ In "CSC301"
        (AttendanceReports.allCourses
           (AttendanceReports.students
              (ui (exec AttendanceReports.fetchData
                     (mkSys AttendanceReports.initialState
                        (world (exec (StudentRegistration.handleSubmit
                                        Sample.clock)
                                  (mkSys Sample.bola_again
                                     (mkWorld (Supabase.mkDB [Sample.ada] [] [] []
                                                 (fun _ => "1"))
                                        [] [] [] []))))))))).
Proof.
  assert (Spec.complete (StudentRegistration.formData Sample.bola_again))
    as Hform by (repeat split; discriminate).
  assert (delivered 4 (mkWorld (Supabase.mkDB [Sample.ada] [] [] []
                                  (fun _ => "1")) [] [] [] []))
    as Hnet by constructor.
  split; [exact Hform |]. split; [exact Hnet |].
  exact (proj2 (proj2 (registration_raises_registered_by_one Sample.clock
                         Sample.bola_again AttendanceReports.initialState _
                         Hform Hnet eq_refl "CSC301"))
           (or_introl eq_refl)).
Defined.

(* ===================================================================== *)
(** ** The home screen *)
(* ===================================================================== *)



